(** * build-your-own-radar: the ingestion pipeline of [src/util/factory.js]

    A shallow embedding of the radar factory (source resolution, the CSV,
    JSON and sheet builders, [plotRadar], [plotError]) together with the
    message table of [exceptionMessages.js], the properties that the
    specification states about them, and further properties that the code
    itself shows.

    Conventions.
    - A JavaScript string is a [string]: the bytes of its UTF-8 encoding.
      Comparisons with ASCII literals, [endsWith], [substring] at an ASCII
      suffix and the ASCII-only character classes of the regular
      expressions are exact on that representation.
    - A function that can throw returns in the monad [M], which records
      the calls made to collaborators (the trace) and ends either with a
      value or with the exception thrown.
    - Collaborators whose source is not part of [factory.js] are section
      variables (lodash [capitalize], validator, sanitizers) or inputs
      (what a fetch delivered, what a callback was invoked with). *)

From stdpp Require Import gmap strings list sorting.
From Stdlib Require Import ZArith Ascii.

(** ** The host language: strings, URI decoding, regular expressions, objects *)

Module JS.

Definition chars (s : string) : list ascii := String.list_ascii_of_string s.
Definition str (l : list ascii) : string := String.string_of_list_ascii l.

Definition code (c : ascii) : N := N_of_ascii c.

Definition between (lo hi n : N) : bool := (lo <=? n)%N && (n <=? hi)%N.

(** [s.endsWith(suffix)] *)
Definition endsWith (s suffix : string) : bool :=
  bool_decide (chars suffix `suffix_of` chars s).

(** [s.substring(0, s.length - n)] *)
Definition dropEnd (n : nat) (s : string) : string :=
  str (take (length (chars s) - n) (chars s)).

(** [String.prototype.toLowerCase] on the ASCII letters; bytes of other
    characters are left as they are. Outside ASCII only the Kelvin sign
    lower-cases to an ASCII letter, "k", so the comparison of a lower-cased
    string with "true" is exact. It is used for that comparison only. *)
Definition lowerChar (c : ascii) : ascii :=
  if between 65 90 (code c) then ascii_of_N (code c + 32) else c.

Definition toLowerCase (s : string) : string := str (lowerChar <$> chars s).

(** [s.replace(/\+/g, ' ')] *)
Definition plusToSpace (s : string) : string :=
  str ((λ c, if decide (c = "+"%char) then " "%char else c) <$> chars s).

(** A value is truthy unless it is [undefined]/[null] or the empty string. *)
Definition truthy (v : option string) : bool :=
  match v with
  | Some s => negb (bool_decide (s = ""))
  | None => false
  end.

(** *** [decodeURIComponent]

    [None] stands for the [URIError] thrown on a malformed escape. An
    escape sequence is first read as a byte; bytes above 127 must then
    spell one well-formed UTF-8 sequence, which is what the decoded
    character is encoded as. *)

Definition hexDigit (c : ascii) : option N :=
  let n := code c in
  if between 48 57 n then Some (n - 48)%N
  else if between 65 70 n then Some (n - 55)%N
  else if between 97 102 n then Some (n - 87)%N
  else None.

Inductive UriToken :=
| Literal (c : ascii)
| Escape (b : N).

Fixpoint uriTokens (l : list ascii) : option (list UriToken) :=
  match l with
  | [] => Some []
  | c :: rest =>
      if decide (c = "%"%char) then
        match rest with
        | h :: rest1 =>
            match rest1 with
            | k :: rest2 =>
                hi ← hexDigit h;
                lo ← hexDigit k;
                ts ← uriTokens rest2;
                Some (Escape (16 * hi + lo)%N :: ts)
            | [] => None
            end
        | [] => None
        end
      else
        ts ← uriTokens rest;
        Some (Literal c :: ts)
  end.

(** The ranges allowed for the bytes that follow a lead byte. *)
Definition continuationRanges (b : N) : option (list (N * N)) :=
  let tail := (128, 191)%N in
  if between 194 223 b then Some [tail]
  else if (b =? 224)%N then Some [(160, 191)%N; tail]
  else if between 225 236 b then Some [tail; tail]
  else if (b =? 237)%N then Some [(128, 159)%N; tail]
  else if between 238 239 b then Some [tail; tail]
  else if (b =? 240)%N then Some [(144, 191)%N; tail; tail]
  else if between 241 243 b then Some [tail; tail; tail]
  else if (b =? 244)%N then Some [(128, 143)%N; tail; tail]
  else None.

Fixpoint decodeTokens (expected : list (N * N)) (ts : list UriToken)
  : option (list ascii) :=
  match ts with
  | [] => match expected with [] => Some [] | _ :: _ => None end
  | t :: ts' =>
      match expected with
      | [] =>
          match t with
          | Literal c => out ← decodeTokens [] ts'; Some (c :: out)
          | Escape b =>
              if (b <? 128)%N then
                out ← decodeTokens [] ts'; Some (ascii_of_N b :: out)
              else
                more ← continuationRanges b;
                out ← decodeTokens more ts';
                Some (ascii_of_N b :: out)
          end
      | (lo, hi) :: expected' =>
          match t with
          | Literal _ => None
          | Escape b =>
              if between lo hi b then
                out ← decodeTokens expected' ts'; Some (ascii_of_N b :: out)
              else None
          end
      end
  end.

Definition decodeURIComponent (s : string) : option string :=
  ts ← uriTokens (chars s);
  out ← decodeTokens [] ts;
  Some (str out).

(** *** Regular expressions of [factory.js] *)

(** The class [[^\\/]]. *)
Definition isSeparator (c : ascii) : bool :=
  bool_decide (c = "/"%char) || bool_decide (c = "\"%char).

(** [.] matches every character but the line terminators LF, CR, U+2028
    and U+2029; the last two are the byte triples E2 80 A8 and E2 80 A9.
    [dotMask] pairs each byte with whether [.] can match there. *)
Fixpoint dotMask (l : list ascii) : list (ascii * bool) :=
  match l with
  | [] => []
  | c :: rest =>
      match rest with
      | c1 :: c2 :: rest2 =>
          if (code c =? 226)%N && (code c1 =? 128)%N && between 168 169 (code c2)
          then (c, false) :: (c1, false) :: (c2, false) :: dotMask rest2
          else (c, negb (between 10 10 (code c) || between 13 13 (code c)))
                 :: dotMask rest
      | _ => (c, negb (between 10 10 (code c) || between 13 13 (code c)))
               :: dotMask rest
      end
  end.

(** The longest run of [[^\\/]] at the head of the input. *)
Fixpoint segmentRun (l : list (ascii * bool)) : list ascii :=
  match l with
  | (c, _) :: rest => if isSeparator c then [] else c :: segmentRun rest
  | [] => []
  end.

(** [:\/\/([^\\/]+)] at the head of the input: the captured group. *)
Definition schemeThenHost (l : list (ascii * bool)) : option (list ascii) :=
  match l with
  | (c1, _) :: (c2, _) :: (c3, _) :: rest =>
      if bool_decide (c1 = ":"%char) && bool_decide (c2 = "/"%char)
         && bool_decide (c3 = "/"%char)
      then match segmentRun rest with [] => None | host => Some host end
      else None
  | _ => None
  end.

(** The rest of [.+:\/\/([^\\/]+)] once [.+] has taken at least one
    character: the greedy [.+] first tries to take one more. *)
Fixpoint afterDots (l : list (ascii * bool)) : option (list ascii) :=
  match l with
  | [] => None
  | (c, dot) :: rest =>
      match (if dot then afterDots rest else None) with
      | Some host => Some host
      | None => schemeThenHost l
      end
  end.

(** [/.+:\/\/([^\\/]+)/.exec(s)]: the first start position that matches. *)
Fixpoint execDomain (l : list (ascii * bool)) : option (list ascii) :=
  match l with
  | [] => None
  | (c, dot) :: rest =>
      match (if dot then afterDots rest else None) with
      | Some host => Some host
      | None => execDomain rest
      end
  end.

(** [/([^\\/]+)$/.exec(s)]: the first start position from which no
    separator follows up to the end of the input. *)
Fixpoint execFileName (l : list ascii) : option (list ascii) :=
  match l with
  | [] => None
  | c :: rest => if existsb isSeparator l then execFileName rest else Some l
  end.

(** *** Ordinary objects used as dictionaries *)

(** The properties every object inherits from [Object.prototype]; each of
    them is a function or, for [__proto__], an object: all truthy. *)
Definition Object_prototype : list string :=
  [ "constructor"; "hasOwnProperty"; "isPrototypeOf"; "propertyIsEnumerable";
    "toLocaleString"; "toString"; "valueOf"; "__proto__";
    "__defineGetter__"; "__defineSetter__"; "__lookupGetter__";
    "__lookupSetter__" ].

(** An object literal [{}] filled by assignment: its own properties in
    creation order. *)
Definition Obj (V : Type) : Type := list (string * V).

Inductive Property (V : Type) :=
| Own (v : V)
| Inherited
| Undefined.
Arguments Own {V} v.
Arguments Inherited {V}.
Arguments Undefined {V}.

Fixpoint getOwn {V} (o : Obj V) (k : string) : option V :=
  match o with
  | [] => None
  | (k', v) :: o' => if decide (k' = k) then Some v else getOwn o' k
  end.

(** [o[k]] *)
Definition get {V} (o : Obj V) (k : string) : Property V :=
  match getOwn o k with
  | Some v => Own v
  | None => if decide (k ∈ Object_prototype) then Inherited else Undefined
  end.

(** [o[k] = v] *)
Fixpoint set {V} (o : Obj V) (k : string) (v : V) : Obj V :=
  match o with
  | [] => [(k, v)]
  | (k', v') :: o' =>
      if decide (k' = k) then (k, v) :: o' else (k', v') :: set o' k v
  end.

(** A key is an array index when it is the canonical decimal form of an
    integer below 2^32 - 1. *)
Definition digit (c : ascii) : option N :=
  if between 48 57 (code c) then Some (code c - 48)%N else None.

Fixpoint parseDigits (acc : N) (l : list ascii) : option N :=
  match l with
  | [] => Some acc
  | c :: rest => d ← digit c; parseDigits (10 * acc + d)%N rest
  end.

Definition arrayIndex (k : string) : option N :=
  match chars k with
  | [] => None
  | c :: rest =>
      if bool_decide (c = "0"%char) && negb (bool_decide (rest = [])) then None
      else
        n ← parseDigits 0 (c :: rest);
        if (n <? 4294967295)%N then Some n else None
  end.

Definition indexLe {V} (a b : N * (string * V)) : Prop := (a.1 ≤ b.1)%N.

Global Instance indexLe_dec {V} (a b : N * (string * V)) : Decision (indexLe a b).
Proof. unfold indexLe. apply _. Defined.

(** The own properties in the order of enumeration ([for-in],
    [Object.keys], lodash [each]): array indices in ascending order, then
    the other keys in creation order. *)
Definition ownEntries {V} (o : Obj V) : list (string * V) :=
  let indexed :=
    omap (λ kv, n ← arrayIndex kv.1; Some (n, kv)) o in
  let named :=
    filter (λ kv, arrayIndex kv.1 = None) o in
  (snd <$> merge_sort indexLe indexed) ++ named.

Definition keys {V} (o : Obj V) : list string := fst <$> ownEntries o.

End JS.

(** ** [exceptionMessages.js] *)

Module ExceptionMessages.

Definition quote : string := String "034"%char "".

Definition TOO_MANY_QUADRANTS : string :=
  "There are more than 4 quadrant names listed in your data. Check the quadrant column for errors.".
Definition TOO_MANY_RINGS : string := "More than 4 rings.".
Definition MISSING_HEADERS : string :=
  "Document is missing one or more required headers or they are misspelled. " +:+
  "Check that your document contains headers for " +:+
  quote +:+ "name" +:+ quote +:+ ", " +:+
  quote +:+ "ring" +:+ quote +:+ ", " +:+
  quote +:+ "quadrant" +:+ quote +:+ ", " +:+
  quote +:+ "isNew" +:+ quote +:+ ", " +:+
  quote +:+ "description" +:+ quote +:+ ".".
Definition MISSING_CONTENT : string := "Document is missing content.".
Definition LESS_THAN_FOUR_QUADRANTS : string :=
  "There are fewer than 4 quadrant names listed in your data. Check the quadrant column for errors.".
Definition SHEET_NOT_FOUND : string := "We can’t find the URL Sheet you’ve entered.".
Definition UNAUTHORIZED : string := "UNAUTHORIZED".

(** The table, in the order of the source. *)
Definition all : list (string * string) :=
  [ ("TOO_MANY_QUADRANTS", TOO_MANY_QUADRANTS);
    ("TOO_MANY_RINGS", TOO_MANY_RINGS);
    ("MISSING_HEADERS", MISSING_HEADERS);
    ("MISSING_CONTENT", MISSING_CONTENT);
    ("LESS_THAN_FOUR_QUADRANTS", LESS_THAN_FOUR_QUADRANTS);
    ("SHEET_NOT_FOUND", SHEET_NOT_FOUND);
    ("UNAUTHORIZED", UNAUTHORIZED) ].

End ExceptionMessages.

(** ** Exceptions

    [MalformedDataError] and [SheetNotFoundError] are the two classes that
    [factory.js] tests with [instanceof]; each carries its [message].
    [TypeError] and [URIError] are thrown by the language itself, and
    [ResponseError] is any other object handed to an error callback, with
    its [status] property when it has one. *)

Inductive Exception :=
| MalformedDataError (message : string)
| SheetNotFoundError (message : string)
| TypeError (message : string)
| URIError
| ResponseError (status : option Z) (message : string).

Global Instance Exception_eq_dec : EqDecision Exception.
Proof. solve_decision. Defined.

(** [error.status] *)
Definition status (e : Exception) : option Z :=
  match e with
  | ResponseError s _ => s
  | _ => None
  end.

(** ** The domain model: rows, rings, blips, quadrants, the radar *)

(** A sanitized row, as the sanitizer hands it to [plotRadar]. *)
Module Row.
Record t := make {
  name : string;
  ring : string;
  quadrant : string;
  isNew : string;
  topic : option string;
  description : string
}.
End Row.

(** Modelled from the spec: [models/ring.js] is not among the sources; the
    data model of the spec gives a ring its name and its order.
    [new Ring(name, order)] *)
Record Ring := { Ring_name : string; Ring_order : nat }.

(** Modelled from the spec: [models/blip.js] is not among the sources.
    [new Blip(name, ring, isNew, topic, description)]; [Blip_ring] is
    [None] when the lookup in the ring map gave [undefined]. *)
Record Blip := {
  Blip_name : string;
  Blip_ring : option Ring;
  Blip_isNew : bool;
  Blip_topic : option string;
  Blip_description : string
}.

(** Modelled from the spec: [models/quadrant.js] is not among the sources.
    A quadrant has a name and its blips in the order they were added. *)
Record Quadrant := { Quadrant_name : string; Quadrant_blips : list Blip }.

(** Modelled from the spec: [new Quadrant(name)], of [models/quadrant.js]. *)
Definition newQuadrant (name : string) : Quadrant :=
  {| Quadrant_name := name; Quadrant_blips := [] |}.

(** Modelled from the spec: [quadrant.add(blip)], of [models/quadrant.js]. *)
Definition Quadrant_add (q : Quadrant) (b : Blip) : Quadrant :=
  {| Quadrant_name := Quadrant_name q; Quadrant_blips := Quadrant_blips q ++ [b] |}.

Global Instance Ring_eq_dec : EqDecision Ring.
Proof. solve_decision. Defined.
Global Instance Blip_eq_dec : EqDecision Blip.
Proof. solve_decision. Defined.
Global Instance Quadrant_eq_dec : EqDecision Quadrant.
Proof. solve_decision. Defined.

(** Modelled from the spec: the radar model ([models/radar.js]) is not among
    the sources. The data model gives the radar its quadrants, a current
    sheet name and the ordered alternative sheet names; [addAlternative]
    and [setCurrentSheet] attach what the fetch stage passes through. *)
Record Radar := {
  quadrants : list Quadrant;
  currentSheetName : option string;
  alternativeSheetNames : list string
}.

Global Instance Radar_eq_dec : EqDecision Radar.
Proof. solve_decision. Defined.

(** Modelled from the spec: [new Radar()], of [models/radar.js]. *)
Definition newRadar : Radar :=
  {| quadrants := []; currentSheetName := None; alternativeSheetNames := [] |}.

(** Modelled from the spec: [radar.addAlternative(sheetName)]. *)
Definition addAlternative (radar : Radar) (sheetName : string) : Radar :=
  {| quadrants := quadrants radar;
     currentSheetName := currentSheetName radar;
     alternativeSheetNames := alternativeSheetNames radar ++ [sheetName] |}.

(** Modelled from the spec: [radar.setCurrentSheet(sheetName)]. *)
Definition setCurrentSheet (radar : Radar) (sheetName : option string) : Radar :=
  {| quadrants := quadrants radar;
     currentSheetName := sheetName;
     alternativeSheetNames := alternativeSheetNames radar |}.

(** ** Traces and the monad of the pipeline *)

(** A row as a fetcher delivers it: column name and raw value. *)
Definition RawRow : Type := list (string * string).

(** What the pipeline does to its surroundings, in order. [Plot] is
    [new GraphingRadar(size, radar).init().plot()], [ErrorMessage] the call
    of [plotError], with the text of its first paragraph, and
    [UnauthorizedMessage] the view of [plotUnauthorizedErrorMessage], with
    the text above its SWITCH ACCOUNT button. *)
Inductive Event :=
| PlotLoading
| SetDocumentTitle (title : string)
| VerifyContent (columnNames : list string) (thrown : option Exception)
| VerifyHeaders (columnNames : list string) (thrown : option Exception)
| Sanitize (row : RawRow)
| SanitizeForProtectedSheet (row header : list string)
| NewRadar
| Plot (radar : Radar)
| ErrorMessage (message : string)
| UnauthorizedMessage (text : string)
| LoadGoogle
| Login (force : bool)
| ProcessSheetResponse (sheetReference sheetName : option string)
| Callback.

Global Instance Event_eq_dec : EqDecision Event.
Proof. solve_decision. Defined.

Definition M (A : Type) : Type := list Event * (Exception + A).

Global Instance M_ret : MRet M := λ A x, ([], inr x).

Global Instance M_bind : MBind M := λ A B f m,
  match m with
  | (t, inl e) => (t, inl e)
  | (t, inr x) => let '(t', r) := f x in (t ++ t', r)
  end.

Definition throw {A} (e : Exception) : M A := ([], inl e).

Definition emit (ev : Event) : M unit := ([ev], inr ()).

(** [try { body } catch (exception) { handler }] *)
Definition tryCatch {A} (body : M A) (handler : Exception → M A) : M A :=
  match body with
  | (t, inl e) => let '(t', r) := handler e in (t ++ t', r)
  | (t, inr x) => (t, inr x)
  end.

Definition trace {A} (m : M A) : list Event := m.1.
Definition outcome {A} (m : M A) : Exception + A := m.2.

(** ** [plotRadar] *)

(** lodash [uniqBy(array, key)]: a value is kept when its key was not seen
    among the values kept so far. *)
Fixpoint uniqByFrom {A} (key : A → string) (seen : list string) (array : list A)
  : list A :=
  match array with
  | [] => []
  | value :: rest =>
      if decide (key value ∈ seen) then uniqByFrom key seen rest
      else value :: uniqByFrom key (seen ++ [key value]) rest
  end.

Definition uniqBy {A} (key : A → string) (array : list A) : list A :=
  uniqByFrom key [] array.

Definition maxRings : nat := 4.

(** The loop over [rings], from index [i] on. [ringMap] is read only at
    keys that were written, where an object and a finite map agree. *)
Fixpoint eachRing (rings : list string) (i : nat) (ringMap : gmap string Ring)
  : M (gmap string Ring) :=
  match rings with
  | [] => mret ringMap
  | ringName :: rest =>
      if decide (i = maxRings) then
        throw (MalformedDataError ExceptionMessages.TOO_MANY_RINGS)
      else
        eachRing rest (S i)
          (<[ringName := {| Ring_name := ringName; Ring_order := i |}]> ringMap)
  end.

(** [var rings = ...; var ringMap = {}; _.each(rings, ...)] *)
Definition buildRingMap (blips : list Row.t) : M (gmap string Ring) :=
  let rings := Row.ring <$> uniqBy Row.ring blips in
  eachRing rings 0 ∅.

Definition newBlip (ringMap : gmap string Ring) (blip : Row.t) : Blip :=
  {| Blip_name := Row.name blip;
     Blip_ring := ringMap !! Row.ring blip;
     Blip_isNew := bool_decide (JS.toLowerCase (Row.isNew blip) = "true");
     Blip_topic := Row.topic blip;
     Blip_description := Row.description blip |}.

Section PlotRadar.

(** lodash [capitalize], [upperFirst(toString(s).toLowerCase())], follows
    the case mapping of Unicode and is a library function, not among the
    sources: [plotRadar] takes it as it is given. *)
Variable capitalize : string → string.

(** The body of the loop over [blips]. *)
Definition groupBlip (ringMap : gmap string Ring) (quadrants : JS.Obj Quadrant)
    (blip : Row.t) : M (JS.Obj Quadrant) :=
  let quadrants :=
    match JS.get quadrants (Row.quadrant blip) with
    | JS.Undefined =>
        JS.set quadrants (Row.quadrant blip)
          (newQuadrant (capitalize (Row.quadrant blip)))
    | _ => quadrants
    end in
  match JS.get quadrants (Row.quadrant blip) with
  | JS.Own q =>
      mret (JS.set quadrants (Row.quadrant blip)
              (Quadrant_add q (newBlip ringMap blip)))
  | _ => throw (TypeError "quadrants[blip.quadrant].add is not a function")
  end.

Fixpoint eachBlip (ringMap : gmap string Ring) (quadrants : JS.Obj Quadrant)
    (blips : list Row.t) : M (JS.Obj Quadrant) :=
  match blips with
  | [] => mret quadrants
  | blip :: rest =>
      quadrants ← groupBlip ringMap quadrants blip;
      eachBlip ringMap quadrants rest
  end.

(** Modelled from the spec: [radar.addQuadrant] and the reading of the
    quadrants by the renderer live in [models/radar.js] and
    [graphing/radar.js], which are not among the sources. The spec requires
    the builder to assert, after grouping, that exactly four quadrants
    exist: the radar refuses a fifth quadrant with [TOO_MANY_QUADRANTS], and
    a radar holding fewer than four is refused with
    [LESS_THAN_FOUR_QUADRANTS] when it is handed over for plotting. *)
Definition addQuadrant (radar : Radar) (quadrant : Quadrant) : M Radar :=
  if decide (4 ≤ length (quadrants radar)) then
    throw (MalformedDataError ExceptionMessages.TOO_MANY_QUADRANTS)
  else
    mret {| quadrants := quadrants radar ++ [quadrant];
            currentSheetName := currentSheetName radar;
            alternativeSheetNames := alternativeSheetNames radar |}.

(** Modelled from the spec: [new GraphingRadar(size, radar).init().plot()],
    of [graphing/radar.js], as far as the quadrant count goes. *)
Definition GraphingRadar_plot (radar : Radar) : M unit :=
  if decide (length (quadrants radar) < 4) then
    throw (MalformedDataError ExceptionMessages.LESS_THAN_FOUR_QUADRANTS)
  else
    emit (Plot radar).

Fixpoint eachQuadrant (entries : list (string * Quadrant)) (radar : Radar)
  : M Radar :=
  match entries with
  | [] => mret radar
  | (_, quadrant) :: rest =>
      radar ← addQuadrant radar quadrant;
      eachQuadrant rest radar
  end.

(** The two tests on [title] at the head of [plotRadar]. *)
Definition strippedTitle (title : string) : string :=
  let title := if JS.endsWith title ".csv" then JS.dropEnd 4 title else title in
  let title := if JS.endsWith title ".json" then JS.dropEnd 5 title else title in
  title.

Definition plotRadar (title : string) (blips : list Row.t)
    (currentRadarName : option string) (alternativeRadars : list string)
  : M unit :=
  let title := strippedTitle title in
  emit (SetDocumentTitle title);;
  ringMap ← buildRingMap blips;
  quadrants ← eachBlip ringMap [] blips;
  emit NewRadar;;
  radar ← eachQuadrant (JS.ownEntries quadrants) newRadar;
  let radar := foldl addAlternative radar alternativeRadars in
  let radar := setCurrentSheet radar currentRadarName in
  GraphingRadar_plot radar.

End PlotRadar.

(** ** [DomainName] and [FileName] *)

(** [decodeURIComponent(url.replace(/\+/g, ' '))] *)
Definition decodeUrl (url : string) : M string :=
  match JS.decodeURIComponent (JS.plusToSpace url) with
  | Some decoded => mret decoded
  | None => throw URIError
  end.

Definition DomainName (url : string) : M (option string) :=
  decoded ← decodeUrl url;
  mret (JS.str <$> JS.execDomain (JS.dotMask (JS.chars decoded))).

Definition FileName (url : string) : M string :=
  decoded ← decodeUrl url;
  match JS.execFileName (JS.chars decoded) with
  | Some segment => mret (JS.str segment)
  | None => mret url
  end.

(** ** [plotError] and the unauthorized view *)

(** The text that [plotError] prints in the first paragraph of the error
    container. *)
Definition plotError (exception : Exception) : string :=
  let message := "Oops! We can't find the data" in
  match exception with
  | MalformedDataError m => message +:+ m
  | SheetNotFoundError m => m
  | _ => message
  end.

(** The text that [plotUnauthorizedErrorMessage] prints above the
    SWITCH ACCOUNT button. *)
Definition unauthorizedText (currentUser : string) : string :=
  "<strong>Oops!</strong> Looks like you are accessing this sheet using <b>" +:+
  currentUser +:+
  "</b>, which does not have permission.Try switching to another account.".

(** [window.location], as far as the two views read it. *)
Module Location.
Record t := make { protocol : string; hostname : string; port : string }.
End Location.

Definition homePageURL (location : Location.t) : string :=
  let homePageURL := Location.protocol location +:+ "//" +:+ Location.hostname location in
  homePageURL +:+
  (if decide (Location.port location = "") then "" else ":" +:+ Location.port location).

(** The link that [plotError] calls [homePage] and
    [plotUnauthorizedErrorMessage] builds again as [goBack]. *)
Definition goBack (location : Location.t) : string :=
  "<a href=" +:+ homePageURL location +:+ ">GO BACK</a>".

(** What [plotError] appends to the error container: three paragraphs,
    the message first. *)
Definition errorContainer (exception : Exception) (location : Location.t)
  : list string :=
  let faqMessage := "Please check FAQs for possible solutions." in
  let homePage := goBack location in
  [plotError exception; faqMessage; homePage].

(** What [plotUnauthorizedErrorMessage] appends to its error container:
    the title paragraph, the label of the button and the subtitle
    paragraph. *)
Definition unauthorizedContainer (currentUser : string) (location : Location.t)
  : list string :=
  [unauthorizedText currentUser;
   "SWITCH ACCOUNT";
   "or " +:+ goBack location +:+ " to try a different sheet."].

(** ** What the collaborators deliver *)

(** [d3.csv]: the rows and, beside them, the column names. *)
Record CsvData := { columns : list string; rows : list RawRow }.

(** [sheet.processSheetResponse] calls back either with the document title,
    the values (header first) and the sheet names, or with an error. *)
Inductive SheetResponse :=
| SheetValues (documentTitle : string) (values : list (list string))
    (sheetNames : list string)
| SheetFailure (error : Exception).

(** One round of authentication and fetch: whether [GoogleAuth.login]
    calls back, what the sheet answers, and [GoogleAuth.geEmail()]. The
    account and the token that a login obtains are held by [GoogleAuth]
    and the sheet, whose sources are not part of [factory.js]: a round
    stands for them by what they make the sheet answer. *)
Record AuthWorld := {
  loginCallsBack : bool;
  response : SheetResponse;
  currentUser : string
}.

Module QueryParams.
Record t := make { sheetId : option string; sheetName : option string }.
End QueryParams.

(** The builder that [GoogleSheetInput.build] selects, with the arguments
    it is called with. *)
Inductive Source :=
| CSVDocument (url : option string)
| JSONFile (url : option string)
| GoogleSheet (sheetReference sheetName : option string)
| InputForm.

Global Instance Source_eq_dec : EqDecision Source.
Proof. solve_decision. Defined.

(** String concatenation converts [undefined] to its name. *)
Definition toString (v : option string) : string := default "undefined" v.

(** ** The builders of [factory.js] *)

Section Factory.

(** lodash [capitalize] *)
Variable capitalize : string → string.

(** [config.featureToggles.UIRefresh2022] *)
Variable UIRefresh2022 : bool.

(** [ContentValidator]: what [verifyContent] and [verifyHeaders] throw, if
    anything, for the column names the validator was built with. *)
Variable verifyContent : list string → option Exception.
Variable verifyHeaders : list string → option Exception.

(** [InputSanitizer] *)
Variable sanitize : RawRow → Row.t.
Variable sanitizeForProtectedSheet : list string → list string → Row.t.

Definition setDocumentTitle : M unit :=
  emit (SetDocumentTitle "Build your own Radar").

Definition plotLoading : M unit :=
  (if UIRefresh2022 then mret () else setDocumentTitle);;
  emit PlotLoading.

Definition plotErrorMessage (exception : Exception) : M unit :=
  if UIRefresh2022 then emit (ErrorMessage (plotError exception))
  else setDocumentTitle;; emit (ErrorMessage (plotError exception)).

Definition plotUnauthorizedErrorMessage (currentUser : string) : M unit :=
  setDocumentTitle;; emit (UnauthorizedMessage (unauthorizedText currentUser)).

Definition contentValidator_verifyContent (columnNames : list string) : M unit :=
  emit (VerifyContent columnNames (verifyContent columnNames));;
  match verifyContent columnNames with
  | Some e => throw e
  | None => mret ()
  end.

Definition contentValidator_verifyHeaders (columnNames : list string) : M unit :=
  emit (VerifyHeaders columnNames (verifyHeaders columnNames));;
  match verifyHeaders columnNames with
  | Some e => throw e
  | None => mret ()
  end.

(** [_.map(data, new InputSanitizer().sanitize)] *)
Fixpoint sanitizeAll (data : list RawRow) : M (list Row.t) :=
  match data with
  | [] => mret []
  | row :: rest =>
      emit (Sanitize row);;
      blips ← sanitizeAll rest;
      mret (sanitize row :: blips)
  end.

(** [_.map(all, (blip) => new InputSanitizer().sanitizeForProtectedSheet(blip, header))] *)
Fixpoint sanitizeAllForProtectedSheet (all : list (list string))
    (header : list string) : M (list Row.t) :=
  match all with
  | [] => mret []
  | blip :: rest =>
      emit (SanitizeForProtectedSheet blip header);;
      blips ← sanitizeAllForProtectedSheet rest header;
      mret (sanitizeForProtectedSheet blip header :: blips)
  end.

(** *** [CSVDocument] *)

Definition CSVDocument_createBlips (url : string) (data : CsvData) : M unit :=
  tryCatch
    (let columnNames := columns data in
     contentValidator_verifyContent columnNames;;
     contentValidator_verifyHeaders columnNames;;
     blips ← sanitizeAll (rows data);
     title ← FileName url;
     plotRadar capitalize title blips (Some "CSV File") [])
    plotErrorMessage.

(** *** [JSONFile] *)

Definition JSONFile_createBlips (url : string) (data : list RawRow) : M unit :=
  tryCatch
    (columnNames ←
       match data with
       | first :: _ => mret (JS.keys first)
       | [] => throw (TypeError "Cannot convert undefined or null to object")
       end;
     contentValidator_verifyContent columnNames;;
     contentValidator_verifyHeaders columnNames;;
     blips ← sanitizeAll data;
     title ← FileName url;
     plotRadar capitalize title blips (Some "JSON File") [])
    plotErrorMessage.

(** *** [GoogleSheet] *)

(** [values.forEach(function () { ... })]: the validator is built on
    [values[0]] and run once for each element of [values]. *)
Fixpoint forEachValidate {A} (values : list A) (columnNames : list string)
  : M unit :=
  match values with
  | [] => mret ()
  | _ :: rest =>
      contentValidator_verifyContent columnNames;;
      contentValidator_verifyHeaders columnNames;;
      forEachValidate rest columnNames
  end.

(** [sheetName] is the variable of the enclosing [GoogleSheet]; the
    assignment to it is visible to this call only, since an instance
    fetches once. [all.shift()] takes the header off [values]; with no
    values there is neither a validation nor a row to sanitize. *)
Definition createBlipsForProtectedSheet (sheetName : option string)
    (documentTitle : string) (values : list (list string))
    (sheetNames : list string) : M unit :=
  let sheetName := if JS.truthy sheetName then sheetName else head sheetNames in
  blips ←
    match values with
    | [] => mret []
    | header :: all =>
        forEachValidate values header;;
        sanitizeAllForProtectedSheet all header
    end;
  plotRadar capitalize (documentTitle +:+ " - " +:+ toString sheetName) blips
    sheetName sheetNames.

(** [sheet.processSheetResponse(sheetName, createBlipsForProtectedSheet,
    (error) => ...)]: the sheet calls one of the two callbacks, as [world]
    says. Callbacks are run where the collaborator is called, and what
    they throw propagates. *)
Definition processSheetResponse (sheetReference sheetName : option string)
    (world : AuthWorld) : M unit :=
  emit (ProcessSheetResponse sheetReference sheetName);;
  match response world with
  | SheetValues documentTitle values sheetNames =>
      createBlipsForProtectedSheet sheetName documentTitle values sheetNames
  | SheetFailure error =>
      if decide (status error = Some 403%Z)
      then plotUnauthorizedErrorMessage (currentUser world)
      else plotErrorMessage error
  end.

(** [self.authenticate(force, apiKeyEnabled, callback)].
    [GoogleAuth.loadGoogle] is taken to call its callback; whether
    [GoogleAuth.login] does is up to [world]. *)
Definition authenticate (sheetReference sheetName : option string)
    (force apiKeyEnabled : bool) (callback : option (M unit))
    (world : AuthWorld) : M unit :=
  emit LoadGoogle;;
  if negb apiKeyEnabled then
    emit (Login force);;
    if loginCallsBack world then
      processSheetResponse sheetReference sheetName world;;
      default (mret ()) callback
    else mret ()
  else
    processSheetResponse sheetReference sheetName world;;
    default (mret ()) callback.

(** [self.build]: [validated] is what [sheet.validate] calls back with. *)
Definition GoogleSheet_build (sheetReference sheetName : option string)
    (validated : option Exception * bool) (world : AuthWorld) : M unit :=
  let '(error, apiKeyEnabled) := validated in
  match error with
  | Some (SheetNotFoundError m) => plotErrorMessage (SheetNotFoundError m)
  | _ => authenticate sheetReference sheetName false apiKeyEnabled None world
  end.


(** *** [GoogleSheetInput] *)

(** [v.endsWith(suffix)], where [v] may be [undefined] *)
Definition endsWith (v : option string) (suffix : string) : M bool :=
  match v with
  | Some s => mret (JS.endsWith s suffix)
  | None => throw (TypeError "Cannot read properties of undefined (reading 'endsWith')")
  end.

(** [a && b], where [b] is evaluated only when [a] holds. *)
Definition andThen (a : bool) (b : M bool) : M bool :=
  if a then b else mret false.

(** [self.build], up to the choice of the builder. [search] is
    [window.location.search], and [queryParams] what was parsed from the
    [sheetId...] part of [window.location.href] (no property at all when
    there is no such part). *)
Definition GoogleSheetInput_build (search : string)
    (queryParams : QueryParams.t) : M Source :=
  let sheetId := QueryParams.sheetId queryParams in
  domainName ← DomainName (JS.str (drop 1 (JS.chars search)));
  isCsv ← andThen (JS.truthy domainName) (endsWith sheetId ".csv");
  if isCsv : bool then
    mret (CSVDocument sheetId)
  else
    isJson ← andThen (JS.truthy domainName) (endsWith sheetId ".json");
    if isJson : bool then
      mret (JSONFile sheetId)
    else
      isSheet ← andThen (JS.truthy domainName)
                  (google ← endsWith domainName "google.com";
                   mret (google && JS.truthy sheetId));
      if isSheet : bool then
        mret (GoogleSheet sheetId (QueryParams.sheetName queryParams))
      else
        setDocumentTitle;;
        mret InputForm.

(** What CSV and JSON ingestion do once the column names are known, and
    the part of it that follows the sanitizing of the rows: the bodies of
    [CSVDocument_createBlips] and [JSONFile_createBlips], named so that
    their runs can be stated once. *)
Definition plotted (blips : list Row.t) (url name : string) : M unit :=
  tryCatch (title ← FileName url; plotRadar capitalize title blips (Some name) [])
    plotErrorMessage.

Definition checked (columnNames : list string) (data : list RawRow)
    (url name : string) : M unit :=
  tryCatch
    (contentValidator_verifyContent columnNames;;
     contentValidator_verifyHeaders columnNames;;
     blips ← sanitizeAll data;
     title ← FileName url;
     plotRadar capitalize title blips (Some name) [])
    plotErrorMessage.

End Factory.

(** ** Collaborators and data for running the pipeline on examples *)

Module Sample.

(** lodash [capitalize] on the sample data, whose quadrant values are
    ASCII words: the first letter in upper case, the others in lower
    case. *)
Definition upperChar (c : ascii) : ascii :=
  if JS.between 97 122 (JS.code c) then ascii_of_N (JS.code c - 32) else c.

Definition capitalize (s : string) : string :=
  match JS.lowerChar <$> JS.chars s with
  | [] => ""
  | c :: rest => JS.str (upperChar c :: rest)
  end.

(** A validator that accepts every header. *)
Definition accept : list string → option Exception := λ _, None.

(** A validator that asks for at least one column. *)
Definition nonEmpty (columnNames : list string) : option Exception :=
  match columnNames with
  | [] => Some (MalformedDataError ExceptionMessages.MISSING_CONTENT)
  | _ :: _ => None
  end.

Definition field (row : RawRow) (column : string) : string :=
  default "" (JS.getOwn row column).

(** A sanitizer that copies the columns as they are. *)
Definition sanitize (row : RawRow) : Row.t :=
  Row.make (field row "name") (field row "ring") (field row "quadrant")
    (field row "isNew") (JS.getOwn row "topic") (field row "description").

Definition sanitizeForProtectedSheet (row header : list string) : Row.t :=
  sanitize (zip header row).

Definition header : list string :=
  ["name"; "ring"; "quadrant"; "isNew"; "description"].

Definition raw (name ring quadrant isNew : string) : RawRow :=
  zip header [name; ring; quadrant; isNew; "about " +:+ name].

Definition blip (name ring quadrant isNew : string) : Row.t :=
  sanitize (raw name ring quadrant isNew).

(** Four quadrants and two rings. *)
Definition fourQuadrants : list (list string) :=
  [ ["Docker"; "adopt"; "tools"; "TRUE"; "containers"];
    ["Pairing"; "trial"; "techniques"; "false"; "two at a desk"];
    ["Kubernetes"; "adopt"; "platforms"; "yes"; "orchestration"];
    ["Rust"; "trial"; "languages"; ""; "systems language"];
    ["Terraform"; "trial"; "tools"; "True"; "infrastructure"] ].

(** One quadrant and five rings. *)
Definition fiveRings : list (list string) :=
  [ ["a"; "adopt"; "tools"; "true"; ""];
    ["b"; "trial"; "tools"; "true"; ""];
    ["c"; "assess"; "tools"; "true"; ""];
    ["d"; "hold"; "tools"; "true"; ""];
    ["e"; "retire"; "tools"; "true"; ""] ].

(** Five quadrants and one ring. *)
Definition fiveQuadrants : list (list string) :=
  fourQuadrants ++ [ ["Kanban"; "adopt"; "process"; "false"; "boards"] ].

(** Four quadrant values, two of which differ in case only. *)
Definition twoSpellings : list (list string) :=
  [ ["Docker"; "adopt"; "tools"; "TRUE"; "containers"];
    ["Maven"; "hold"; "Tools"; "false"; "builds"];
    ["Pairing"; "trial"; "techniques"; "false"; "two at a desk"];
    ["Kubernetes"; "adopt"; "platforms"; "yes"; "orchestration"] ].

Definition rawRows (table : list (list string)) : list RawRow := zip header <$> table.
Definition blips (table : list (list string)) : list Row.t := sanitize <$> rawRows table.

Definition world (r : SheetResponse) : AuthWorld :=
  {| loginCallsBack := true; response := r; currentUser := "ada@example.org" |}.

End Sample.

(** ** Runs on the sample data *)

Module Runs.

(** A CSV ingestion of four quadrants. *)
Definition csv (url : string) : M unit :=
  CSVDocument_createBlips Sample.capitalize true Sample.nonEmpty Sample.accept Sample.sanitize url
    {| columns := Sample.header; rows := Sample.rawRows Sample.fourQuadrants |}.

(** The same rows without column names: the content check fails. *)
Definition csvWithoutColumns : M unit :=
  CSVDocument_createBlips Sample.capitalize true Sample.nonEmpty Sample.accept Sample.sanitize
    "https://example.org/radar.csv"
    {| columns := []; rows := Sample.rawRows Sample.fourQuadrants |}.

(** A sheet ingestion of four quadrants from a workbook of two sheets,
    the caller naming no sheet. *)
Definition sheet : M unit :=
  createBlipsForProtectedSheet Sample.capitalize Sample.nonEmpty Sample.accept
    Sample.sanitizeForProtectedSheet None "Tech radar"
    (Sample.header :: Sample.fourQuadrants) ["2024"; "2023"].

(** The radar that a run plots last ([newRadar] when it plots none). *)
Definition plottedRadar (run : M unit) : Radar :=
  match last (trace run) with
  | Some (Plot radar) => radar
  | _ => newRadar
  end.

Definition refused : AuthWorld :=
  Sample.world (SheetFailure (ResponseError (Some 403%Z) "Forbidden")).

End Runs.

(** ** Notions used in the statements *)

(** *** Rings and quadrants *)

(** The values that come before the first occurrence of [r]. *)
Fixpoint before (r : string) (names : list string) : list string :=
  match names with
  | [] => []
  | x :: rest => if decide (x = r) then [] else x :: before r rest
  end.

(** How many distinct values were seen before [r] first appeared. *)
Definition firstSeenRank (r : string) (names : list string) : nat :=
  size (list_to_set (before r names) : gset string).

(** How many distinct values a column holds. *)
Definition distinctCount (names : list string) : nat :=
  size (list_to_set names : gset string).

(** The radar that [plotRadar] hands over when it gets that far. *)
Definition radarOf (o : JS.Obj Quadrant) (currentRadarName : option string)
    (alternativeRadars : list string) : Radar :=
  {| quadrants := (JS.ownEntries o).*2;
     currentSheetName := currentRadarName;
     alternativeSheetNames := alternativeRadars |}.

(** The blips of a list of quadrants, quadrant after quadrant. *)
Definition blipsOf (quadrants : list Quadrant) : list Blip :=
  quadrants ≫= Quadrant_blips.

(** *** The novelty flag *)

(** The raw value is the word "true" in some mixture of cases. *)
Definition equalsTrueIgnoringCase (raw : string) : Prop :=
  ∃ a b c d, raw = JS.str [a; b; c; d]
    ∧ (a = "t" ∨ a = "T")%char ∧ (b = "r" ∨ b = "R")%char
    ∧ (c = "u" ∨ c = "U")%char ∧ (d = "e" ∨ d = "E")%char.

(** *** Titles *)

(** [t] is [s] without the extension [ext], or [s] itself when [s] does not
    end with it. *)
Definition Stripped (ext s t : string) : Prop :=
  s = t +:+ ext ∨ (t = s ∧ ∀ p, s ≠ p +:+ ext).

(** [segment] is what follows the last slash or backslash of [s]. *)
Definition LastSegment (s segment : string) : Prop :=
  ∃ prefix, s = prefix +:+ segment
    ∧ segment ≠ ""
    ∧ Forall (λ c, JS.isSeparator c = false) (JS.chars segment)
    ∧ (prefix = "" ∨ ∃ p c, prefix = p +:+ String c "" ∧ JS.isSeparator c = true).

(** [s] is empty or ends with a slash or backslash. *)
Definition NoSegment (s : string) : Prop :=
  s = "" ∨ ∃ p c, s = p +:+ String c "" ∧ JS.isSeparator c = true.

(** The title that a CSV or JSON ingestion of [url] sets: the last segment
    of the decoded URL (the URL as given when there is none), without a
    trailing ".csv" and then without a trailing ".json". *)
Definition TitleOf (url title : string) : Prop :=
  ∃ decoded name withoutCsv,
    JS.decodeURIComponent (JS.plusToSpace url) = Some decoded
    ∧ (LastSegment decoded name ∨ (NoSegment decoded ∧ name = url))
    ∧ Stripped ".csv" name withoutCsv
    ∧ Stripped ".json" withoutCsv title.

(** The titles that a run sets, in order. *)
Definition titles (t : list Event) : list string :=
  omap (λ ev, match ev with SetDocumentTitle title => Some title | _ => None end) t.

(** *** The sheet of a sheet ingestion *)

(** The sheet that a sheet ingestion shows. *)
Definition shownSheet (sheetName : option string) (sheetNames : list string)
  : option string :=
  if JS.truthy sheetName then sheetName else head sheetNames.

(** The call of [plotRadar] that ends [createBlipsForProtectedSheet]. *)
Definition plotSheet (capitalize : string → string) (sheetName : option string)
    (documentTitle : string) (sheetNames : list string) (blips : list Row.t)
  : M unit :=
  plotRadar capitalize (documentTitle +:+ " - " +:+ toString (shownSheet sheetName sheetNames))
    blips (shownSheet sheetName sheetNames) sheetNames.

(** *** Classes of events *)

Definition isErrorMessage (ev : Event) : bool :=
  match ev with
  | ErrorMessage _ => true
  | _ => false
  end.

(** The error texts that a run prints, in order. *)
Definition errorTexts (t : list Event) : list string :=
  omap (λ ev, match ev with ErrorMessage text => Some text | _ => None end) t.

Definition isValidationFailure (ev : Event) : bool :=
  match ev with
  | VerifyContent _ (Some _) | VerifyHeaders _ (Some _) => true
  | _ => false
  end.

Definition isSanitize (ev : Event) : bool :=
  match ev with
  | Sanitize _ | SanitizeForProtectedSheet _ _ => true
  | _ => false
  end.

Definition isRadar (ev : Event) : bool :=
  match ev with
  | NewRadar | Plot _ => true
  | _ => false
  end.

Definition isAuthentication (ev : Event) : bool :=
  match ev with
  | LoadGoogle | Login _ => true
  | _ => false
  end.

(** The events of [plotRadar] and of [plotErrorMessage]. *)
Definition isPlotting (ev : Event) : bool :=
  match ev with
  | SetDocumentTitle _ | NewRadar | Plot _ | ErrorMessage _ => true
  | _ => false
  end.

(** Every sanitized row comes after a content check and a header check of
    the same column names that both returned, and after no failed check. *)
Definition ValidatedFirst (t : list Event) : Prop :=
  ∀ before ev after, t = before ++ ev :: after → isSanitize ev = true →
    (∃ columnNames, VerifyContent columnNames None ∈ before
                    ∧ VerifyHeaders columnNames None ∈ before)
    ∧ ∀ ev', ev' ∈ before → isValidationFailure ev' = false.

(** A run with a failed check sanitizes no row, makes no radar and plots
    none. *)
Definition NothingAfterFailure (t : list Event) : Prop :=
  (∃ ev, ev ∈ t ∧ isValidationFailure ev = true) →
  ∀ ev, ev ∈ t → isSanitize ev = false ∧ isRadar ev = false.

(** *** Escapes and hosts *)

(** Some "%" of [url] is not followed by two hexadecimal digits. *)
Definition MalformedEscape (url : string) : Prop :=
  ∃ pre tl, JS.chars url = pre ++ "%"%char :: tl
    ∧ ∀ h k tl', tl = h :: k :: tl' → JS.hexDigit h = None ∨ JS.hexDigit k = None.

(** Some escape of [url] stands for a byte of 192 or above and is followed
    by the end of [url] or by a character other than "%": a letter of
    Latin-1 written as a single escape, for one. *)
Definition LoneLeadEscape (url : string) : Prop :=
  ∃ pre h k hi lo tl,
    JS.chars url = pre ++ "%"%char :: h :: k :: tl
    ∧ JS.hexDigit h = Some hi ∧ JS.hexDigit k = Some lo
    ∧ (192 ≤ 16 * hi + lo)%N
    ∧ (tl = [] ∨ ∃ c tl', tl = c :: tl' ∧ c ≠ "%"%char).

(** [domain] is a host of [s], between [pre] and [rest]: it follows "://",
    which at least one character precedes, it is not empty, it holds
    neither a slash nor a backslash, and it runs up to the next one or to
    the end of [s]. *)
Definition HostAt (s pre domain rest : string) : Prop :=
  s = pre +:+ "://" +:+ domain +:+ rest
  ∧ pre ≠ "" ∧ domain ≠ ""
  ∧ Forall (λ c, JS.isSeparator c = false) (JS.chars domain)
  ∧ (rest = "" ∨ ∃ c r, rest = String c r ∧ JS.isSeparator c = true).

(** [domain] is a host of [s]. *)
Definition HostOf (s domain : string) : Prop :=
  ∃ pre rest, HostAt s pre domain rest.

(** [s] holds no line terminator: [.] matches at each of its characters. *)
Definition NoLineTerminator (s : string) : Prop :=
  Forall (λ p, p.2 = true) (JS.dotMask (JS.chars s)).

(** The same on lists of characters, where [a] may be empty: the shape of
    a match of [:\/\/([^\\/]+)] after [a]. *)
Definition hostChars (l a host b : list ascii) : Prop :=
  l = a ++ ":"%char :: "/"%char :: "/"%char :: host ++ b
  ∧ host ≠ []
  ∧ Forall (λ c, JS.isSeparator c = false) host
  ∧ (b = [] ∨ ∃ c b', b = c :: b' ∧ JS.isSeparator c = true).

(** *** What a run shows *)

(** The radars that a run plots, in order. *)
Definition plots (t : list Event) : list Radar :=
  omap (λ ev, match ev with Plot radar => Some radar | _ => None end) t.

(** What a check threw, for the event of a check. *)
Definition thrownBy (ev : Event) : option Exception :=
  match ev with
  | VerifyContent _ thrown | VerifyHeaders _ thrown => thrown
  | _ => None
  end.

(** *** Grouping *)

(** The quadrant made of the rows whose quadrant value is [k], in the order
    of the rows. *)
Definition quadrantOf (capitalize : string → string)
    (ringMap : gmap string Ring) (blips : list Row.t) (k : string) : Quadrant :=
  {| Quadrant_name := capitalize k;
     Quadrant_blips :=
       newBlip ringMap <$> filter (λ blip, Row.quadrant blip = k) blips |}.

(** One property for each of the quadrant values [ks], in that order. *)
Definition groupedOver (capitalize : string → string)
    (ringMap : gmap string Ring) (ks : list string) (blips : list Row.t)
  : JS.Obj Quadrant :=
  (λ k, (k, quadrantOf capitalize ringMap blips k)) <$> ks.

(** One property for each distinct quadrant value of the rows, in the order
    of first appearance. *)
Definition grouped (capitalize : string → string)
    (ringMap : gmap string Ring) (blips : list Row.t) : JS.Obj Quadrant :=
  groupedOver capitalize ringMap (uniqByFrom id [] (Row.quadrant <$> blips))
    blips.

(** *** Tactics *)

Ltac ascii_cases a := destruct a as [[] [] [] [] [] [] [] []].

(** * Properties *)

(** ** Strings *)

Lemma str_chars (s : string) : JS.str (JS.chars s) = s.
Proof. apply String.string_of_list_ascii_of_string. Qed.

Lemma chars_str (l : list ascii) : JS.chars (JS.str l) = l.
Proof. apply String.list_ascii_of_string_of_list_ascii. Qed.

Lemma chars_inj (s t : string) : JS.chars s = JS.chars t → s = t.
Proof. intros H. rewrite <- (str_chars s), <- (str_chars t). by rewrite H. Qed.

Lemma chars_app (s t : string) : JS.chars (s +:+ t) = JS.chars s ++ JS.chars t.
Proof.
  induction s as [|c s IH]; [done|].
  change (JS.chars (String c (s +:+ t)) = c :: (JS.chars s ++ JS.chars t)).
  unfold JS.chars in *. simpl. by rewrite IH.
Qed.

Lemma append_assoc (s t u : string) : (s +:+ t) +:+ u = s +:+ t +:+ u.
Proof. apply chars_inj. by rewrite !chars_app, app_assoc. Qed.

Lemma append_nil_r (s : string) : s +:+ "" = s.
Proof. apply chars_inj. by rewrite chars_app, app_nil_r. Qed.

Lemma str_app (l k : list ascii) : JS.str (l ++ k) = JS.str l +:+ JS.str k.
Proof. apply chars_inj. by rewrite chars_app, !chars_str. Qed.

Lemma endsWith_spec (s suffix : string) :
  JS.endsWith s suffix = true ↔ ∃ p, s = p +:+ suffix.
Proof.
  unfold JS.endsWith. rewrite bool_decide_eq_true. split.
  - intros [p Hp]. exists (JS.str p). apply chars_inj.
    by rewrite chars_app, chars_str.
  - intros [p ->]. exists (JS.chars p). apply chars_app.
Qed.

Lemma dropEnd_app (p suffix : string) :
  JS.dropEnd (length (JS.chars suffix)) (p +:+ suffix) = p.
Proof.
  unfold JS.dropEnd. rewrite chars_app, length_app.
  replace (length (JS.chars p) + length (JS.chars suffix) - length (JS.chars suffix))
    with (length (JS.chars p)) by lia.
  rewrite take_app_length. apply str_chars.
Qed.

(** ** The monad *)

Lemma outcome_bind {A B} (m : M A) (f : A → M B) :
  outcome (m ≫= f) =
    match outcome m with
    | inl e => inl e
    | inr x => outcome (f x)
    end.
Proof. destruct m as [t [e|x]]; [done|]. simpl. by destruct (f x). Qed.

Lemma trace_bind {A B} (m : M A) (f : A → M B) :
  trace (m ≫= f) =
    trace m ++ match outcome m with
               | inl _ => []
               | inr x => trace (f x)
               end.
Proof.
  destruct m as [t [e|x]]; simpl.
  - by rewrite app_nil_r.
  - by destruct (f x).
Qed.

Lemma bind_mret {A B} (x : A) (f : A → M B) : mret x ≫= f = f x.
Proof. unfold mret, M_ret, mbind, M_bind. by destruct (f x). Qed.

Lemma bind_pure {A B} (x : A) (f : A → M B) : (([], inr x) : M A) ≫= f = f x.
Proof. apply bind_mret. Qed.

Lemma bind_throw {A B} (e : Exception) (f : A → M B) : throw e ≫= f = throw e.
Proof. done. Qed.

Lemma bind_emit {B} (ev : Event) (f : unit → M B) :
  emit ev ≫= f = (ev :: trace (f ()), outcome (f ())).
Proof. unfold emit, mbind, M_bind. by destruct (f ()). Qed.

(** ** Messages and what is displayed *)

(** C8, as stated, fails: a [MalformedDataError] is displayed with the
    words of [plotError] in front of its message. *)
Lemma C8_counterexample :
  trace (plotErrorMessage true (MalformedDataError ExceptionMessages.TOO_MANY_RINGS))
    = [ErrorMessage "Oops! We can't find the dataMore than 4 rings."]
  ∧ "Oops! We can't find the dataMore than 4 rings." ≠ ExceptionMessages.TOO_MANY_RINGS.
Proof. split; [reflexivity | discriminate]. Qed.

(** C8 (amended). The seven messages of [exceptionMessages.js] are fixed
    and pairwise distinct. [plotErrorMessage] calls [plotError] once, under
    either setting of the toggle, and [plotError] prints three paragraphs.
    The first is the message paragraph: the message itself for a
    [SheetNotFoundError], the message after the words "Oops! We can't find
    the data" for a [MalformedDataError], and those words alone for any
    other exception. The second is the hint "Please check FAQs for possible
    solutions." and the third the GO BACK link to the origin of the page:
    protocol, two slashes, host name and, when the port is not empty, a
    colon and the port. The unauthorized view prints none of the seven
    messages: it sets the document title and shows the sentence of
    [plotUnauthorizedErrorMessage] around the current user, the
    SWITCH ACCOUNT button and a subtitle with the same link. *)
Theorem C8_displayed_messages (UIRefresh2022 : bool) :
  NoDup (ExceptionMessages.all.*2)
  ∧ (∀ m, plotError (SheetNotFoundError m) = m)
  ∧ (∀ m, plotError (MalformedDataError m) = "Oops! We can't find the data" +:+ m)
  ∧ (∀ e, (∀ m, e ≠ MalformedDataError m) → (∀ m, e ≠ SheetNotFoundError m) →
          plotError e = "Oops! We can't find the data")
  ∧ (∀ e, filter isErrorMessage (trace (plotErrorMessage UIRefresh2022 e))
            = [ErrorMessage (plotError e)])
  ∧ (∀ e location,
       errorContainer e location
       = [plotError e;
          "Please check FAQs for possible solutions.";
          "<a href=" +:+ homePageURL location +:+ ">GO BACK</a>"])
  ∧ (∀ protocol hostname,
       homePageURL (Location.make protocol hostname "") = protocol +:+ "//" +:+ hostname)
  ∧ (∀ protocol hostname port, port ≠ "" →
       homePageURL (Location.make protocol hostname port)
       = protocol +:+ "//" +:+ hostname +:+ ":" +:+ port)
  ∧ (∀ user,
       trace (plotUnauthorizedErrorMessage user)
       = [SetDocumentTitle "Build your own Radar";
          UnauthorizedMessage
            ("<strong>Oops!</strong> Looks like you are accessing this sheet using <b>"
             +:+ user +:+
             "</b>, which does not have permission.Try switching to another account.")])
  ∧ (∀ user location,
       unauthorizedContainer user location
       = ["<strong>Oops!</strong> Looks like you are accessing this sheet using <b>"
          +:+ user +:+
          "</b>, which does not have permission.Try switching to another account.";
          "SWITCH ACCOUNT";
          "or " +:+ ("<a href=" +:+ homePageURL location +:+ ">GO BACK</a>") +:+
          " to try a different sheet."])
  ∧ (∀ user message, message ∈ ExceptionMessages.all.*2 →
       unauthorizedText user ≠ message).
Proof.
  split.
  { assert (bool_decide (NoDup (ExceptionMessages.all.*2)) = true) as H
      by (vm_compute; reflexivity).
    by apply bool_decide_eq_true in H. }
  split; [done|]. split; [done|]. split.
  { intros [m|m| | |] H1 H2; try done; [by destruct (H1 m) | by destruct (H2 m)]. }
  split; [intros e; by destruct UIRefresh2022|].
  split; [done|]. split.
  { intros protocol hostname. unfold homePageURL. cbn [Location.protocol
      Location.hostname Location.port]. rewrite decide_True by done.
    by rewrite append_nil_r. }
  split.
  { intros protocol hostname port Hport. unfold homePageURL. cbn [Location.protocol
      Location.hostname Location.port]. rewrite decide_False by done.
    by rewrite !append_assoc. }
  split; [done|]. split; [done|].
  intros user message Hin. unfold ExceptionMessages.all in Hin.
  rewrite !fmap_cons in Hin. cbn [snd] in Hin.
  repeat (apply elem_of_cons in Hin as [->|Hin]; [cbv; discriminate|]).
  by apply elem_of_nil in Hin.
Qed.

(** ** The novelty flag *)

Lemma lowerChar_t a : JS.lowerChar a = "t"%char ↔ (a = "t" ∨ a = "T")%char.
Proof. ascii_cases a; vm_compute; split; intros H; try discriminate; auto;
  destruct H; discriminate. Qed.
Lemma lowerChar_r a : JS.lowerChar a = "r"%char ↔ (a = "r" ∨ a = "R")%char.
Proof. ascii_cases a; vm_compute; split; intros H; try discriminate; auto;
  destruct H; discriminate. Qed.
Lemma lowerChar_u a : JS.lowerChar a = "u"%char ↔ (a = "u" ∨ a = "U")%char.
Proof. ascii_cases a; vm_compute; split; intros H; try discriminate; auto;
  destruct H; discriminate. Qed.
Lemma lowerChar_e a : JS.lowerChar a = "e"%char ↔ (a = "e" ∨ a = "E")%char.
Proof. ascii_cases a; vm_compute; split; intros H; try discriminate; auto;
  destruct H; discriminate. Qed.

Lemma toLowerCase_true (raw : string) :
  JS.toLowerCase raw = "true" ↔ equalsTrueIgnoringCase raw.
Proof.
  unfold JS.toLowerCase, equalsTrueIgnoringCase. split.
  - intros H. apply (f_equal JS.chars) in H. rewrite chars_str in H.
    destruct (JS.chars raw) as [|a [|b [|c [|d [|? ?]]]]] eqn:E; try discriminate.
    injection H as Ha Hb Hc Hd.
    exists a, b, c, d. rewrite <- E, str_chars.
    rewrite <- lowerChar_t, <- lowerChar_r, <- lowerChar_u, <- lowerChar_e. done.
  - intros (a & b & c & d & -> & Ha & Hb & Hc & Hd).
    rewrite chars_str. simpl.
    apply lowerChar_t in Ha. apply lowerChar_r in Hb.
    apply lowerChar_u in Hc. apply lowerChar_e in Hd.
    by rewrite Ha, Hb, Hc, Hd.
Qed.

(** C3. The blip that [plotRadar] makes of a row is new exactly when the
    raw value is "true" in some mixture of cases; "True", "TRUE" and "true"
    give a new blip, and the empty string, "false" and "yes" do not. *)
Theorem C3_isNew (ringMap : gmap string Ring) (blip : Row.t) :
  (Blip_isNew (newBlip ringMap blip) = true ↔ equalsTrueIgnoringCase (Row.isNew blip))
  ∧ (Row.isNew blip ∈ ["True"; "TRUE"; "true"] → Blip_isNew (newBlip ringMap blip) = true)
  ∧ (Row.isNew blip ∈ [""; "false"; "yes"] → Blip_isNew (newBlip ringMap blip) = false).
Proof.
  simpl. split; [|split].
  - rewrite bool_decide_eq_true. apply toLowerCase_true.
  - intros H. repeat (apply elem_of_cons in H as [-> | H]; [reflexivity|]).
    by apply elem_of_nil in H.
  - intros H. repeat (apply elem_of_cons in H as [-> | H]; [reflexivity|]).
    by apply elem_of_nil in H.
Qed.

Section Pipeline.

(** lodash [capitalize], as [plotRadar] is given it. *)
Context (capitalize : string → string).

(** ** Rings: first-seen order *)

Lemma uniqByFrom_fmap {A} (key : A → string) (seen : list string) (l : list A) :
  key <$> uniqByFrom key seen l = uniqByFrom id seen (key <$> l).
Proof.
  revert seen. induction l as [|x l IH]; intros seen; [done|].
  simpl. destruct (decide (key x ∈ seen)); [apply IH|].
  simpl. by rewrite IH.
Qed.

Lemma distinct_elem (seen l : list string) (x : string) :
  x ∈ uniqByFrom id seen l ↔ x ∈ l ∧ x ∉ seen.
Proof.
  revert seen. induction l as [|y l IH]; intros seen; simpl.
  - split; [intros H|intros [H _]]; by apply elem_of_nil in H.
  - destruct (decide (y ∈ seen)).
    + rewrite IH, elem_of_cons. unfold id in *.
      split; [tauto|]. intros [[->|Hx] Hs]; [done|tauto].
    + rewrite elem_of_cons, IH, elem_of_cons, elem_of_app, list_elem_of_singleton.
      unfold id in *. destruct (decide (x = y)) as [->|Hne]; tauto.
Qed.

Lemma distinct_NoDup (seen l : list string) : NoDup (uniqByFrom id seen l).
Proof.
  revert seen. induction l as [|y l IH]; intros seen; simpl.
  - constructor.
  - destruct (decide (y ∈ seen)); [apply IH|].
    constructor; [|apply IH]. rewrite distinct_elem.
    intros [_ H]. apply H, elem_of_app. right. apply list_elem_of_here.
Qed.

Lemma distinct_length (l : list string) :
  length (uniqByFrom id [] l) = distinctCount l.
Proof.
  unfold distinctCount.
  rewrite <- (size_list_to_set (C := gset string)) by apply distinct_NoDup.
  f_equal. apply set_eq. intros x.
  rewrite !elem_of_list_to_set, distinct_elem.
  split; [by intros [? _]|]. intros H. split; [done|apply not_elem_of_nil].
Qed.

Lemma distinct_app (seen l1 l2 : list string) :
  uniqByFrom id seen (l1 ++ l2)
  = uniqByFrom id seen l1 ++ uniqByFrom id (seen ++ uniqByFrom id seen l1) l2.
Proof.
  revert seen. induction l1 as [|y l1 IH]; intros seen; simpl.
  - by rewrite app_nil_r.
  - destruct (decide (y ∈ seen)); [apply IH|].
    rewrite IH. simpl. by rewrite <- app_assoc.
Qed.

Lemma before_not_elem (r : string) (l : list string) : r ∉ before r l.
Proof.
  induction l as [|x l IH]; simpl; [apply not_elem_of_nil|].
  destruct (decide (x = r)); [apply not_elem_of_nil|].
  rewrite not_elem_of_cons. split; [congruence|done].
Qed.

Lemma before_split (r : string) (l : list string) :
  r ∈ l → ∃ l2, l = before r l ++ r :: l2.
Proof.
  induction l as [|x l IH]; simpl; intros H; [by apply elem_of_nil in H|].
  destruct (decide (x = r)) as [->|Hne].
  - by exists l.
  - destruct IH as [l2 Hl2].
    { apply elem_of_cons in H as [->|H]; done. }
    exists l2. simpl. by rewrite <- Hl2.
Qed.

Lemma distinct_lookup_rank (r : string) (l : list string) :
  r ∈ l → uniqByFrom id [] l !! firstSeenRank r l = Some r.
Proof.
  intros Hr. pose proof (before_not_elem r l) as Hnot.
  destruct (before_split r l Hr) as [l2 Hl].
  unfold firstSeenRank. fold (distinctCount (before r l)).
  rewrite <- distinct_length.
  revert Hnot Hl. generalize (before r l). intros l1 Hnot ->.
  rewrite distinct_app. simpl.
  destruct (decide (r ∈ uniqByFrom id [] l1)) as [Hin|_].
  - by apply distinct_elem in Hin as [Hin _].
  - by apply list_lookup_middle.
Qed.

Lemma eachRing_ok (rings : list string) (i : nat) (m : gmap string Ring) :
  NoDup rings → i + length rings ≤ maxRings →
  ∃ m', eachRing rings i m = mret m'
    ∧ (∀ j r, rings !! j = Some r →
              m' !! r = Some {| Ring_name := r; Ring_order := i + j |})
    ∧ (∀ r, r ∉ rings → m' !! r = m !! r)
    ∧ dom m' = dom m ∪ list_to_set rings.
Proof.
  revert i m. induction rings as [|ringName rest IH]; intros i m Hnd Hlen.
  - exists m. split; [done|]. split; [|split].
    + intros j r H. by rewrite lookup_nil in H.
    + done.
    + simpl. by rewrite (right_id_L ∅ (∪)).
  - apply NoDup_cons in Hnd as [Hfresh Hnd]. simpl in Hlen.
    simpl. destruct (decide (i = maxRings)) as [->|_]; [lia|].
    destruct (IH (S i) (<[ringName:={| Ring_name := ringName; Ring_order := i |}]> m))
      as (m' & Hrun & Hin & Hout & Hdom); [done|lia|].
    exists m'. split; [done|]. split; [|split].
    + intros [|j] r Hj; simpl in Hj.
      * injection Hj as <-. rewrite Hout by done.
        rewrite lookup_insert_eq. do 2 f_equal. lia.
      * rewrite (Hin j r Hj). do 2 f_equal. lia.
    + intros r Hr. apply not_elem_of_cons in Hr as [Hne Hr].
      rewrite Hout by done. by rewrite lookup_insert_ne.
    + rewrite Hdom, dom_insert_L. apply set_eq. intros z.
      rewrite !elem_of_union. tauto.
Qed.

Lemma eachRing_overflow (rings : list string) (i : nat) (m : gmap string Ring) :
  i ≤ maxRings → maxRings < i + length rings →
  eachRing rings i m = throw (MalformedDataError ExceptionMessages.TOO_MANY_RINGS).
Proof.
  revert i m. induction rings as [|ringName rest IH]; intros i m Hi Hlen; simpl in *.
  - lia.
  - destruct (decide (i = maxRings)); [done|]. apply IH; lia.
Qed.

Lemma ring_names (blips : list Row.t) :
  Row.ring <$> uniqBy Row.ring blips = uniqByFrom id [] (Row.ring <$> blips).
Proof. apply uniqByFrom_fmap. Qed.

Lemma plotRadar_ring_overflow title blips currentRadarName alternativeRadars e :
  buildRingMap blips = throw e →
  plotRadar capitalize title blips currentRadarName alternativeRadars
    = ([SetDocumentTitle (strippedTitle title)], inl e).
Proof. intros H. unfold plotRadar. by rewrite H. Qed.

Lemma buildRingMap_overflow (blips : list Row.t) :
  4 < distinctCount (Row.ring <$> blips) →
  buildRingMap blips = throw (MalformedDataError ExceptionMessages.TOO_MANY_RINGS).
Proof.
  intros Hk. unfold buildRingMap. rewrite ring_names.
  pose proof (distinct_length (Row.ring <$> blips)) as Hlen.
  apply eachRing_overflow; unfold maxRings; lia.
Qed.

Lemma buildRingMap_ok (blips : list Row.t) :
  let names := Row.ring <$> blips in
  distinctCount names ≤ 4 →
  ∃ ringMap, buildRingMap blips = mret ringMap
    ∧ size ringMap = distinctCount names
    ∧ (∀ r, r ∈ names →
         ringMap !! r
         = Some {| Ring_name := r; Ring_order := firstSeenRank r names |})
    ∧ (∀ r, r ∉ names → ringMap !! r = None)
    ∧ (∀ i, i < distinctCount names →
         ∃ r, r ∈ names ∧ ringMap !! r = Some {| Ring_name := r; Ring_order := i |}).
Proof.
  intros names Hk. unfold buildRingMap. rewrite ring_names. fold names.
  pose proof (distinct_length names) as Hlen.
  destruct (eachRing_ok (uniqByFrom id [] names) 0 ∅)
    as (ringMap & Hrun & Hin & Hout & Hdom);
    [apply distinct_NoDup | unfold maxRings; lia |].
  exists ringMap. split; [done|]. split; [|split; [|split]].
  - rewrite <- size_dom, Hdom, dom_empty_L, (left_id_L ∅ (∪)).
    rewrite size_list_to_set by apply distinct_NoDup. done.
  - intros r Hr. by apply (Hin (firstSeenRank r names) r), distinct_lookup_rank.
  - intros r Hr. rewrite Hout; [done|]. rewrite distinct_elem. by intros [? _].
  - intros i Hi.
    destruct (lookup_lt_is_Some_2 (uniqByFrom id [] names) i) as [r Hr]; [lia|].
    exists r. split.
    + apply list_elem_of_lookup_2 in Hr. by apply distinct_elem in Hr as [? _].
    + by rewrite (Hin i r Hr).
Qed.

(** C2. With more than four distinct ring values the ring loop, and so
    [plotRadar], throws a [MalformedDataError] with the TOO_MANY_RINGS
    message. With [k <= 4] distinct values the ring map holds exactly [k]
    rings, one for each distinct value, the ring of a value having for order
    the number of distinct values seen before its first occurrence; the
    orders are the numbers below [k], and every blip finds its ring. The
    map is a function of the rows in their order. *)
Theorem C2_ring_orders (blips : list Row.t) :
  let names := Row.ring <$> blips in
  let k := distinctCount names in
  (4 < k →
     buildRingMap blips = throw (MalformedDataError ExceptionMessages.TOO_MANY_RINGS)
     ∧ ∀ title currentRadarName alternativeRadars,
         outcome (plotRadar capitalize title blips currentRadarName alternativeRadars)
         = inl (MalformedDataError ExceptionMessages.TOO_MANY_RINGS))
  ∧ (k ≤ 4 →
     ∃ ringMap, buildRingMap blips = mret ringMap
       ∧ size ringMap = k
       ∧ (∀ r, r ∈ names →
            ringMap !! r
            = Some {| Ring_name := r; Ring_order := firstSeenRank r names |})
       ∧ (∀ r, r ∉ names → ringMap !! r = None)
       ∧ (∀ i, i < k →
            ∃ r, r ∈ names ∧ ringMap !! r = Some {| Ring_name := r; Ring_order := i |})
       ∧ (∀ blip, blip ∈ blips →
            Blip_ring (newBlip ringMap blip)
            = Some {| Ring_name := Row.ring blip;
                      Ring_order := firstSeenRank (Row.ring blip) names |})).
Proof.
  intros names k. split.
  - intros Hk. pose proof (buildRingMap_overflow blips Hk) as Hthrow.
    split; [done|]. intros title c a.
    by rewrite (plotRadar_ring_overflow _ _ _ _ _ Hthrow).
  - intros Hk.
    destruct (buildRingMap_ok blips Hk) as (ringMap & Hrun & Hsize & Hrank & Hout & Hall).
    exists ringMap. repeat (split; [done|]).
    intros blip Hb. simpl. apply Hrank.
    apply list_elem_of_fmap. by exists blip.
Qed.

(** ** Objects used as dictionaries *)

Lemma getOwn_None {V} (o : JS.Obj V) (k : string) :
  JS.getOwn o k = None ↔ k ∉ o.*1.
Proof.
  induction o as [|[k' v] o IH]; simpl.
  - split; [intros _; apply not_elem_of_nil | done].
  - destruct (decide (k' = k)) as [->|Hne].
    + split; [done|]. intros H. destruct H. apply list_elem_of_here.
    + rewrite IH, not_elem_of_cons. split; [by split|tauto].
Qed.

Lemma getOwn_set {V} (o : JS.Obj V) (k : string) (v : V) :
  JS.getOwn (JS.set o k v) k = Some v.
Proof.
  induction o as [|[k' v'] o IH]; simpl.
  - by destruct (decide (k = k)).
  - destruct (decide (k' = k)) as [->|Hne]; simpl.
    + by destruct (decide (k = k)).
    + by destruct (decide (k' = k)).
Qed.

Lemma set_keys {V} (o : JS.Obj V) (k : string) (v : V) :
  (JS.set o k v).*1 = if decide (k ∈ o.*1) then o.*1 else o.*1 ++ [k].
Proof.
  induction o as [|[k' v'] o IH].
  - done.
  - change (((k', v') :: o).*1) with (k' :: o.*1). simpl JS.set.
    destruct (decide (k' = k)) as [->|Hne].
    + change (((k, v) :: o).*1) with (k :: o.*1).
      destruct (decide (k ∈ k :: o.*1)) as [_|H]; [done|].
      destruct H. apply list_elem_of_here.
    + change (((k', v') :: JS.set o k v).*1) with (k' :: (JS.set o k v).*1).
      rewrite IH. clear IH. destruct (decide (k ∈ o.*1)) as [Hin|Hnot].
      * destruct (decide (k ∈ k' :: o.*1)) as [_|H]; [done|].
        destruct H. by apply list_elem_of_further.
      * destruct (decide (k ∈ k' :: o.*1)) as [H|_]; [|done].
        apply elem_of_cons in H as [->|H]; done.
Qed.

Lemma ownEntries_Permutation {V} (o : JS.Obj V) : JS.ownEntries o ≡ₚ o.
Proof.
  unfold JS.ownEntries. cbv zeta. rewrite merge_sort_Permutation.
  induction o as [|kv o IH]; [done|].
  unfold filter. simpl.
  fold (filter (λ kv : string * V, JS.arrayIndex kv.1 = None) o).
  destruct (JS.arrayIndex kv.1) as [n|] eqn:E; simpl.
  - apply Permutation_skip, IH.
  - etrans; [symmetry; apply Permutation_middle|]. apply Permutation_skip, IH.
Qed.

Lemma ownEntries_length {V} (o : JS.Obj V) : length (JS.ownEntries o) = length o.
Proof. by rewrite ownEntries_Permutation. Qed.

(** ** Grouping by quadrant and the quadrant count *)

Lemma groupBlip_ok ringMap (o : JS.Obj Quadrant) (blip : Row.t) :
  Row.quadrant blip ∉ JS.Object_prototype →
  ∃ o', groupBlip capitalize ringMap o blip = mret o'
    ∧ o'.*1 = if decide (Row.quadrant blip ∈ o.*1) then o.*1
              else o.*1 ++ [Row.quadrant blip].
Proof.
  intros Hproto. unfold groupBlip, JS.get.
  destruct (JS.getOwn o (Row.quadrant blip)) as [q|] eqn:E.
  - rewrite E. eexists. split; [done|]. rewrite set_keys.
    destruct (decide (Row.quadrant blip ∈ o.*1)) as [_|Hnot]; [done|].
    apply getOwn_None in Hnot. congruence.
  - destruct (decide (Row.quadrant blip ∈ JS.Object_prototype)); [done|].
    rewrite getOwn_set. eexists. split; [done|]. rewrite !set_keys.
    apply getOwn_None in E.
    destruct (decide (Row.quadrant blip ∈ o.*1)); [done|].
    destruct (decide (Row.quadrant blip ∈ o.*1 ++ [Row.quadrant blip])) as [_|H];
      [done|]. destruct H. apply elem_of_app. right. apply list_elem_of_here.
Qed.

Lemma groupBlip_inherited ringMap (o : JS.Obj Quadrant) (blip : Row.t) :
  Row.quadrant blip ∈ JS.Object_prototype → Row.quadrant blip ∉ o.*1 →
  groupBlip capitalize ringMap o blip
  = throw (TypeError "quadrants[blip.quadrant].add is not a function").
Proof.
  intros Hproto Hown. unfold groupBlip, JS.get.
  apply getOwn_None in Hown. rewrite Hown.
  destruct (decide (Row.quadrant blip ∈ JS.Object_prototype)); [|done].
  by rewrite Hown.
Qed.

Lemma eachBlip_ok ringMap (blips : list Row.t) (o : JS.Obj Quadrant) :
  (∀ blip, blip ∈ blips → Row.quadrant blip ∉ JS.Object_prototype) →
  ∃ o', eachBlip capitalize ringMap o blips = mret o'
    ∧ o'.*1 = o.*1 ++ uniqByFrom id (o.*1) (Row.quadrant <$> blips).
Proof.
  revert o. induction blips as [|blip rest IH]; intros o Hproto; simpl.
  - exists o. by rewrite app_nil_r.
  - destruct (groupBlip_ok ringMap o blip) as (o1 & Hrun & Hkeys).
    { apply Hproto, list_elem_of_here. }
    destruct (IH o1) as (o' & Hrest & Hkeys').
    { intros b Hb. by apply Hproto, list_elem_of_further. }
    exists o'. rewrite Hrun, bind_mret. split; [done|].
    rewrite Hkeys'. unfold id at 2. rewrite Hkeys.
    destruct (decide (Row.quadrant blip ∈ o.*1)); [done|].
    by rewrite <- app_assoc.
Qed.

Lemma eachRing_trace rings i m : trace (eachRing rings i m) = [].
Proof.
  revert i m. induction rings as [|r rest IH]; intros i m; simpl; [done|].
  destruct (decide (i = maxRings)); [done|apply IH].
Qed.

Lemma groupBlip_trace ringMap o blip : trace (groupBlip capitalize ringMap o blip) = [].
Proof.
  unfold groupBlip.
  destruct (JS.get o (Row.quadrant blip)); simpl;
    repeat match goal with |- context [JS.get ?a ?b] => destruct (JS.get a b) end;
    done.
Qed.

Lemma eachBlip_trace ringMap o blips : trace (eachBlip capitalize ringMap o blips) = [].
Proof.
  revert o. induction blips as [|blip rest IH]; intros o; simpl; [done|].
  rewrite trace_bind, groupBlip_trace.
  destruct (outcome (groupBlip capitalize ringMap o blip)); [done|apply IH].
Qed.

Lemma eachBlip_inherited ringMap (blips : list Row.t) (o : JS.Obj Quadrant) :
  (∀ k, k ∈ o.*1 → k ∉ JS.Object_prototype) →
  (∃ blip, blip ∈ blips ∧ Row.quadrant blip ∈ JS.Object_prototype) →
  eachBlip capitalize ringMap o blips
  = throw (TypeError "quadrants[blip.quadrant].add is not a function").
Proof.
  revert o. induction blips as [|blip rest IH]; intros o Hown (bad & Hin & Hbad).
  { by apply elem_of_nil in Hin. }
  cbn [eachBlip].
  destruct (decide (Row.quadrant blip ∈ JS.Object_prototype)) as [Hproto|Hproto].
  - rewrite groupBlip_inherited; [done..|]. intros H. by apply Hown in H.
  - destruct (groupBlip_ok ringMap o blip Hproto) as (o1 & -> & Hkeys).
    rewrite bind_mret. apply IH.
    + intros k. rewrite Hkeys.
      destruct (decide (Row.quadrant blip ∈ o.*1)); [apply Hown|].
      rewrite elem_of_app, list_elem_of_singleton. intros [H| ->]; [by apply Hown|done].
    + exists bad. split; [|done].
      apply elem_of_cons in Hin as [->|Hin]; done.
Qed.

Lemma set_new_values {V} (o : JS.Obj V) (k : string) (v : V) :
  k ∉ o.*1 → (JS.set o k v).*2 = o.*2 ++ [v].
Proof.
  induction o as [|[k' v'] o IH]; [done|].
  change (((k', v') :: o).*1) with (k' :: o.*1). rewrite not_elem_of_cons.
  intros [Hne Hnot]. simpl JS.set.
  destruct (decide (k' = k)); [done|]. csimpl. by rewrite IH.
Qed.

Lemma set_add_blips (o : JS.Obj Quadrant) (k : string) (q : Quadrant) (b : Blip) :
  JS.getOwn o k = Some q →
  blipsOf (JS.set o k (Quadrant_add q b)).*2 ≡ₚ b :: blipsOf o.*2.
Proof.
  unfold blipsOf. induction o as [|[k' v'] o IH]; [done|].
  simpl JS.getOwn. simpl JS.set.
  destruct (decide (k' = k)) as [->|Hne].
  - intros [= ->]. csimpl. rewrite <- app_assoc.
    symmetry. apply Permutation_middle.
  - intros H. csimpl. rewrite (IH H). symmetry. apply Permutation_middle.
Qed.

Lemma groupBlip_blips ringMap (o o' : JS.Obj Quadrant) (blip : Row.t) :
  groupBlip capitalize ringMap o blip = mret o' →
  blipsOf o'.*2 ≡ₚ newBlip ringMap blip :: blipsOf o.*2.
Proof.
  unfold groupBlip, JS.get.
  destruct (JS.getOwn o (Row.quadrant blip)) as [q|] eqn:E.
  - rewrite E. intros [= <-]. by apply set_add_blips.
  - destruct (decide (Row.quadrant blip ∈ JS.Object_prototype)).
    { by rewrite E. }
    rewrite getOwn_set. intros [= <-].
    rewrite set_add_blips by apply getOwn_set.
    rewrite set_new_values by by apply getOwn_None.
    unfold blipsOf. rewrite bind_app. csimpl. by rewrite !app_nil_r.
Qed.

Lemma eachBlip_blips ringMap (blips : list Row.t) (o o' : JS.Obj Quadrant) :
  eachBlip capitalize ringMap o blips = mret o' →
  blipsOf o'.*2 ≡ₚ blipsOf o.*2 ++ (newBlip ringMap <$> blips).
Proof.
  revert o. induction blips as [|blip rest IH]; intros o; cbn [eachBlip].
  - intros [= <-]. by rewrite app_nil_r.
  - pose proof (groupBlip_trace ringMap o blip) as Ht.
    destruct (groupBlip capitalize ringMap o blip) as [t [e|o1]] eqn:Hstep;
      simpl in Ht; subst t; [done|].
    rewrite bind_pure. intros Hrest.
    rewrite (IH o1 Hrest), (groupBlip_blips ringMap o o1 blip Hstep). csimpl.
    by rewrite <- Permutation_middle.
Qed.

Lemma eachQuadrant_ok (entries : list (string * Quadrant)) (radar : Radar) :
  length (quadrants radar) + length entries ≤ 4 →
  eachQuadrant entries radar
  = mret {| quadrants := quadrants radar ++ entries.*2;
            currentSheetName := currentSheetName radar;
            alternativeSheetNames := alternativeSheetNames radar |}.
Proof.
  revert radar. induction entries as [|[k q] rest IH]; intros radar Hlen; simpl in *.
  - rewrite app_nil_r. by destruct radar.
  - unfold addQuadrant. destruct (decide (4 ≤ length (quadrants radar))); [lia|].
    rewrite bind_mret, IH; simpl.
    + by rewrite <- app_assoc.
    + rewrite length_app. simpl. lia.
Qed.

Lemma eachQuadrant_overflow (entries : list (string * Quadrant)) (radar : Radar) :
  length (quadrants radar) ≤ 4 → 4 < length (quadrants radar) + length entries →
  eachQuadrant entries radar
  = throw (MalformedDataError ExceptionMessages.TOO_MANY_QUADRANTS).
Proof.
  revert radar. induction entries as [|[k q] rest IH]; intros radar H4 Hlen; simpl in *.
  - lia.
  - unfold addQuadrant. destruct (decide (4 ≤ length (quadrants radar))); [done|].
    rewrite bind_mret, IH; simpl; [done| |]; rewrite length_app; simpl; lia.
Qed.

Lemma addAlternative_fold (radar : Radar) (names : list string) :
  foldl addAlternative radar names
  = {| quadrants := quadrants radar;
       currentSheetName := currentSheetName radar;
       alternativeSheetNames := alternativeSheetNames radar ++ names |}.
Proof.
  revert radar. induction names as [|n names IH]; intros radar; simpl.
  - rewrite app_nil_r. by destruct radar.
  - rewrite IH. simpl. by rewrite <- app_assoc.
Qed.

Lemma plotRadar_grouped title blips currentRadarName alternativeRadars ringMap o :
  buildRingMap blips = mret ringMap →
  eachBlip capitalize ringMap [] blips = mret o →
  plotRadar capitalize title blips currentRadarName alternativeRadars
  = if decide (4 < length o) then
      ([SetDocumentTitle (strippedTitle title); NewRadar],
       inl (MalformedDataError ExceptionMessages.TOO_MANY_QUADRANTS))
    else if decide (length o < 4) then
      ([SetDocumentTitle (strippedTitle title); NewRadar],
       inl (MalformedDataError ExceptionMessages.LESS_THAN_FOUR_QUADRANTS))
    else
      ([SetDocumentTitle (strippedTitle title); NewRadar;
        Plot (radarOf o currentRadarName alternativeRadars)], inr ()).
Proof.
  intros Hrings Hgroup. unfold plotRadar.
  rewrite Hrings, bind_mret, Hgroup, bind_mret.
  pose proof (ownEntries_length o) as Hlen.
  destruct (decide (4 < length o)) as [Hmany|Hmany].
  - rewrite eachQuadrant_overflow; simpl; [done|lia|lia].
  - rewrite eachQuadrant_ok by (simpl; lia).
    rewrite bind_mret, addAlternative_fold. unfold GraphingRadar_plot. simpl.
    rewrite length_fmap, Hlen.
    destruct (decide (length o < 4)); done.
Qed.

(** C1 (amended). For rows with at most four distinct ring values, none of
    whose quadrant values names a property inherited from
    [Object.prototype], [plotRadar] ends with LESS_THAN_FOUR_QUADRANTS when
    the rows hold fewer than four distinct quadrant values, with
    TOO_MANY_QUADRANTS when they hold more than four, and plots a radar of
    four quadrants when they hold exactly four. [plotRadar] consults no
    validator. *)
Theorem C1_quadrant_count (title : string) (blips : list Row.t)
    (currentRadarName : option string) (alternativeRadars : list string) :
  let q := distinctCount (Row.quadrant <$> blips) in
  let run := plotRadar capitalize title blips currentRadarName alternativeRadars in
  distinctCount (Row.ring <$> blips) ≤ 4 →
  (∀ blip, blip ∈ blips → Row.quadrant blip ∉ JS.Object_prototype) →
  (q < 4 →
     outcome run = inl (MalformedDataError ExceptionMessages.LESS_THAN_FOUR_QUADRANTS))
  ∧ (4 < q →
     outcome run = inl (MalformedDataError ExceptionMessages.TOO_MANY_QUADRANTS))
  ∧ (q = 4 →
     ∃ radar, run = ([SetDocumentTitle (strippedTitle title); NewRadar; Plot radar],
                     inr ())
       ∧ length (quadrants radar) = 4).
Proof.
  intros q run Hrings Hproto.
  destruct (buildRingMap_ok blips Hrings) as (ringMap & Hmap & _).
  destruct (eachBlip_ok ringMap blips [] Hproto) as (o & Hgroup & Hkeys).
  assert (length o = q) as Hlen.
  { rewrite <- (length_fmap fst o), Hkeys. simpl. apply distinct_length. }
  unfold run.
  rewrite (plotRadar_grouped _ _ _ _ _ _ Hmap Hgroup), Hlen.
  split; [|split]; intros Hq.
  - destruct (decide (4 < q)); [lia|]. destruct (decide (q < 4)); [done|lia].
  - destruct (decide (4 < q)); [done|lia].
  - destruct (decide (4 < q)); [lia|]. destruct (decide (q < 4)); [lia|].
    eexists. split; [done|]. simpl. rewrite length_fmap, ownEntries_length. lia.
Qed.

Lemma no_inherited_quadrant (blips : list Row.t) :
  forallb (λ blip, bool_decide (Row.quadrant blip ∉ JS.Object_prototype)) blips = true →
  ∀ blip, blip ∈ blips → Row.quadrant blip ∉ JS.Object_prototype.
Proof.
  intros H blip Hin. apply list_elem_of_In in Hin.
  rewrite forallb_forall in H. specialize (H blip Hin).
  by apply bool_decide_eq_true in H.
Defined.

(** ** Traces of [plotRadar] *)

Lemma plotRadar_shape title blips currentRadarName alternativeRadars :
  let run := plotRadar capitalize title blips currentRadarName alternativeRadars in
  let t := strippedTitle title in
  (∃ e, run = ([SetDocumentTitle t], inl e))
  ∨ (∃ e, run = ([SetDocumentTitle t; NewRadar], inl e))
  ∨ (∃ ringMap o,
       buildRingMap blips = mret ringMap
       ∧ eachBlip capitalize ringMap [] blips = mret o
       ∧ run = ([SetDocumentTitle t; NewRadar;
                 Plot (radarOf o currentRadarName alternativeRadars)], inr ())
       ∧ length o = 4).
Proof.
  intros run t. unfold run.
  pose proof (eachRing_trace (Row.ring <$> uniqBy Row.ring blips) 0 ∅) as Ht1.
  fold (buildRingMap blips) in Ht1.
  destruct (buildRingMap blips) as [t1 [e|ringMap]] eqn:H1; simpl in Ht1; subst t1.
  { left. exists e. by apply plotRadar_ring_overflow. }
  pose proof (eachBlip_trace ringMap [] blips) as Ht2.
  destruct (eachBlip capitalize ringMap [] blips) as [t2 [e|o]] eqn:H2; simpl in Ht2; subst t2.
  { left. exists e. unfold plotRadar. by rewrite H1, bind_pure, H2. }
  rewrite (plotRadar_grouped _ _ _ _ ringMap o) by done.
  destruct (decide (4 < length o)); [right; left; eauto|].
  destruct (decide (length o < 4)); [right; left; eauto|].
  right. right. exists ringMap, o. repeat split; [done..|lia].
Qed.

(** ** File names and titles *)

Lemma stripped_spec (ext s : string) :
  Stripped ext s (if JS.endsWith s ext then JS.dropEnd (length (JS.chars ext)) s else s).
Proof.
  destruct (JS.endsWith s ext) eqn:E.
  - apply endsWith_spec in E as [p ->]. left. by rewrite dropEnd_app.
  - right. split; [done|]. intros p ->.
    assert (JS.endsWith (p +:+ ext) ext = true) by (apply endsWith_spec; eauto).
    congruence.
Qed.

Lemma strippedTitle_spec (name : string) :
  ∃ withoutCsv, Stripped ".csv" name withoutCsv
    ∧ Stripped ".json" withoutCsv (strippedTitle name).
Proof.
  eexists. split; [apply (stripped_spec ".csv")|apply (stripped_spec ".json")].
Qed.

Lemma existsb_separator_false (l : list ascii) :
  existsb JS.isSeparator l = false ↔ Forall (λ c, JS.isSeparator c = false) l.
Proof.
  induction l as [|c l IH]; simpl.
  - split; [constructor|done].
  - rewrite orb_false_iff, IH, Forall_cons. done.
Qed.

Lemma execFileName_Some (l segment : list ascii) :
  JS.execFileName l = Some segment →
  ∃ prefix, l = prefix ++ segment ∧ segment ≠ []
    ∧ Forall (λ c, JS.isSeparator c = false) segment
    ∧ (prefix = [] ∨ ∃ p c, prefix = p ++ [c] ∧ JS.isSeparator c = true).
Proof.
  induction l as [|c l IH]; [done|].
  cbn [JS.execFileName].
  destruct (existsb JS.isSeparator (c :: l)) eqn:E.
  - intros H. destruct (IH H) as (prefix & -> & Hne & Hall & Hlast).
    exists (c :: prefix). split; [done|]. split; [done|]. split; [done|].
    right. destruct Hlast as [->|(p & c' & -> & Hc')].
    + exists [], c. split; [done|].
      simpl in E. apply orb_true_iff in E as [E|E]; [done|].
      apply existsb_separator_false in Hall. simpl in Hall. congruence.
    + exists (c :: p), c'. done.
  - intros [= <-]. exists []. split; [done|]. split; [done|].
    split; [by apply existsb_separator_false|by left].
Qed.

Lemma execFileName_None (l : list ascii) :
  JS.execFileName l = None →
  l = [] ∨ ∃ p c, l = p ++ [c] ∧ JS.isSeparator c = true.
Proof.
  induction l as [|c l IH]; [by left|].
  cbn [JS.execFileName].
  destruct (existsb JS.isSeparator (c :: l)) eqn:E; [|done].
  intros H. right. destruct (IH H) as [->|(p & c' & -> & Hc')].
  - exists [], c. split; [done|]. simpl in E. by rewrite orb_false_r in E.
  - exists (c :: p), c'. done.
Qed.

Lemma FileName_spec (url : string) (t : list Event) (name : string) :
  FileName url = (t, inr name) →
  t = [] ∧ ∃ decoded, JS.decodeURIComponent (JS.plusToSpace url) = Some decoded
            ∧ (LastSegment decoded name ∨ (NoSegment decoded ∧ name = url)).
Proof.
  unfold FileName, decodeUrl.
  destruct (JS.decodeURIComponent (JS.plusToSpace url)) as [decoded|]; [|done].
  rewrite bind_mret.
  destruct (JS.execFileName (JS.chars decoded)) as [segment|] eqn:E.
  - intros [= <- <-]. split; [done|]. exists decoded. split; [done|]. left.
    apply execFileName_Some in E as (prefix & Hl & Hne & Hall & Hlast).
    exists (JS.str prefix). split; [|split; [|split]].
    + apply chars_inj. by rewrite chars_app, !chars_str.
    + intros H. apply (f_equal JS.chars) in H. by rewrite chars_str in H.
    + by rewrite chars_str.
    + destruct Hlast as [->|(p & c & -> & Hc)]; [by left|].
      right. exists (JS.str p), c. split; [|done]. by rewrite str_app.
  - intros [= <- <-]. split; [done|]. exists decoded. split; [done|]. right.
    split; [|done].
    apply execFileName_None in E as [E|(p & c & E & Hc)].
    + left. apply chars_inj. by rewrite E.
    + right. exists (JS.str p), c. split; [|done].
      apply chars_inj. by rewrite chars_app, chars_str, E.
Qed.

Lemma FileName_trace (url : string) : trace (FileName url) = [].
Proof.
  unfold FileName, decodeUrl.
  destruct (JS.decodeURIComponent (JS.plusToSpace url)) as [decoded|]; [|done].
  rewrite bind_mret. by destruct (JS.execFileName (JS.chars decoded)).
Qed.

(** ** Classes of events *)

Lemma validatedFirst_no_sanitize (t : list Event) :
  (∀ ev, ev ∈ t → isSanitize ev = false) → ValidatedFirst t.
Proof.
  intros H before ev after -> Hs.
  rewrite H in Hs; [done|]. apply elem_of_app. right. apply list_elem_of_here.
Qed.

Lemma validatedFirst_checked (columnNames : list string) (rest : list Event) :
  (∀ ev, ev ∈ rest → isValidationFailure ev = false) →
  ValidatedFirst (VerifyContent columnNames None :: VerifyHeaders columnNames None :: rest).
Proof.
  intros H before ev after Heq Hs.
  destruct before as [|e1 [|e2 before]]; simpl in Heq.
  - injection Heq as <- _. done.
  - injection Heq as _ <- _. done.
  - injection Heq as <- <- ->. split.
    + exists columnNames. split; [apply list_elem_of_here|].
      apply list_elem_of_further, list_elem_of_here.
    + intros ev' Hin.
      apply elem_of_cons in Hin as [->|Hin]; [done|].
      apply elem_of_cons in Hin as [->|Hin]; [done|].
      apply H, elem_of_app. by left.
Qed.

Lemma nothingAfterFailure_none (t : list Event) :
  (∀ ev, ev ∈ t → isValidationFailure ev = false) → NothingAfterFailure t.
Proof. intros H (ev & Hin & Hf). rewrite H in Hf; done. Qed.

Lemma nothingAfterFailure_quiet (t : list Event) :
  (∀ ev, ev ∈ t → isSanitize ev = false ∧ isRadar ev = false) → NothingAfterFailure t.
Proof. intros H _. done. Qed.

Lemma tryCatch_bind {A B} (m : M A) (f : A → M B) (h : Exception → M B) :
  tryCatch (m ≫= f) h
  = match outcome m with
    | inl e => (trace m ++ trace (h e), outcome (h e))
    | inr x => (trace m ++ trace (tryCatch (f x) h), outcome (tryCatch (f x) h))
    end.
Proof.
  destruct m as [t [e|x]]; simpl.
  - by destruct (h e).
  - destruct (f x) as [t' [e'|y]]; simpl; [|done].
    destruct (h e'). simpl. by rewrite <- app_assoc.
Qed.

Lemma plotRadar_plotting title blips currentRadarName alternativeRadars :
  Forall (λ ev, isPlotting ev = true)
    (trace (plotRadar capitalize title blips currentRadarName alternativeRadars)).
Proof.
  destruct (plotRadar_shape title blips currentRadarName alternativeRadars)
    as [[e ->]|[[e ->]|(ringMap & o & _ & _ & -> & _)]]; simpl; repeat constructor.
Qed.

Lemma plotting_facts (ev : Event) :
  isPlotting ev = true →
  isValidationFailure ev = false ∧ isSanitize ev = false ∧ isAuthentication ev = false.
Proof. by destruct ev as [| | ? [?|] | ? [?|] | | | | | | | | | |]. Qed.

Lemma plotRadar_plot title blips currentRadarName alternativeRadars radar :
  Plot radar
    ∈ trace (plotRadar capitalize title blips currentRadarName alternativeRadars) →
  currentSheetName radar = currentRadarName
  ∧ alternativeSheetNames radar = alternativeRadars
  ∧ length (quadrants radar) = 4
  ∧ plotRadar capitalize title blips currentRadarName alternativeRadars
    = ([SetDocumentTitle (strippedTitle title); NewRadar; Plot radar], inr ()).
Proof.
  destruct (plotRadar_shape title blips currentRadarName alternativeRadars)
    as [[e ->]|[[e ->]|(ringMap & o & _ & _ & -> & Hlen)]]; simpl; intros H.
  - apply elem_of_cons in H as [H|H]; [done|]. by apply elem_of_nil in H.
  - apply elem_of_cons in H as [H|H]; [done|].
    apply elem_of_cons in H as [H|H]; [done|]. by apply elem_of_nil in H.
  - apply elem_of_cons in H as [H|H]; [done|].
    apply elem_of_cons in H as [H|H]; [done|].
    apply elem_of_cons in H as [H|H]; [|by apply elem_of_nil in H].
    injection H as ->. simpl. rewrite length_fmap, ownEntries_length. done.
Qed.

(** X1. The radar that [plotRadar] plots holds exactly one blip for each
    row, made by [newBlip] with the ring map of the rows. *)
Theorem plotRadar_blips title blips currentRadarName alternativeRadars radar :
  Plot radar
    ∈ trace (plotRadar capitalize title blips currentRadarName alternativeRadars) →
  ∃ ringMap, buildRingMap blips = mret ringMap
    ∧ blipsOf (quadrants radar) ≡ₚ newBlip ringMap <$> blips.
Proof.
  destruct (plotRadar_shape title blips currentRadarName alternativeRadars)
    as [[e ->]|[[e ->]|(ringMap & o & Hmap & Hgroup & -> & _)]]; simpl; intros H.
  - apply elem_of_cons in H as [H|H]; [done|]. by apply elem_of_nil in H.
  - apply elem_of_cons in H as [H|H]; [done|].
    apply elem_of_cons in H as [H|H]; [done|]. by apply elem_of_nil in H.
  - apply elem_of_cons in H as [H|H]; [done|].
    apply elem_of_cons in H as [H|H]; [done|].
    apply elem_of_cons in H as [H|H]; [|by apply elem_of_nil in H].
    injection H as ->. exists ringMap. split; [done|].
    unfold radarOf, blipsOf. cbn [quadrants].
    rewrite ownEntries_Permutation.
    apply (eachBlip_blips ringMap blips [] o Hgroup).
Qed.

(** X2. With at most four distinct ring values, a row whose quadrant value
    names a property inherited from [Object.prototype] ends [plotRadar]
    with a [TypeError], before any radar is made. *)
Theorem plotRadar_inherited_quadrant title blips currentRadarName alternativeRadars :
  distinctCount (Row.ring <$> blips) ≤ 4 →
  (∃ blip, blip ∈ blips ∧ Row.quadrant blip ∈ JS.Object_prototype) →
  plotRadar capitalize title blips currentRadarName alternativeRadars
  = ([SetDocumentTitle (strippedTitle title)],
     inl (TypeError "quadrants[blip.quadrant].add is not a function")).
Proof.
  intros Hrings Hbad.
  destruct (buildRingMap_ok blips Hrings) as (ringMap & Hmap & _).
  unfold plotRadar. rewrite Hmap, bind_mret.
  rewrite (eachBlip_inherited ringMap blips []); [done| |done].
  intros k H. by apply elem_of_nil in H.
Qed.

Lemma titles_app (t1 t2 : list Event) : titles (t1 ++ t2) = titles t1 ++ titles t2.
Proof. apply omap_app. Qed.

Lemma titles_sanitize (data : list RawRow) : titles (Sanitize <$> data) = [].
Proof. induction data as [|row rest IH]; [done|]. apply IH. Qed.

(** ** The ingestions *)

Section FactoryProperties.

Context (UIRefresh2022 : bool).
Context (verifyContent verifyHeaders : list string → option Exception).
Context (sanitize : RawRow → Row.t).
Context (sanitizeForProtectedSheet : list string → list string → Row.t).

Local Notation plotErrorMessage := (plotErrorMessage UIRefresh2022).
Local Notation verifyContent' := (contentValidator_verifyContent verifyContent).
Local Notation verifyHeaders' := (contentValidator_verifyHeaders verifyHeaders).
Local Notation plotted := (plotted capitalize UIRefresh2022).
Local Notation checked :=
  (checked capitalize UIRefresh2022 verifyContent verifyHeaders sanitize).

Lemma plotErrorMessage_run (e : Exception) :
  plotErrorMessage e
  = ((if UIRefresh2022 then [] else [SetDocumentTitle "Build your own Radar"])
       ++ [ErrorMessage (plotError e)], inr ()).
Proof. by destruct UIRefresh2022. Qed.

Lemma plotErrorMessage_plotting (e : Exception) :
  Forall (λ ev, isPlotting ev = true) (trace (plotErrorMessage e)).
Proof. rewrite plotErrorMessage_run. destruct UIRefresh2022; repeat constructor. Qed.

Lemma plotErrorMessage_no_plot (e : Exception) (radar : Radar) :
  Plot radar ∉ trace (plotErrorMessage e).
Proof.
  rewrite plotErrorMessage_run. destruct UIRefresh2022; simpl;
    rewrite ?not_elem_of_cons; repeat split; try done; apply not_elem_of_nil.
Qed.

Lemma sanitizeAll_run (data : list RawRow) :
  sanitizeAll sanitize data = (Sanitize <$> data, inr (sanitize <$> data)).
Proof.
  induction data as [|row rest IH]; [done|].
  cbn [sanitizeAll]. rewrite bind_emit, IH. simpl. by rewrite app_nil_r.
Qed.

Lemma sanitizeAllForProtectedSheet_run (all : list (list string)) header :
  sanitizeAllForProtectedSheet sanitizeForProtectedSheet all header
  = ((λ blip, SanitizeForProtectedSheet blip header) <$> all,
     inr ((λ blip, sanitizeForProtectedSheet blip header) <$> all)).
Proof.
  induction all as [|row rest IH]; [done|].
  cbn [sanitizeAllForProtectedSheet]. rewrite bind_emit, IH. simpl.
  by rewrite app_nil_r.
Qed.

Lemma checked_run (columnNames : list string) (data : list RawRow)
    (url name : string) :
  checked columnNames data url name
  = match verifyContent columnNames with
    | Some e =>
        (VerifyContent columnNames (Some e) :: trace (plotErrorMessage e), inr ())
    | None =>
        match verifyHeaders columnNames with
        | Some e =>
            (VerifyContent columnNames None :: VerifyHeaders columnNames (Some e)
               :: trace (plotErrorMessage e), inr ())
        | None =>
            (VerifyContent columnNames None :: VerifyHeaders columnNames None
               :: (Sanitize <$> data)
               ++ trace (plotted (sanitize <$> data) url name),
             outcome (plotted (sanitize <$> data) url name))
        end
    end.
Proof.
  unfold checked, contentValidator_verifyContent, contentValidator_verifyHeaders.
  rewrite tryCatch_bind.
  destruct (verifyContent columnNames) as [e|]; simpl.
  { by rewrite plotErrorMessage_run. }
  rewrite tryCatch_bind.
  destruct (verifyHeaders columnNames) as [e|]; simpl.
  { by rewrite plotErrorMessage_run. }
  rewrite tryCatch_bind, sanitizeAll_run. simpl. done.
Qed.

Lemma plotted_cases (blips : list Row.t) (url name : string) :
  (∃ title o,
      FileName url = ([], inr title)
      ∧ plotted blips url name
        = ([SetDocumentTitle (strippedTitle title); NewRadar;
            Plot (radarOf o (Some name) [])], inr ())
      ∧ length o = 4)
  ∨ (Forall (λ ev, isPlotting ev = true) (trace (plotted blips url name))
     ∧ ∀ radar, Plot radar ∉ trace (plotted blips url name)).
Proof.
  unfold plotted. rewrite tryCatch_bind.
  pose proof (FileName_trace url) as Ht.
  destruct (FileName url) as [t [e|title]] eqn:Hname; simpl in Ht; subst t; simpl.
  { right. split; [apply plotErrorMessage_plotting|].
    intros radar. apply plotErrorMessage_no_plot. }
  destruct (plotRadar_shape title blips (Some name) [])
    as [[e He]|[[e He]|(ringMap & o & _ & _ & Ho & Hlen)]];
    unfold tryCatch; rewrite ?He, ?Ho; simpl.
  - right. pose proof (plotErrorMessage_plotting e) as Hp.
    pose proof (plotErrorMessage_no_plot e) as Hn.
    destruct (plotErrorMessage e) as [t' r']. simpl in *. split.
    + by constructor.
    + intros radar. rewrite not_elem_of_cons. split; [done|apply Hn].
  - right. pose proof (plotErrorMessage_plotting e) as Hp.
    pose proof (plotErrorMessage_no_plot e) as Hn.
    destruct (plotErrorMessage e) as [t' r']. simpl in *. split.
    + by repeat constructor.
    + intros radar. rewrite !not_elem_of_cons. repeat split; [done..|apply Hn].
  - left. exists title, o. done.
Qed.

Lemma CSVDocument_createBlips_checked (url : string) (data : CsvData) :
  CSVDocument_createBlips capitalize UIRefresh2022 verifyContent verifyHeaders sanitize url data
  = checked (columns data) (rows data) url "CSV File".
Proof. done. Qed.

Lemma JSONFile_createBlips_checked (url : string) (first : RawRow) (rest : list RawRow) :
  JSONFile_createBlips capitalize UIRefresh2022 verifyContent verifyHeaders sanitize url
    (first :: rest)
  = checked (JS.keys first) (first :: rest) url "JSON File".
Proof. unfold JSONFile_createBlips, checked. by rewrite bind_mret. Qed.

Lemma JSONFile_createBlips_empty (url : string) :
  JSONFile_createBlips capitalize UIRefresh2022 verifyContent verifyHeaders sanitize url []
  = plotErrorMessage (TypeError "Cannot convert undefined or null to object").
Proof. unfold JSONFile_createBlips. simpl. by rewrite plotErrorMessage_run. Qed.

Lemma plotted_plotting (blips : list Row.t) (url name : string) :
  Forall (λ ev, isPlotting ev = true) (trace (plotted blips url name)).
Proof.
  destruct (plotted_cases blips url name) as [(title & o & _ & -> & _)|[H _]];
    [repeat constructor|done].
Qed.

Lemma forEachValidate_ok {A} (values : list A) (columnNames : list string) :
  verifyContent columnNames = None → verifyHeaders columnNames = None →
  forEachValidate verifyContent verifyHeaders values columnNames
  = (flat_map (λ _, [VerifyContent columnNames None; VerifyHeaders columnNames None])
       values, inr ()).
Proof.
  intros Hc Hh. induction values as [|v rest IH]; [done|].
  cbn [forEachValidate flat_map].
  unfold contentValidator_verifyContent, contentValidator_verifyHeaders.
  rewrite Hc, Hh, IH. done.
Qed.

Lemma createBlipsForProtectedSheet_run (sheetName : option string)
    (documentTitle : string) (values : list (list string))
    (sheetNames : list string) :
  createBlipsForProtectedSheet capitalize verifyContent verifyHeaders
    sanitizeForProtectedSheet sheetName documentTitle values sheetNames
  = match values with
    | [] => plotSheet capitalize sheetName documentTitle sheetNames []
    | header :: all =>
        match verifyContent header with
        | Some e => ([VerifyContent header (Some e)], inl e)
        | None =>
            match verifyHeaders header with
            | Some e =>
                ([VerifyContent header None; VerifyHeaders header (Some e)], inl e)
            | None =>
                let blips := (λ blip, sanitizeForProtectedSheet blip header) <$> all in
                (VerifyContent header None :: VerifyHeaders header None
                   :: flat_map (λ _, [VerifyContent header None;
                                      VerifyHeaders header None]) all
                   ++ ((λ blip, SanitizeForProtectedSheet blip header) <$> all)
                   ++ trace (plotSheet capitalize sheetName documentTitle sheetNames blips),
                 outcome (plotSheet capitalize sheetName documentTitle sheetNames blips))
            end
        end
    end.
Proof.
  unfold createBlipsForProtectedSheet. fold (shownSheet sheetName sheetNames).
  destruct values as [|header all].
  { by rewrite bind_mret. }
  destruct (verifyContent header) as [e|] eqn:Hc.
  { cbn [forEachValidate]. unfold contentValidator_verifyContent. by rewrite Hc. }
  destruct (verifyHeaders header) as [e|] eqn:Hh.
  { cbn [forEachValidate].
    unfold contentValidator_verifyContent, contentValidator_verifyHeaders.
    by rewrite Hc, Hh. }
  rewrite forEachValidate_ok, sanitizeAllForProtectedSheet_run by done.
  unfold plotSheet. cbn [flat_map]. simpl.
  destruct (plotRadar capitalize _ _ _ _) as [t r]. simpl.
  by rewrite <- app_assoc.
Qed.

(** X4. A sheet response without values is not validated: the run is that
    of [plotRadar] on no rows, and it checks neither content nor headers. *)
Theorem createBlipsForProtectedSheet_empty (sheetName : option string)
    (documentTitle : string) (sheetNames : list string) :
  let run := createBlipsForProtectedSheet capitalize verifyContent verifyHeaders
               sanitizeForProtectedSheet sheetName documentTitle [] sheetNames in
  run = plotSheet capitalize sheetName documentTitle sheetNames []
  ∧ ∀ columnNames thrown,
      (VerifyContent columnNames thrown ∉ trace run)
      ∧ (VerifyHeaders columnNames thrown ∉ trace run).
Proof.
  intros run. unfold run. rewrite createBlipsForProtectedSheet_run.
  split; [done|]. intros columnNames thrown.
  pose proof (plotRadar_plotting
                (documentTitle +:+ " - " +:+ toString (shownSheet sheetName sheetNames))
                [] (shownSheet sheetName sheetNames) sheetNames) as Hp.
  rewrite Forall_forall in Hp. split; intros H; by apply Hp in H.
Qed.

(** *** Validation comes first *)

Lemma plotErrorMessage_quiet (e : Exception) (ev : Event) :
  ev ∈ trace (plotErrorMessage e) →
  isSanitize ev = false ∧ isRadar ev = false ∧ isValidationFailure ev = false.
Proof.
  rewrite plotErrorMessage_run. destruct UIRefresh2022; simpl; intros H;
    repeat (apply elem_of_cons in H as [->|H]; [done|]); by apply elem_of_nil in H.
Qed.

Lemma checked_validated (columnNames : list string) (data : list RawRow)
    (url name : string) :
  ValidatedFirst (trace (checked columnNames data url name))
  ∧ NothingAfterFailure (trace (checked columnNames data url name)).
Proof.
  rewrite checked_run.
  destruct (verifyContent columnNames) as [e|];
    [|destruct (verifyHeaders columnNames) as [e|]]; simpl.
  - split; [apply validatedFirst_no_sanitize|apply nothingAfterFailure_quiet];
      intros ev H; (apply elem_of_cons in H as [->|H]; [done|]);
      by apply plotErrorMessage_quiet in H as (? & ? & ?).
  - split; [apply validatedFirst_no_sanitize|apply nothingAfterFailure_quiet];
      intros ev H; (apply elem_of_cons in H as [->|H]; [done|]);
      (apply elem_of_cons in H as [->|H]; [done|]);
      by apply plotErrorMessage_quiet in H as (? & ? & ?).
  - assert (∀ ev, ev ∈ (Sanitize <$> data)
                       ++ trace (plotted (sanitize <$> data) url name) →
                  isValidationFailure ev = false) as Hrest.
    { intros ev H. apply elem_of_app in H as [H|H].
      - apply list_elem_of_fmap in H as (row & -> & _). done.
      - pose proof (plotted_plotting (sanitize <$> data) url name) as Hp.
        rewrite Forall_forall in Hp. by apply plotting_facts, Hp. }
    split; [by apply validatedFirst_checked|].
    apply nothingAfterFailure_none. intros ev H.
    apply elem_of_cons in H as [->|H]; [done|].
    apply elem_of_cons in H as [->|H]; [done|]. by apply Hrest.
Qed.

Lemma createBlipsForProtectedSheet_validated (sheetName : option string)
    (documentTitle : string) (values : list (list string))
    (sheetNames : list string) :
  let t := trace (createBlipsForProtectedSheet capitalize verifyContent verifyHeaders
                    sanitizeForProtectedSheet sheetName documentTitle values
                    sheetNames) in
  ValidatedFirst t ∧ NothingAfterFailure t.
Proof.
  rewrite createBlipsForProtectedSheet_run.
  destruct values as [|header all].
  { pose proof (plotRadar_plotting
                  (documentTitle +:+ " - " +:+ toString (shownSheet sheetName sheetNames))
                  [] (shownSheet sheetName sheetNames) sheetNames) as Hp.
    rewrite Forall_forall in Hp. unfold plotSheet. cbv zeta.
    split; [apply validatedFirst_no_sanitize|apply nothingAfterFailure_none];
      intros ev H; by apply plotting_facts, Hp. }
  destruct (verifyContent header) as [e|];
    [|destruct (verifyHeaders header) as [e|]]; cbv zeta; simpl.
  - split; [apply validatedFirst_no_sanitize|apply nothingAfterFailure_quiet];
      intros ev H; (apply elem_of_cons in H as [->|H]; [done|]);
      by apply elem_of_nil in H.
  - split; [apply validatedFirst_no_sanitize|apply nothingAfterFailure_quiet];
      intros ev H; (apply elem_of_cons in H as [->|H]; [done|]);
      (apply elem_of_cons in H as [->|H]; [done|]); by apply elem_of_nil in H.
  - match goal with |- ValidatedFirst (_ :: _ :: ?rest) ∧ _ =>
      assert (∀ ev, ev ∈ rest → isValidationFailure ev = false) as Hrest
    end.
    { intros ev H. apply elem_of_app in H as [H|H]; [|apply elem_of_app in H as [H|H]].
      - apply list_elem_of_In, in_flat_map in H as (row & _ & H).
        apply list_elem_of_In in H.
        repeat (apply elem_of_cons in H as [->|H]; [done|]).
        by apply elem_of_nil in H.
      - apply list_elem_of_fmap in H as (row & -> & _). done.
      - pose proof (plotRadar_plotting
                      (documentTitle +:+ " - "
                         +:+ toString (shownSheet sheetName sheetNames))
                      ((λ blip, sanitizeForProtectedSheet blip header) <$> all)
                      (shownSheet sheetName sheetNames) sheetNames) as Hp.
        rewrite Forall_forall in Hp. by apply plotting_facts, Hp. }
    split; [by apply validatedFirst_checked|].
    apply nothingAfterFailure_none. intros ev H.
    apply elem_of_cons in H as [->|H]; [done|].
    apply elem_of_cons in H as [->|H]; [done|]. by apply Hrest.
Qed.

(** C9. In a CSV, a JSON and a sheet ingestion alike, a row is sanitized
    only after a content check and a header check that both returned, and
    after no failed check; a run in which a check failed sanitizes no row,
    makes no radar and hands none to the renderer. *)
Theorem C9_validation_first (url : string) (csv : CsvData) (json : list RawRow)
    (sheetName : option string) (documentTitle : string)
    (values : list (list string)) (sheetNames : list string) :
  Forall (λ t, ValidatedFirst t ∧ NothingAfterFailure t)
    [ trace (CSVDocument_createBlips capitalize UIRefresh2022 verifyContent verifyHeaders
               sanitize url csv);
      trace (JSONFile_createBlips capitalize UIRefresh2022 verifyContent verifyHeaders
               sanitize url json);
      trace (createBlipsForProtectedSheet capitalize verifyContent verifyHeaders
               sanitizeForProtectedSheet sheetName documentTitle values
               sheetNames) ].
Proof.
  repeat apply Forall_cons_2; [| | |constructor].
  - rewrite CSVDocument_createBlips_checked. apply checked_validated.
  - destruct json as [|first rest].
    + rewrite JSONFile_createBlips_empty.
      split; [apply validatedFirst_no_sanitize|apply nothingAfterFailure_quiet];
        intros ev H; by apply plotErrorMessage_quiet in H as (? & ? & ?).
    + rewrite JSONFile_createBlips_checked. apply checked_validated.
  - apply createBlipsForProtectedSheet_validated.
Qed.

(** *** What a file ingestion attaches *)

Lemma checked_plot (columnNames : list string) (data : list RawRow)
    (url name : string) (radar : Radar) :
  Plot radar ∈ trace (checked columnNames data url name) →
  alternativeSheetNames radar = []
  ∧ currentSheetName radar = Some name
  ∧ ∃ title, titles (trace (checked columnNames data url name)) = [title]
             ∧ TitleOf url title.
Proof.
  rewrite checked_run.
  destruct (verifyContent columnNames) as [e|];
    [|destruct (verifyHeaders columnNames) as [e|]]; simpl; intros H.
  - apply elem_of_cons in H as [H|H]; [done|].
    by apply plotErrorMessage_no_plot in H.
  - apply elem_of_cons in H as [H|H]; [done|].
    apply elem_of_cons in H as [H|H]; [done|].
    by apply plotErrorMessage_no_plot in H.
  - apply elem_of_cons in H as [H|H]; [done|].
    apply elem_of_cons in H as [H|H]; [done|].
    apply elem_of_app in H as [H|H].
    { by apply list_elem_of_fmap in H as (row & ? & _). }
    destruct (plotted_cases (sanitize <$> data) url name)
      as [(title & o & Hname & Hrun & Hlen)|[_ Hno]]; [|by apply Hno in H].
    rewrite Hrun in H |- *. simpl in H.
    apply elem_of_cons in H as [H|H]; [done|].
    apply elem_of_cons in H as [H|H]; [done|].
    apply elem_of_cons in H as [H|H]; [|by apply elem_of_nil in H].
    injection H as ->. split; [done|]. split; [done|].
    exists (strippedTitle title). split.
    + unfold titles at 1. simpl. fold (titles ((Sanitize <$> data)
        ++ [SetDocumentTitle (strippedTitle title); NewRadar;
            Plot (radarOf o (Some name) [])])).
      by rewrite titles_app, titles_sanitize.
    + apply FileName_spec in Hname as (_ & decoded & Hdec & Hseg).
      destruct (strippedTitle_spec title) as (withoutCsv & H1 & H2).
      by exists decoded, title, withoutCsv.
Qed.

(** C10 (amended). A CSV ingestion that plots a radar gives it no
    alternative sheet names and the current sheet name "CSV File", a JSON
    ingestion the name "JSON File"; either sets one title: the last
    segment of the decoded URL, in which "+" reads as a space (the URL as
    given when the decoded URL has no last segment), without a trailing
    ".csv" and then without a trailing ".json". *)
Theorem C10_file_ingestion (url : string) (csv : CsvData) (json : list RawRow)
    (radar : Radar) :
  let csvRun := CSVDocument_createBlips capitalize UIRefresh2022 verifyContent verifyHeaders
                  sanitize url csv in
  let jsonRun := JSONFile_createBlips capitalize UIRefresh2022 verifyContent verifyHeaders
                   sanitize url json in
  (Plot radar ∈ trace csvRun →
     alternativeSheetNames radar = []
     ∧ currentSheetName radar = Some "CSV File"
     ∧ ∃ title, titles (trace csvRun) = [title] ∧ TitleOf url title)
  ∧ (Plot radar ∈ trace jsonRun →
     alternativeSheetNames radar = []
     ∧ currentSheetName radar = Some "JSON File"
     ∧ ∃ title, titles (trace jsonRun) = [title] ∧ TitleOf url title).
Proof.
  intros csvRun jsonRun. split.
  - unfold csvRun. rewrite CSVDocument_createBlips_checked. apply checked_plot.
  - unfold jsonRun. destruct json as [|first rest].
    + rewrite JSONFile_createBlips_empty. intros H.
      by apply plotErrorMessage_no_plot in H.
    + rewrite JSONFile_createBlips_checked. apply checked_plot.
Qed.

(** *** What a sheet ingestion attaches *)

Lemma createBlipsForProtectedSheet_plot (sheetName : option string)
    (documentTitle : string) (values : list (list string))
    (sheetNames : list string) (radar : Radar) :
  Plot radar ∈ trace (createBlipsForProtectedSheet capitalize verifyContent verifyHeaders
                        sanitizeForProtectedSheet sheetName documentTitle values
                        sheetNames) →
  alternativeSheetNames radar = sheetNames
  ∧ currentSheetName radar = shownSheet sheetName sheetNames.
Proof.
  assert (∀ blips,
            Plot radar
              ∈ trace (plotSheet capitalize sheetName documentTitle sheetNames blips) →
            alternativeSheetNames radar = sheetNames
            ∧ currentSheetName radar = shownSheet sheetName sheetNames) as Hplot.
  { intros blips H. by apply plotRadar_plot in H as (Hc & Ha & _). }
  rewrite createBlipsForProtectedSheet_run.
  destruct values as [|header all]; [apply Hplot|].
  destruct (verifyContent header) as [e|];
    [|destruct (verifyHeaders header) as [e|]]; cbv zeta; simpl; intros H.
  - apply elem_of_cons in H as [H|H]; [done|]. by apply elem_of_nil in H.
  - apply elem_of_cons in H as [H|H]; [done|].
    apply elem_of_cons in H as [H|H]; [done|]. by apply elem_of_nil in H.
  - apply elem_of_cons in H as [H|H]; [done|].
    apply elem_of_cons in H as [H|H]; [done|].
    apply elem_of_app in H as [H|H]; [|apply elem_of_app in H as [H|H]].
    + apply list_elem_of_In, in_flat_map in H as (row & _ & H).
      apply list_elem_of_In in H.
      repeat (apply elem_of_cons in H as [?|H]; [done|]).
      by apply elem_of_nil in H.
    + by apply list_elem_of_fmap in H as (row & ? & _).
    + by apply Hplot in H.
Qed.

(** C7. A sheet ingestion that plots a radar gives it the sheet names of
    the workbook, complete and in order, as alternatives, and a current
    sheet: the sheet name the caller gave or, when the caller gave none
    (or an empty one), the first sheet name of the workbook. Nothing in
    [plotRadar] makes the attachment conditional. *)
Theorem C7_sheet_names (sheetName : option string) (documentTitle : string)
    (values : list (list string)) (sheetNames : list string) (radar : Radar) :
  Plot radar ∈ trace (createBlipsForProtectedSheet capitalize verifyContent verifyHeaders
                        sanitizeForProtectedSheet sheetName documentTitle values
                        sheetNames) →
  alternativeSheetNames radar = sheetNames
  ∧ (sheetName = None → currentSheetName radar = head sheetNames)
  ∧ (sheetName = Some "" → currentSheetName radar = head sheetNames)
  ∧ (∀ s, sheetName = Some s → s ≠ "" → currentSheetName radar = Some s).
Proof.
  intros H. apply createBlipsForProtectedSheet_plot in H as [Ha Hc].
  split; [done|]. rewrite Hc. unfold shownSheet.
  split; [by intros ->|]. split; [by intros ->|].
  intros s -> Hs. simpl. by rewrite bool_decide_eq_false_2.
Qed.

Local Notation build :=
  (GoogleSheet_build capitalize UIRefresh2022 verifyContent verifyHeaders
     sanitizeForProtectedSheet).

(** *** Sheets that are missing or refused *)



(** C5 (amended). When [sheet.validate] reports a [SheetNotFoundError],
    the build prints the message of that error (SHEET_NOT_FOUND, when that
    is what the error carries) and stops: the Google library is not loaded
    and no login is attempted. In every other case, with no error or with
    an error of any other kind, the build goes on to authentication: it
    loads the Google library first and, unless an API key is enabled, logs
    in next, not forced. So authentication is attempted exactly when the
    validation did not report a [SheetNotFoundError], whether or not it
    confirmed that the document exists. *)
Theorem C5_sheet_not_found (sheetReference sheetName : option string)
    (message : string) (apiKeyEnabled : bool) (world : AuthWorld) :
  let run := build sheetReference sheetName
               (Some (SheetNotFoundError message), apiKeyEnabled) world in
  outcome run = inr ()
  ∧ errorTexts (trace run) = [message]
  ∧ Forall (λ ev, isAuthentication ev = false) (trace run)
  ∧ (∀ validated ev,
       ev ∈ trace (build sheetReference sheetName validated world) →
       isAuthentication ev = true →
       ∀ m, validated.1 ≠ Some (SheetNotFoundError m))
  ∧ (∀ error, (∀ m, error ≠ Some (SheetNotFoundError m)) →
       ∃ rest,
         trace (build sheetReference sheetName (error, apiKeyEnabled) world)
         = LoadGoogle :: (if apiKeyEnabled then [] else [Login false]) ++ rest).
Proof.
  intros run.
  assert (∀ m k, build sheetReference sheetName (Some (SheetNotFoundError m), k) world
                 = plotErrorMessage (SheetNotFoundError m)) as Hrun by done.
  unfold run. rewrite Hrun, plotErrorMessage_run.
  split; [done|]. split; [by destruct UIRefresh2022|].
  split; [destruct UIRefresh2022; repeat constructor|]. split.
  - intros [error k] ev Hin Hauth m Herr. simpl in Herr. subst error.
    rewrite Hrun, plotErrorMessage_run in Hin.
    destruct UIRefresh2022; simpl in Hin;
      repeat (apply elem_of_cons in Hin as [->|Hin]; [done|]);
      by apply elem_of_nil in Hin.
  - intros error Herr.
    assert (build sheetReference sheetName (error, apiKeyEnabled) world
            = authenticate capitalize UIRefresh2022 verifyContent verifyHeaders
                sanitizeForProtectedSheet sheetReference sheetName false
                apiKeyEnabled None world) as ->.
    { destruct error as [[m|m| | |]|]; try done. by destruct (Herr m). }
    unfold authenticate. rewrite bind_emit. cbn [trace fst].
    destruct apiKeyEnabled; cbn [negb app]; [by eexists|].
    rewrite bind_emit. cbn [trace fst]. by eexists.
Qed.


End FactoryProperties.

(** ** Source resolution *)

Lemma segmentRun_schemeThenHost (l : list (ascii * bool)) (host : list ascii) :
  JS.schemeThenHost l = Some host → host ≠ [].
Proof.
  unfold JS.schemeThenHost.
  destruct l as [|[c1 ?] [|[c2 ?] [|[c3 ?] rest]]]; try done.
  destruct (_ && _); [|done].
  destruct (JS.segmentRun rest); [done|]. by intros [= <-].
Qed.

Lemma afterDots_nonempty (l : list (ascii * bool)) (host : list ascii) :
  JS.afterDots l = Some host → host ≠ [].
Proof.
  induction l as [|[c dot] rest IH]; [done|].
  cbn [JS.afterDots].
  destruct (if dot then JS.afterDots rest else None) as [h|] eqn:E.
  - intros [= <-]. destruct dot; [by apply IH|done].
  - apply segmentRun_schemeThenHost.
Qed.

Lemma execDomain_nonempty (l : list (ascii * bool)) (host : list ascii) :
  JS.execDomain l = Some host → host ≠ [].
Proof.
  induction l as [|[c dot] rest IH]; [done|].
  cbn [JS.execDomain].
  destruct (if dot then JS.afterDots rest else None) as [h|] eqn:E.
  - intros [= <-]. destruct dot; [by apply afterDots_nonempty in E|done].
  - apply IH.
Qed.

Lemma DomainName_truthy (url : string) (t : list Event) (domain : string) :
  DomainName url = (t, inr (Some domain)) → JS.truthy (Some domain) = true.
Proof.
  unfold DomainName, decodeUrl.
  destruct (JS.decodeURIComponent (JS.plusToSpace url)) as [decoded|]; [|done].
  rewrite !bind_mret.
  destruct (JS.execDomain (JS.dotMask (JS.chars decoded))) as [host|] eqn:E; [|done].
  intros [= <- <-]. apply execDomain_nonempty in E.
  simpl. rewrite bool_decide_eq_false_2; [done|].
  intros H. apply (f_equal JS.chars) in H. by rewrite chars_str in H.
Qed.

(** C4, as stated, fails: a [sheetId] that ends in ".csv" but comes with no
    [scheme://host] in the query string leads to the entry form. *)
Lemma C4_counterexample :
  JS.endsWith "radar.csv" ".csv" = true
  ∧ GoogleSheetInput_build "?sheetId=radar.csv"
      (QueryParams.make (Some "radar.csv") None)
    = ([SetDocumentTitle "Build your own Radar"], inr InputForm).
Proof. split; reflexivity. Qed.

(** C4 (amended). When no domain name can be read off the query string,
    the entry form is shown whatever the [sheetId]. When one can, and a
    [sheetId] is present: a [sheetId] ending in ".csv" selects
    [CSVDocument]; otherwise one ending in ".json" selects [JSONFile];
    otherwise a non-empty [sheetId] with a domain name ending in
    "google.com" selects [GoogleSheet], which is given the [sheetName];
    otherwise the entry form is shown. *)
Theorem C4_source_precedence (search : string) (queryParams : QueryParams.t)
    (domainName : option string) :
  DomainName (JS.str (drop 1 (JS.chars search))) = mret domainName →
  let run := GoogleSheetInput_build search queryParams in
  (domainName = None →
     run = ([SetDocumentTitle "Build your own Radar"], inr InputForm))
  ∧ (∀ domain sheetId,
       domainName = Some domain → QueryParams.sheetId queryParams = Some sheetId →
       outcome run
       = inr (if JS.endsWith sheetId ".csv" then CSVDocument (Some sheetId)
              else if JS.endsWith sheetId ".json" then JSONFile (Some sheetId)
              else if JS.endsWith domain "google.com"
                      && negb (bool_decide (sheetId = ""))
                   then GoogleSheet (Some sheetId) (QueryParams.sheetName queryParams)
                   else InputForm)).
Proof.
  intros Hdomain run. unfold run, GoogleSheetInput_build. rewrite Hdomain, bind_mret.
  split.
  - by intros ->.
  - intros domain sheetId -> HsheetId.
    pose proof (DomainName_truthy _ _ _ Hdomain) as Htruthy.
    rewrite Htruthy, HsheetId. cbn [andThen endsWith].
    rewrite bind_mret. destruct (JS.endsWith sheetId ".csv"); [done|].
    rewrite bind_mret. destruct (JS.endsWith sheetId ".json"); [done|].
    rewrite !bind_mret.
    destruct (JS.endsWith domain "google.com"); simpl; [|done].
    by destruct (bool_decide (sheetId = "")).
Qed.

(** X3. When a domain name can be read off the query string and there is
    no [sheetId] at all, [GoogleSheetInput.build] ends with the [TypeError]
    of calling [endsWith] on [undefined]. *)
Theorem GoogleSheetInput_build_without_sheetId (search : string)
    (queryParams : QueryParams.t) (domain : string) :
  DomainName (JS.str (drop 1 (JS.chars search))) = mret (Some domain) →
  QueryParams.sheetId queryParams = None →
  GoogleSheetInput_build search queryParams
  = ([], inl (TypeError "Cannot read properties of undefined (reading 'endsWith')")).
Proof.
  intros Hdomain HsheetId.
  pose proof (DomainName_truthy _ _ _ Hdomain) as Htruthy.
  unfold GoogleSheetInput_build. rewrite Hdomain, bind_mret, Htruthy, HsheetId. done.
Qed.

(** A run of X3: a query string that holds a URL under another name. *)
Lemma GoogleSheetInput_build_without_sheetId_witness :
  GoogleSheetInput_build "?url=https://example.org/radar.csv"
    (QueryParams.make None None)
  = ([], inl (TypeError "Cannot read properties of undefined (reading 'endsWith')")).
Proof.
  apply (GoogleSheetInput_build_without_sheetId "?url=https://example.org/radar.csv"
           (QueryParams.make None None) "example.org"); reflexivity.
Defined.

(** Runs of C4: a CSV file, a JSON file, a sheet with its name, and a
    query string without a domain name. *)
Lemma C4_witness :
  outcome (GoogleSheetInput_build "?sheetId=https://example.org/radar.csv"
             (QueryParams.make (Some "https://example.org/radar.csv") None))
    = inr (CSVDocument (Some "https://example.org/radar.csv"))
  ∧ outcome (GoogleSheetInput_build "?sheetId=https%3A%2F%2Fexample.org%2Fradar.json"
               (QueryParams.make (Some "https://example.org/radar.json") None))
    = inr (JSONFile (Some "https://example.org/radar.json"))
  ∧ outcome (GoogleSheetInput_build
               "?sheetId=https://docs.google.com/spreadsheets/d/1abc&sheetName=2024"
               (QueryParams.make (Some "https://docs.google.com/spreadsheets/d/1abc")
                  (Some "2024")))
    = inr (GoogleSheet (Some "https://docs.google.com/spreadsheets/d/1abc")
             (Some "2024"))
  ∧ GoogleSheetInput_build "?sheetId=radar.json"
      (QueryParams.make (Some "radar.json") None)
    = ([SetDocumentTitle "Build your own Radar"], inr InputForm).
Proof.
  split; [|split; [|split]].
  - apply (proj2 (C4_source_precedence "?sheetId=https://example.org/radar.csv"
                    (QueryParams.make (Some "https://example.org/radar.csv") None)
                    (Some "example.org") eq_refl)
             "example.org" "https://example.org/radar.csv"); reflexivity.
  - apply (proj2 (C4_source_precedence
                    "?sheetId=https%3A%2F%2Fexample.org%2Fradar.json"
                    (QueryParams.make (Some "https://example.org/radar.json") None)
                    (Some "example.org") eq_refl)
             "example.org" "https://example.org/radar.json"); reflexivity.
  - apply (proj2 (C4_source_precedence
                    "?sheetId=https://docs.google.com/spreadsheets/d/1abc&sheetName=2024"
                    (QueryParams.make
                       (Some "https://docs.google.com/spreadsheets/d/1abc")
                       (Some "2024"))
                    (Some "docs.google.com") eq_refl)
             "docs.google.com" "https://docs.google.com/spreadsheets/d/1abc");
      reflexivity.
  - apply (proj1 (C4_source_precedence "?sheetId=radar.json"
                    (QueryParams.make (Some "radar.json") None) None eq_refl)).
    reflexivity.
Defined.

(** * Further properties of the factory

    What the code does beyond the claims of the specification: escapes that
    cannot be decoded, the host that is tested, what grouping builds, and
    what each ingestion shows when it fails. *)

(** ** Malformed escapes *)

Lemma uriTokens_percent (n : nat) (pre tl : list ascii) (ts : list JS.UriToken) :
  length pre ≤ n →
  JS.uriTokens (pre ++ "%"%char :: tl) = Some ts →
  ∃ h k tl', tl = h :: k :: tl'
    ∧ is_Some (JS.hexDigit h) ∧ is_Some (JS.hexDigit k).
Proof.
  revert pre ts. induction n as [|n IH]; intros pre ts Hn.
  - destruct pre; [|simpl in Hn; lia]. simpl.
    destruct tl as [|h [|k tl']]; [done..|].
    destruct (JS.hexDigit h) eqn:Hh; [|done].
    destruct (JS.hexDigit k) eqn:Hk; [|done].
    intros _. by exists h, k, tl'.
  - destruct pre as [|c pre].
    { apply (IH []). simpl. lia. }
    simpl in Hn. simpl. destruct (decide (c = "%"%char)) as [->|Hc].
    + destruct pre as [|h [|k pre]]; simpl.
      * destruct tl as [|k tl']; [done|]. by vm_compute.
      * destruct (JS.hexDigit h); simpl; [|done]. by vm_compute.
      * destruct (JS.hexDigit h); simpl; [|done].
        destruct (JS.hexDigit k); simpl; [|done].
        destruct (JS.uriTokens (pre ++ "%"%char :: tl)) as [ts'|] eqn:Hts; [|done].
        intros _. apply (IH pre ts'); [simpl in Hn; lia|done].
    + destruct (JS.uriTokens (pre ++ "%"%char :: tl)) as [ts'|] eqn:Hts; [|done].
      intros _. apply (IH pre ts'); [lia|done].
Qed.

Lemma plusToSpace_chars (s : string) :
  JS.chars (JS.plusToSpace s)
  = (λ c, if decide (c = "+"%char) then " "%char else c) <$> JS.chars s.
Proof. unfold JS.plusToSpace. apply chars_str. Qed.

Lemma hexDigit_plusToSpace (c : ascii) :
  JS.hexDigit c = None →
  JS.hexDigit (if decide (c = "+"%char) then " "%char else c) = None.
Proof. by destruct (decide (c = "+"%char)). Qed.

Lemma decodeUrl_malformed (url : string) :
  MalformedEscape url → decodeUrl url = throw URIError.
Proof.
  intros (pre & tl & Hurl & Hbad). unfold decodeUrl, JS.decodeURIComponent.
  rewrite plusToSpace_chars, Hurl, fmap_app, fmap_cons.
  rewrite decide_False by done.
  destruct (JS.uriTokens _) as [ts|] eqn:Hts; [|done]. exfalso.
  apply (uriTokens_percent _ _ _ _ (Nat.le_refl _)) in Hts
    as (h' & k' & tl' & Htl & [x Hh] & [y Hk]).
  destruct tl as [|h [|k tl0]]; [done..|].
  injection Htl as <- <- _.
  destruct (Hbad h k tl0 eq_refl) as [H|H];
    apply hexDigit_plusToSpace in H; congruence.
Qed.

Lemma FileName_URIError (url : string) :
  MalformedEscape url → FileName url = throw URIError.
Proof. intros H. unfold FileName. by rewrite (decodeUrl_malformed _ H). Qed.

(** X5. A URL in which some "%" is not followed by two hexadecimal digits has
    neither a file name nor a domain name: both [FileName] and [DomainName]
    throw the [URIError] of [decodeURIComponent]. *)
Theorem malformed_escape_URIError (url : string) :
  MalformedEscape url →
  FileName url = throw URIError ∧ DomainName url = throw URIError.
Proof.
  intros H. unfold FileName, DomainName. by rewrite (decodeUrl_malformed _ H).
Qed.

(** X6. A query string with a malformed escape makes [GoogleSheetInput.build]
    throw a [URIError] before it shows anything: neither the entry form nor a
    loading screen. *)
Theorem GoogleSheetInput_build_malformed_query (search : string)
    (queryParams : QueryParams.t) :
  MalformedEscape (JS.str (drop 1 (JS.chars search))) →
  GoogleSheetInput_build search queryParams = throw URIError.
Proof.
  intros H. unfold GoogleSheetInput_build, DomainName.
  by rewrite (decodeUrl_malformed _ H).
Qed.

(** ** Escapes that are not UTF-8 *)

Lemma uriTokens_escape (n : nat) (pre : list ascii) (h k : ascii)
    (tl : list ascii) (ts : list JS.UriToken) (hi lo : N) :
  length pre ≤ n →
  JS.uriTokens (pre ++ "%"%char :: h :: k :: tl) = Some ts →
  JS.hexDigit h = Some hi → JS.hexDigit k = Some lo →
  ∃ ts1 ts2, ts = ts1 ++ JS.Escape (16 * hi + lo) :: ts2
    ∧ JS.uriTokens tl = Some ts2.
Proof.
  intros Hn Hts Hh Hk. revert pre ts Hn Hts.
  induction n as [|n IH]; intros pre ts Hn.
  - destruct pre; [|simpl in Hn; lia]. cbn [app JS.uriTokens].
    rewrite decide_True by done. rewrite Hh, Hk. cbn [mbind option_bind].
    destruct (JS.uriTokens tl) as [ts2|]; [|done]. intros [= <-].
    by exists [], ts2.
  - destruct pre as [|c pre].
    { apply (IH []). simpl. lia. }
    simpl in Hn. cbn [app JS.uriTokens].
    destruct (decide (c = "%"%char)) as [->|Hc].
    + destruct pre as [|h0 [|k0 pre]]; cbn [app].
      * by vm_compute.
      * destruct (JS.hexDigit h0); [|done]. by vm_compute.
      * destruct (JS.hexDigit h0) as [hi0|]; [|done].
        destruct (JS.hexDigit k0) as [lo0|]; [|done]. cbn [mbind option_bind].
        destruct (JS.uriTokens (pre ++ "%"%char :: h :: k :: tl)) as [ts'|] eqn:Hts;
          [|done].
        intros [= <-].
        destruct (IH pre ts') as (ts1 & ts2 & -> & Htl); [simpl in Hn; lia|done|].
        by exists (JS.Escape (16 * hi0 + lo0) :: ts1), ts2.
    + destruct (JS.uriTokens (pre ++ "%"%char :: h :: k :: tl)) as [ts'|] eqn:Hts;
        [|done].
      intros [= <-].
      destruct (IH pre ts') as (ts1 & ts2 & -> & Htl); [lia|done|].
      by exists (JS.Literal c :: ts1), ts2.
Qed.

Lemma continuationRanges_spec (b : N) (more : list (N * N)) :
  JS.continuationRanges b = Some more →
  more ≠ [] ∧ Forall (λ r, (r.2 ≤ 191)%N) more.
Proof.
  unfold JS.continuationRanges. cbv zeta.
  repeat (match goal with |- context [if ?c then _ else _] => destruct c end);
    intros [= <-]; (split; [done|]); repeat constructor; cbn [snd]; lia.
Qed.

(** A byte of 192 or above is no continuation byte, and as a lead byte it
    asks for a continuation: followed by a literal character or by the
    end, it cannot be decoded, whatever was decoded before it. *)
Lemma decodeTokens_lone_lead (ts1 rest : list JS.UriToken) (b : N)
    (expected : list (N * N)) :
  (192 ≤ b)%N →
  Forall (λ r, (r.2 ≤ 191)%N) expected →
  (rest = [] ∨ ∃ c r, rest = JS.Literal c :: r) →
  JS.decodeTokens expected (ts1 ++ JS.Escape b :: rest) = None.
Proof.
  intros Hb Hexpected Hrest. revert expected Hexpected.
  induction ts1 as [|t ts1 IH]; intros expected Hexpected; cbn [app JS.decodeTokens].
  - destruct expected as [|[lo hi] expected].
    + replace (b <? 128)%N with false by (symmetry; apply N.ltb_ge; lia).
      destruct (JS.continuationRanges b) as [more|] eqn:Hmore; [|done].
      apply continuationRanges_spec in Hmore as [Hne _]. cbn [mbind option_bind].
      destruct more as [|[lo hi] more]; [done|].
      by destruct Hrest as [->|(c & r & ->)].
    + apply Forall_cons in Hexpected as [Hhi _]. cbn [snd] in Hhi.
      unfold JS.between.
      replace (b <=? hi)%N with false by (symmetry; apply N.leb_gt; lia).
      by rewrite andb_false_r.
  - destruct expected as [|[lo hi] expected].
    + destruct t as [c|b0].
      * by rewrite IH.
      * destruct (b0 <? 128)%N; [by rewrite IH|].
        destruct (JS.continuationRanges b0) as [more|] eqn:Hmore; [|done].
        apply continuationRanges_spec in Hmore as [_ Hmore].
        cbn [mbind option_bind]. by rewrite IH.
    + destruct t as [c|b0]; [done|].
      apply Forall_cons in Hexpected as [_ Hexpected].
      destruct (JS.between lo hi b0); [|done]. by rewrite IH.
Qed.

Lemma plusToSpace_hexDigit (c : ascii) (n : N) :
  JS.hexDigit c = Some n → (if decide (c = "+"%char) then " "%char else c) = c.
Proof. by destruct (decide (c = "+"%char)) as [->|]. Qed.

Lemma decodeUrl_lone_lead (url : string) :
  LoneLeadEscape url → decodeUrl url = throw URIError.
Proof.
  intros (pre & h & k & hi & lo & tl & Hurl & Hh & Hk & Hb & Htl).
  unfold decodeUrl, JS.decodeURIComponent.
  rewrite plusToSpace_chars, Hurl, fmap_app, !fmap_cons.
  rewrite decide_False by done.
  rewrite (plusToSpace_hexDigit h hi Hh), (plusToSpace_hexDigit k lo Hk).
  destruct (JS.uriTokens _) as [ts|] eqn:Hts; [|done]. cbn [mbind option_bind].
  apply (uriTokens_escape _ _ _ _ _ _ hi lo (Nat.le_refl _)) in Hts
    as (ts1 & ts2 & -> & Hts2); [|done..].
  rewrite decodeTokens_lone_lead; [done|done|constructor|].
  destruct Htl as [->|(c & tl' & -> & Hc)].
  - left. by injection Hts2 as <-.
  - right. rewrite fmap_cons in Hts2. cbn [JS.uriTokens] in Hts2.
    rewrite decide_False in Hts2 by (by destruct (decide (c = "+"%char))).
    destruct (JS.uriTokens _) as [ts'|]; [|done]. injection Hts2 as <-. eauto.
Qed.

(** X23. A URL holding an escape for a byte of 192 or above, followed by the
    end of the URL or by a character other than "%", has neither a file name
    nor a domain name: such an escape is no UTF-8, and [FileName] and
    [DomainName] throw the [URIError] of [decodeURIComponent]. A "%E9" for a
    Latin-1 "é" is the common case. *)
Theorem lone_lead_escape_URIError (url : string) :
  LoneLeadEscape url →
  FileName url = throw URIError ∧ DomainName url = throw URIError.
Proof.
  intros H. unfold FileName, DomainName. by rewrite (decodeUrl_lone_lead _ H).
Qed.

(** ** What a file ingestion shows *)

Lemma tryCatch_throw {A} (e : Exception) (h : Exception → M A) :
  tryCatch (throw e) h = h e.
Proof. unfold tryCatch, throw. by destruct (h e). Qed.

Lemma FileName_cases (url : string) :
  FileName url = throw URIError ∨ ∃ title, FileName url = mret title.
Proof.
  unfold FileName, decodeUrl.
  destruct (JS.decodeURIComponent _) as [decoded|]; [right|by left].
  rewrite bind_mret. destruct (JS.execFileName _); eauto.
Qed.

Lemma plots_app (t1 t2 : list Event) : plots (t1 ++ t2) = plots t1 ++ plots t2.
Proof. apply omap_app. Qed.

Lemma errorTexts_app (t1 t2 : list Event) :
  errorTexts (t1 ++ t2) = errorTexts t1 ++ errorTexts t2.
Proof. apply omap_app. Qed.

Lemma plots_skip (ev : Event) (t : list Event) :
  plots [ev] = [] → plots (ev :: t) = plots t.
Proof. intros H. change (ev :: t) with ([ev] ++ t). by rewrite plots_app, H. Qed.

Lemma errorTexts_skip (ev : Event) (t : list Event) :
  errorTexts [ev] = [] → errorTexts (ev :: t) = errorTexts t.
Proof.
  intros H. change (ev :: t) with ([ev] ++ t). by rewrite errorTexts_app, H.
Qed.

Lemma titles_skip (ev : Event) (t : list Event) :
  titles [ev] = [] → titles (ev :: t) = titles t.
Proof. intros H. change (ev :: t) with ([ev] ++ t). by rewrite titles_app, H. Qed.

Lemma plots_sanitize (data : list RawRow) : plots (Sanitize <$> data) = [].
Proof. by induction data. Qed.

Lemma errorTexts_sanitize (data : list RawRow) : errorTexts (Sanitize <$> data) = [].
Proof. by induction data. Qed.

Section IngestionProperties.

Context (UIRefresh2022 : bool).
Context (verifyContent verifyHeaders : list string → option Exception).
Context (sanitize : RawRow → Row.t).
Context (sanitizeForProtectedSheet : list string → list string → Row.t).

Local Notation plotErrorMessage := (plotErrorMessage UIRefresh2022).
Local Notation plotted' := (plotted capitalize UIRefresh2022).
Local Notation checked' :=
  (checked capitalize UIRefresh2022 verifyContent verifyHeaders sanitize).
Local Notation csvBlips :=
  (CSVDocument_createBlips capitalize UIRefresh2022 verifyContent verifyHeaders sanitize).
Local Notation jsonBlips :=
  (JSONFile_createBlips capitalize UIRefresh2022 verifyContent verifyHeaders sanitize).
Local Notation sheetBlips :=
  (createBlipsForProtectedSheet capitalize verifyContent verifyHeaders
     sanitizeForProtectedSheet).

(** The title that the error view sets, under the old interface only. *)
Local Notation errorTitle :=
  (if UIRefresh2022 then [] else [SetDocumentTitle "Build your own Radar"]).

Lemma plotted_malformed (blips : list Row.t) (url name : string) :
  MalformedEscape url → plotted' blips url name = plotErrorMessage URIError.
Proof.
  intros H. unfold plotted.
  rewrite (FileName_URIError url H), bind_throw.
  apply tryCatch_throw.
Qed.

Lemma plotErrorMessage_shown (e : Exception) :
  plotErrorMessage e = (errorTitle ++ [ErrorMessage (plotError e)], inr ())
  ∧ plots (trace (plotErrorMessage e)) = []
  ∧ errorTexts (trace (plotErrorMessage e)) = [plotError e]
  ∧ outcome (plotErrorMessage e) = inr ().
Proof. rewrite plotErrorMessage_run. by destruct UIRefresh2022. Qed.

Lemma tryCatch_inl {A} (t : list Event) (e : Exception) (h : Exception → M A) :
  tryCatch (t, inl e) h = (t ++ trace (h e), outcome (h e)).
Proof. unfold tryCatch. by destruct (h e). Qed.

(** [plotted] either plots, or sets at most the title of the file and then
    shows an error. *)
Lemma plotted_shape (blips : list Row.t) (url name : string) :
  (∃ title o,
      FileName url = mret title
      ∧ plotted' blips url name
        = ([SetDocumentTitle (strippedTitle title); NewRadar;
            Plot (radarOf o (Some name) [])], inr ()))
  ∨ (∃ pre e,
      plotted' blips url name = (pre ++ trace (plotErrorMessage e), inr ())
      ∧ plots pre = [] ∧ errorTexts pre = []
      ∧ (pre = []
         ∨ ∃ title, FileName url = mret title
                    ∧ titles pre = [strippedTitle title])).
Proof.
  destruct (FileName_cases url) as [Hurl|[title Hurl]].
  - right. exists [], URIError. unfold plotted.
    rewrite Hurl, bind_throw, tryCatch_throw.
    destruct (plotErrorMessage_shown URIError) as (-> & _). eauto.
  - unfold plotted. rewrite Hurl, bind_mret.
    destruct (plotRadar_shape title blips (Some name) [])
      as [[e He]|[[e He]|(ringMap & o & _ & _ & He & _)]]; rewrite He.
    + right. exists [SetDocumentTitle (strippedTitle title)], e.
      rewrite tryCatch_inl.
      destruct (plotErrorMessage_shown e) as (_ & _ & _ & ->). eauto 10.
    + right. exists [SetDocumentTitle (strippedTitle title); NewRadar], e.
      rewrite tryCatch_inl.
      destruct (plotErrorMessage_shown e) as (_ & _ & _ & ->). eauto 10.
    + left. by exists title, o.
Qed.

Lemma checked_result (columnNames : list string) (data : list RawRow)
    (url name : string) :
  let run := checked' columnNames data url name in
  outcome run = inr ()
  ∧ length (plots (trace run)) + length (errorTexts (trace run)) = 1.
Proof.
  simpl. rewrite checked_run.
  destruct (verifyContent columnNames) as [e|].
  { destruct (plotErrorMessage_shown e) as (_ & Hp & He & _).
    unfold trace in *. simpl. by rewrite Hp, He. }
  destruct (verifyHeaders columnNames) as [e|].
  { destruct (plotErrorMessage_shown e) as (_ & Hp & He & _).
    unfold trace in *. simpl. by rewrite Hp, He. }
  destruct (plotted_shape (sanitize <$> data) url name)
    as [(title & o & _ & ->)|(pre & e & -> & Hp & He & _)];
    (split; [done|]); cbn [trace outcome fst snd];
    rewrite !plots_skip by done; rewrite !errorTexts_skip by done;
    rewrite !plots_app, !errorTexts_app, plots_sanitize, errorTexts_sanitize.
  - done.
  - destruct (plotErrorMessage_shown e) as (_ & Hp' & He' & _).
    by rewrite Hp, He, Hp', He'.
Qed.

(** X7. A CSV or JSON ingestion never throws: whatever the validator, the
    sanitizer and the data do, [createBlips] returns, having either plotted one
    radar or shown one error message, never both and never neither. *)
Theorem file_ingestion_never_throws (url : string) (csv : CsvData)
    (json : list RawRow) :
  Forall (λ run : M unit,
            outcome run = inr ()
            ∧ length (plots (trace run)) + length (errorTexts (trace run)) = 1)
    [ csvBlips url csv; jsonBlips url json ].
Proof.
  repeat constructor.
  - rewrite CSVDocument_createBlips_checked. apply checked_result.
  - rewrite CSVDocument_createBlips_checked. apply checked_result.
  - destruct json as [|first rest].
    + rewrite JSONFile_createBlips_empty.
      by destruct (plotErrorMessage_shown
                     (TypeError "Cannot convert undefined or null to object"))
        as (_ & _ & _ & ->).
    + rewrite JSONFile_createBlips_checked. apply checked_result.
  - destruct json as [|first rest].
    + rewrite JSONFile_createBlips_empty.
      by destruct (plotErrorMessage_shown
                     (TypeError "Cannot convert undefined or null to object"))
        as (_ & -> & -> & _).
    + rewrite JSONFile_createBlips_checked. apply checked_result.
Qed.

Lemma plots_nil_not_elem (t : list Event) (radar : Radar) :
  plots t = [] → Plot radar ∉ t.
Proof.
  induction t as [|ev t IH]; intros H; [apply not_elem_of_nil|].
  apply not_elem_of_cons. destruct ev; (split; [done|by apply IH]).
Qed.

Lemma checked_malformed (columnNames : list string) (data : list RawRow)
    (url name : string) :
  MalformedEscape url →
  plots (trace (checked' columnNames data url name)) = []
  ∧ (verifyContent columnNames = None → verifyHeaders columnNames = None →
     checked' columnNames data url name
     = (VerifyContent columnNames None :: VerifyHeaders columnNames None
          :: (Sanitize <$> data) ++ errorTitle
          ++ [ErrorMessage "Oops! We can't find the data"], inr ())).
Proof.
  intros Hurl. rewrite checked_run, (plotted_malformed _ _ _ Hurl).
  destruct (plotErrorMessage_shown URIError) as (Hrun & Hp & _ & _).
  split.
  - destruct (verifyContent columnNames) as [e|].
    { by destruct (plotErrorMessage_shown e) as (_ & ? & _). }
    destruct (verifyHeaders columnNames) as [e|].
    { by destruct (plotErrorMessage_shown e) as (_ & ? & _). }
    cbn [trace fst]. rewrite !plots_skip by done.
    by rewrite plots_app, plots_sanitize.
  - intros -> ->. by rewrite Hrun.
Qed.

(** X8. A CSV or JSON ingestion of a URL with a malformed escape never plots.
    When the column names pass both checks, every row is still sanitized before
    the file name is asked for, and what is shown is the sentence of
    [plotError] alone. *)
Theorem file_ingestion_malformed_url (url : string) (csv : CsvData)
    (first : RawRow) (rest : list RawRow) :
  MalformedEscape url →
  (∀ radar, Plot radar ∉ trace (csvBlips url csv))
  ∧ (∀ radar, Plot radar ∉ trace (jsonBlips url (first :: rest)))
  ∧ (verifyContent (columns csv) = None → verifyHeaders (columns csv) = None →
     csvBlips url csv
     = (VerifyContent (columns csv) None :: VerifyHeaders (columns csv) None
          :: (Sanitize <$> rows csv) ++ errorTitle
          ++ [ErrorMessage "Oops! We can't find the data"], inr ()))
  ∧ (verifyContent (JS.keys first) = None → verifyHeaders (JS.keys first) = None →
     jsonBlips url (first :: rest)
     = (VerifyContent (JS.keys first) None :: VerifyHeaders (JS.keys first) None
          :: (Sanitize <$> first :: rest) ++ errorTitle
          ++ [ErrorMessage "Oops! We can't find the data"], inr ())).
Proof.
  intros Hurl.
  rewrite CSVDocument_createBlips_checked, JSONFile_createBlips_checked.
  destruct (checked_malformed (columns csv) (rows csv) url "CSV File" Hurl)
    as [Hcsv Hcsv'].
  destruct (checked_malformed (JS.keys first) (first :: rest) url "JSON File" Hurl)
    as [Hjson Hjson'].
  repeat split; try done; intros radar; by apply plots_nil_not_elem.
Qed.

(** *** Too many rings, as the reader of a file sees it *)

Lemma checked_too_many_rings (columnNames : list string) (data : list RawRow)
    (url name title : string) :
  verifyContent columnNames = None → verifyHeaders columnNames = None →
  FileName url = mret title →
  4 < distinctCount (Row.ring <$> (sanitize <$> data)) →
  checked' columnNames data url name
  = (VerifyContent columnNames None :: VerifyHeaders columnNames None
       :: (Sanitize <$> data)
       ++ [SetDocumentTitle (strippedTitle title)] ++ errorTitle
       ++ [ErrorMessage "Oops! We can't find the dataMore than 4 rings."],
     inr ()).
Proof.
  intros Hc Hh Hurl Hrings. rewrite checked_run, Hc, Hh.
  unfold plotted. rewrite Hurl, bind_mret.
  rewrite (plotRadar_ring_overflow _ _ _ _ _ (buildRingMap_overflow _ Hrings)).
  rewrite tryCatch_inl.
  by destruct (plotErrorMessage_shown
                 (MalformedDataError ExceptionMessages.TOO_MANY_RINGS))
    as (-> & _).
Qed.

(** X9. A file whose rows name more than four rings: the column names are
    checked, every row is sanitized, the document title becomes that of the
    file, and only then the error is shown, as the sentence of [plotError] with
    the message appended. The old interface sets the title back; the new one
    leaves the title of the file beside the error. *)
Theorem file_ingestion_too_many_rings (url title : string) (csv : CsvData)
    (first : RawRow) (rest : list RawRow) :
  FileName url = mret title →
  (verifyContent (columns csv) = None → verifyHeaders (columns csv) = None →
   4 < distinctCount (Row.ring <$> (sanitize <$> rows csv)) →
   csvBlips url csv
   = (VerifyContent (columns csv) None :: VerifyHeaders (columns csv) None
        :: (Sanitize <$> rows csv)
        ++ [SetDocumentTitle (strippedTitle title)] ++ errorTitle
        ++ [ErrorMessage "Oops! We can't find the dataMore than 4 rings."],
      inr ()))
  ∧ (verifyContent (JS.keys first) = None → verifyHeaders (JS.keys first) = None →
     4 < distinctCount (Row.ring <$> (sanitize <$> first :: rest)) →
     jsonBlips url (first :: rest)
     = (VerifyContent (JS.keys first) None :: VerifyHeaders (JS.keys first) None
          :: (Sanitize <$> first :: rest)
          ++ [SetDocumentTitle (strippedTitle title)] ++ errorTitle
          ++ [ErrorMessage "Oops! We can't find the dataMore than 4 rings."],
        inr ())).
Proof.
  intros Hurl.
  rewrite CSVDocument_createBlips_checked, JSONFile_createBlips_checked.
  split; intros; by apply checked_too_many_rings.
Qed.

(** *** The document title beside an error *)

Lemma plotErrorMessage_titles (e : Exception) :
  titles (trace (plotErrorMessage e))
  = (if UIRefresh2022 then [] else ["Build your own Radar"]).
Proof. rewrite plotErrorMessage_run. by destruct UIRefresh2022. Qed.

Lemma checked_titles (columnNames : list string) (data : list RawRow)
    (url name : string) :
  let run := checked' columnNames data url name in
  (errorTexts (trace run) = []
   ∧ ∃ title, FileName url = mret title
              ∧ titles (trace run) = [strippedTitle title])
  ∨ (errorTexts (trace run) ≠ []
     ∧ ∃ before,
         titles (trace run)
         = before ++ (if UIRefresh2022 then [] else ["Build your own Radar"])
         ∧ (before = []
            ∨ ∃ title, FileName url = mret title
                       ∧ before = [strippedTitle title])).
Proof.
  simpl. rewrite checked_run.
  destruct (verifyContent columnNames) as [e|].
  { right. cbn [trace fst]. rewrite errorTexts_skip, titles_skip by done.
    destruct (plotErrorMessage_shown e) as (_ & _ & -> & _).
    split; [done|]. exists []. rewrite plotErrorMessage_titles. auto. }
  destruct (verifyHeaders columnNames) as [e|].
  { right. cbn [trace fst]. rewrite !errorTexts_skip, !titles_skip by done.
    destruct (plotErrorMessage_shown e) as (_ & _ & -> & _).
    split; [done|]. exists []. rewrite plotErrorMessage_titles. auto. }
  cbn [trace fst].
  rewrite !errorTexts_skip, !titles_skip by done.
  rewrite errorTexts_app, titles_app, errorTexts_sanitize, titles_sanitize.
  destruct (plotted_shape (sanitize <$> data) url name)
    as [(title & o & Hurl & ->)|(pre & e & -> & _ & He & Hpre)].
  - left. split; [done|]. by exists title.
  - right. unfold trace at 1 3. cbn [fst app].
    rewrite errorTexts_app, titles_app, He.
    destruct (plotErrorMessage_shown e) as (_ & _ & -> & _).
    split; [done|]. exists (titles pre). rewrite plotErrorMessage_titles.
    split; [done|]. destruct Hpre as [->|(title & Hurl & Hpre)]; [by left|].
    right. by exists title.
Qed.

(** X10. The document title beside an error of a CSV or JSON ingestion. Under
    the old interface the error view sets the title back: when an error is
    shown the title ends as "Build your own Radar". Under the new one the error
    view leaves the title alone: the only title such an ingestion ever sets is
    that of the file, error or not. *)
Theorem file_ingestion_error_title (url : string) (csv : CsvData)
    (json : list RawRow) :
  Forall (λ run : M unit,
            (UIRefresh2022 = false → errorTexts (trace run) ≠ [] →
               last (titles (trace run)) = Some "Build your own Radar")
            ∧ (UIRefresh2022 = true →
                 titles (trace run) = []
                 ∨ ∃ title, FileName url = mret title
                            ∧ titles (trace run) = [strippedTitle title]))
    [ csvBlips url csv; jsonBlips url json ].
Proof.
  assert (∀ columnNames data name,
    let run := checked' columnNames data url name in
    (UIRefresh2022 = false → errorTexts (trace run) ≠ [] →
       last (titles (trace run)) = Some "Build your own Radar")
    ∧ (UIRefresh2022 = true →
         titles (trace run) = []
         ∨ ∃ title, FileName url = mret title
                    ∧ titles (trace run) = [strippedTitle title])) as Hchecked.
  { intros columnNames data name. simpl.
    destruct (checked_titles columnNames data url name)
      as [(He & title & Hurl & Ht)|(He & before & Ht & Hbefore)].
    - split; [done|]. intros _. right. by exists title.
    - rewrite Ht. split.
      + intros -> _. by rewrite last_snoc.
      + intros ->. rewrite app_nil_r.
        destruct Hbefore as [->|(title & Hurl & ->)]; [by left|].
        right. by exists title. }
  constructor; [|constructor; [|constructor]].
  - rewrite CSVDocument_createBlips_checked. apply Hchecked.
  - destruct json as [|first rest];
      [|rewrite JSONFile_createBlips_checked; apply Hchecked].
    rewrite JSONFile_createBlips_empty, plotErrorMessage_titles.
    split; intros ->; [done|by left].
Qed.

(** *** The column names of a JSON file *)

(** X11. The column names of a JSON file are the keys of its first row, and of
    that row only. With no row at all they cannot be read: no check is run, and
    what is shown is the sentence of [plotError] alone. *)
Theorem JSONFile_createBlips_columns (url : string) (first : RawRow)
    (rest : list RawRow) :
  jsonBlips url []
  = (errorTitle ++ [ErrorMessage "Oops! We can't find the data"], inr ())
  ∧ ∀ ev columnNames thrown,
      ev ∈ trace (jsonBlips url (first :: rest)) →
      ev = VerifyContent columnNames thrown ∨ ev = VerifyHeaders columnNames thrown →
      columnNames = JS.keys first.
Proof.
  split.
  { rewrite JSONFile_createBlips_empty.
    by destruct (plotErrorMessage_shown
                   (TypeError "Cannot convert undefined or null to object"))
      as (-> & _). }
  intros ev columnNames thrown Hev Hcheck.
  rewrite JSONFile_createBlips_checked, checked_run in Hev.
  assert (∀ t, Forall (λ ev, isPlotting ev = true) t → ev ∉ t) as Hplotting.
  { intros t Ht Hin. rewrite Forall_forall in Ht. apply Ht in Hin.
    by destruct Hcheck as [-> | ->]. }
  assert (ev ∉ Sanitize <$> first :: rest) as Hsanitize.
  { intros (row & -> & _)%list_elem_of_fmap. by destruct Hcheck. }
  destruct (verifyContent (JS.keys first)) as [e|];
    [|destruct (verifyHeaders (JS.keys first)) as [e|]];
    cbn [trace fst] in Hev.
  - apply elem_of_cons in Hev as [->|Hev]; [destruct Hcheck; congruence|].
    by apply Hplotting in Hev; [|apply plotErrorMessage_plotting].
  - apply elem_of_cons in Hev as [->|Hev]; [destruct Hcheck; congruence|].
    apply elem_of_cons in Hev as [->|Hev]; [destruct Hcheck; congruence|].
    by apply Hplotting in Hev; [|apply plotErrorMessage_plotting].
  - apply elem_of_cons in Hev as [->|Hev]; [destruct Hcheck; congruence|].
    apply elem_of_cons in Hev as [->|Hev]; [destruct Hcheck; congruence|].
    apply elem_of_app in Hev as [Hev|Hev]; [done|].
    by apply Hplotting in Hev; [|apply plotted_plotting].
Qed.

End IngestionProperties.

(** ** What a sheet ingestion shows *)

Lemma plotRadar_results title blips currentRadarName alternativeRadars :
  let run := plotRadar capitalize title blips currentRadarName alternativeRadars in
  titles (trace run) = [strippedTitle title]
  ∧ errorTexts (trace run) = []
  ∧ Forall (λ ev, isAuthentication ev = false) (trace run)
  ∧ (outcome run = inr () ↔ ∃ radar, Plot radar ∈ trace run).
Proof.
  simpl.
  destruct (plotRadar_shape title blips currentRadarName alternativeRadars)
    as [[e ->]|[[e ->]|(ringMap & o & _ & _ & -> & _)]];
    (split; [done|]); (split; [done|]);
    (split; [by repeat constructor|]); cbn [trace outcome fst snd].
  - split; [done|]. intros [radar H]. by apply list_elem_of_singleton in H.
  - split; [done|]. intros [radar H].
    repeat (apply elem_of_cons in H as [H|H]; [done|]). by apply elem_of_nil in H.
  - split; [|done]. intros _. eexists. do 2 apply list_elem_of_further.
    apply list_elem_of_here.
Qed.

Lemma endsWith_app (p q ext : string) :
  length (JS.chars ext) ≤ length (JS.chars q) →
  JS.endsWith (p +:+ q) ext = JS.endsWith q ext.
Proof.
  intros Hlen. unfold JS.endsWith. apply bool_decide_ext. rewrite chars_app.
  split.
  - intros [k Hk]. apply app_eq_inv in Hk as [(k' & Hp & Hq)|(k' & Hp & Hq)].
    + rewrite Hq, length_app in Hlen.
      destruct k'; [|simpl in Hlen; lia]. by rewrite Hq.
    + by exists k'.
  - intros [k ->]. exists (JS.chars p ++ k). by rewrite app_assoc.
Qed.

(** A title that ends in ".json" loses it, whatever comes before; one that
    ends otherwise than in ".csv" or ".json" is kept. *)
Lemma strippedTitle_json (p : string) : strippedTitle (p +:+ ".json") = p.
Proof.
  unfold strippedTitle. rewrite (endsWith_app p ".json" ".csv") by (simpl; lia).
  change (JS.endsWith ".json" ".csv") with false. cbv iota.
  rewrite (endsWith_app p ".json" ".json") by (simpl; lia).
  change (JS.endsWith ".json" ".json") with true. cbv iota.
  apply (dropEnd_app p ".json").
Qed.

Lemma strippedTitle_other (p q : string) :
  4 < length (JS.chars q) →
  JS.endsWith q ".csv" || JS.endsWith q ".json" = false →
  strippedTitle (p +:+ q) = p +:+ q.
Proof.
  intros Hlen H. apply orb_false_iff in H as [Hcsv Hjson].
  unfold strippedTitle. rewrite (endsWith_app p q ".csv") by (simpl; lia).
  rewrite Hcsv. rewrite (endsWith_app p q ".json") by (simpl; lia).
  by rewrite Hjson.
Qed.

Section SheetProperties.

Context (UIRefresh2022 : bool).
Context (verifyContent verifyHeaders : list string → option Exception).
Context (sanitizeForProtectedSheet : list string → list string → Row.t).

Local Notation sheetBlips :=
  (createBlipsForProtectedSheet capitalize verifyContent verifyHeaders
     sanitizeForProtectedSheet).
Local Notation build :=
  (GoogleSheet_build capitalize UIRefresh2022 verifyContent verifyHeaders
     sanitizeForProtectedSheet).

(** The rows that a sheet ingestion hands to [plotRadar]. *)
Local Notation sheetRows values :=
  (match values with
   | [] => []
   | header :: all => (λ blip, sanitizeForProtectedSheet blip header) <$> all
   end).

(** A sheet ingestion checks and sanitizes, which shows nothing, and then
    either stops at a failed check or goes on with [plotRadar]. *)
Lemma createBlipsForProtectedSheet_shape (sheetName : option string)
    (documentTitle : string) (values : list (list string))
    (sheetNames : list string) :
  let run := sheetBlips sheetName documentTitle values sheetNames in
  let plotting := plotSheet capitalize sheetName documentTitle sheetNames (sheetRows values) in
  ∃ pre,
    titles pre = [] ∧ plots pre = [] ∧ errorTexts pre = []
    ∧ Forall (λ ev, isAuthentication ev = false) pre
    ∧ ((∃ e, run = (pre, inl e)
             ∧ (∃ ev, ev ∈ pre ∧ thrownBy ev = Some e)
             ∧ Forall (λ ev, thrownBy ev = None ∨ thrownBy ev = Some e) pre)
       ∨ (run = (pre ++ trace plotting, outcome plotting)
          ∧ Forall (λ ev, thrownBy ev = None) pre)).
Proof.
  simpl. rewrite createBlipsForProtectedSheet_run.
  destruct values as [|header all].
  { exists []. repeat (split; [done|]). right. split; [|done].
    by destruct (plotSheet capitalize _ _ _ _). }
  destruct (verifyContent header) as [e|].
  { exists [VerifyContent header (Some e)].
    repeat (split; [done || by repeat constructor|]). left.
    exists e. split; [done|]. split; [|repeat constructor; by right].
    eexists. split; [apply list_elem_of_here|done]. }
  destruct (verifyHeaders header) as [e|].
  { exists [VerifyContent header None; VerifyHeaders header (Some e)].
    repeat (split; [done || by repeat constructor|]). left.
    exists e. split; [done|].
    split; [|repeat constructor; by (left || right)].
    eexists. split; [apply list_elem_of_further, list_elem_of_here|done]. }
  cbv zeta.
  exists (VerifyContent header None :: VerifyHeaders header None
            :: flat_map (λ _, [VerifyContent header None; VerifyHeaders header None]) all
            ++ ((λ blip, SanitizeForProtectedSheet blip header) <$> all)).
  assert (∀ P : Event → Prop,
            P (VerifyContent header None) → P (VerifyHeaders header None) →
            (∀ blip, P (SanitizeForProtectedSheet blip header)) →
            Forall P (VerifyContent header None :: VerifyHeaders header None
                        :: flat_map (λ _, [VerifyContent header None;
                                           VerifyHeaders header None]) all
                        ++ ((λ blip, SanitizeForProtectedSheet blip header) <$> all)))
    as Hall.
  { intros P Hc Hh Hs. do 2 (constructor; [done|]). apply Forall_app. split.
    - induction all as [|row all IH]; [constructor|].
      cbn [flat_map app]. by do 2 (constructor; [done|]).
    - apply Forall_fmap, Forall_forall. intros blip _. apply Hs. }
  assert (∀ {B} (f : Event → option B),
            f (VerifyContent header None) = None →
            f (VerifyHeaders header None) = None →
            (∀ blip, f (SanitizeForProtectedSheet blip header) = None) →
            omap f (VerifyContent header None :: VerifyHeaders header None
                      :: flat_map (λ _, [VerifyContent header None;
                                         VerifyHeaders header None]) all
                      ++ ((λ blip, SanitizeForProtectedSheet blip header) <$> all))
            = []) as Hnone.
  { intros B f Hc Hh Hs.
    specialize (Hall (λ ev, f ev = None) Hc Hh Hs).
    induction Hall as [|ev t Hev _ IH]; [done|]. cbn [omap list_omap].
    by rewrite Hev. }
  split; [by apply Hnone|]. split; [by apply Hnone|]. split; [by apply Hnone|].
  split; [by apply Hall|]. right. split; [|by apply Hall].
  f_equal. cbn [app]. by rewrite <- app_assoc.
Qed.

Lemma thrownBy_failure (ev : Event) :
  thrownBy ev = None ↔ isValidationFailure ev = false.
Proof. by destruct ev as [| |? []|? []| | | | | | | | | |]. Qed.

Lemma plotRadar_thrownBy title blips currentRadarName alternativeRadars :
  Forall (λ ev, thrownBy ev = None)
    (trace (plotRadar capitalize title blips currentRadarName alternativeRadars)).
Proof.
  eapply Forall_impl; [apply plotRadar_plotting|].
  intros ev H. apply thrownBy_failure. by apply plotting_facts.
Qed.

(** X12. [createBlipsForProtectedSheet] has no [try]: it shows no error message
    of its own. It returns exactly when it has plotted; the exception of a
    failed check, like any that [plotRadar] throws, leaves it uncaught. *)
Theorem createBlipsForProtectedSheet_uncaught (sheetName : option string)
    (documentTitle : string) (values : list (list string))
    (sheetNames : list string) :
  let run := sheetBlips sheetName documentTitle values sheetNames in
  errorTexts (trace run) = []
  ∧ (outcome run = inr () ↔ ∃ radar, Plot radar ∈ trace run)
  ∧ (∀ ev e, ev ∈ trace run → thrownBy ev = Some e → outcome run = inl e).
Proof.
  simpl.
  destruct (createBlipsForProtectedSheet_shape sheetName documentTitle values
              sheetNames) as (pre & _ & Hp & He & _ & Hrun).
  cbv zeta in Hrun. unfold plotSheet in Hrun.
  destruct (plotRadar_results
              (documentTitle +:+ " - " +:+ toString (shownSheet sheetName sheetNames))
              (sheetRows values) (shownSheet sheetName sheetNames) sheetNames)
    as (_ & He' & _ & Hplot). cbv zeta in He', Hplot.
  destruct Hrun as [(e & -> & _ & Hpre)|[-> Hpre]]; cbn [trace outcome fst snd].
  - split; [done|]. split.
    + split; [done|]. intros [radar H]. by apply plots_nil_not_elem in H.
    + intros ev e' Hev Hthrown. rewrite Forall_forall in Hpre.
      destruct (Hpre ev Hev); congruence.
  - rewrite errorTexts_app, He, He'. split; [done|]. split.
    + rewrite Hplot. split; intros [radar H]; exists radar.
      * apply elem_of_app. by right.
      * apply elem_of_app in H as [H|H]; [|done].
        by apply plots_nil_not_elem in H.
    + intros ev e Hev Hthrown. exfalso.
      pose proof (plotRadar_thrownBy
                    (documentTitle +:+ " - "
                       +:+ toString (shownSheet sheetName sheetNames))
                    (sheetRows values) (shownSheet sheetName sheetNames)
                    sheetNames) as Hp'.
      rewrite Forall_forall in Hpre, Hp'.
      apply elem_of_app in Hev as [Hev|Hev];
        [apply Hpre in Hev|apply Hp' in Hev]; congruence.
Qed.

(** X13. A sheet is checked once for each of its rows, the header row included,
    and each time it is the header row that is checked; the rows after the
    header are then sanitized in order. A check that fails is the first one
    made, and its exception is what the ingestion throws. *)
Theorem createBlipsForProtectedSheet_checks (sheetName : option string)
    (documentTitle : string) (header : list string) (all : list (list string))
    (sheetNames : list string) :
  let values := header :: all in
  let run := sheetBlips sheetName documentTitle values sheetNames in
  let blips := (λ blip, sanitizeForProtectedSheet blip header) <$> all in
  (verifyContent header = None → verifyHeaders header = None →
     trace run
     = flat_map (λ _, [VerifyContent header None; VerifyHeaders header None]) values
         ++ ((λ blip, SanitizeForProtectedSheet blip header) <$> all)
         ++ trace (plotSheet capitalize sheetName documentTitle sheetNames blips))
  ∧ (∀ e, verifyContent header = Some e →
       run = ([VerifyContent header (Some e)], inl e))
  ∧ (∀ e, verifyContent header = None → verifyHeaders header = Some e →
       run = ([VerifyContent header None; VerifyHeaders header (Some e)], inl e)).
Proof.
  simpl. rewrite createBlipsForProtectedSheet_run.
  split; [|split].
  - by intros -> ->.
  - by intros e ->.
  - by intros e -> ->.
Qed.

(** X14. The title of a sheet ingestion in which no check fails is the document
    title, " - " and the sheet shown, put through the two tests of [plotRadar]:
    with no sheet name at all it ends in "undefined", and a sheet called
    "2024.json" is titled without its ".json". *)
Theorem createBlipsForProtectedSheet_title (sheetName : option string)
    (documentTitle : string) (values : list (list string))
    (sheetNames : list string) :
  let run := sheetBlips sheetName documentTitle values sheetNames in
  let shown := shownSheet sheetName sheetNames in
  (∀ ev, ev ∈ trace run → isValidationFailure ev = false) →
  titles (trace run) = [strippedTitle (documentTitle +:+ " - " +:+ toString shown)]
  ∧ (shown = None → titles (trace run) = [documentTitle +:+ " - undefined"])
  ∧ (∀ name, shown = Some (name +:+ ".json") →
       titles (trace run) = [documentTitle +:+ " - " +:+ name]).
Proof.
  simpl. intros Hok.
  assert (titles (trace (sheetBlips sheetName documentTitle values sheetNames))
          = [strippedTitle (documentTitle +:+ " - "
                              +:+ toString (shownSheet sheetName sheetNames))]) as Ht.
  { destruct (createBlipsForProtectedSheet_shape sheetName documentTitle values
                sheetNames) as (pre & Ht & _ & _ & _ & Hrun).
    cbv zeta in Hrun. unfold plotSheet in Hrun.
    destruct Hrun as [(e & Hrun & (ev & Hev & Hthrown) & _)|[Hrun _]];
      rewrite Hrun in *; cbn [trace fst] in *.
    - apply Hok, thrownBy_failure in Hev. congruence.
    - rewrite titles_app, Ht.
      by destruct (plotRadar_results
                     (documentTitle +:+ " - "
                        +:+ toString (shownSheet sheetName sheetNames))
                     (sheetRows values) (shownSheet sheetName sheetNames) sheetNames)
        as (-> & _). }
  rewrite Ht. split; [done|]. split.
  - intros ->. f_equal.
    apply (strippedTitle_other documentTitle " - undefined"); [simpl; lia|done].
  - intros name ->. f_equal.
    change (toString (Some (name +:+ ".json"))) with (name +:+ ".json").
    replace (documentTitle +:+ " - " +:+ name +:+ ".json")
      with ((documentTitle +:+ " - " +:+ name) +:+ ".json")
      by (by rewrite !append_assoc).
    apply strippedTitle_json.
Qed.

(** *** Logging in *)

Local Notation fetch :=
  (processSheetResponse capitalize UIRefresh2022 verifyContent verifyHeaders
     sanitizeForProtectedSheet).

Lemma processSheetResponse_no_login (sheetReference sheetName : option string)
    (world : AuthWorld) :
  Forall (λ ev, isAuthentication ev = false)
    (trace (fetch sheetReference sheetName world)).
Proof.
  unfold processSheetResponse. rewrite bind_emit. cbn [trace fst].
  constructor; [done|].
  destruct (response world) as [documentTitle values sheetNames|error].
  - destruct (createBlipsForProtectedSheet_shape sheetName documentTitle values
                sheetNames) as (pre & _ & _ & _ & Hpre & Hrun).
    cbv zeta in Hrun. unfold plotSheet in Hrun.
    destruct Hrun as [(e & -> & _)|[-> _]]; [done|]. cbn [trace fst].
    apply Forall_app. split; [done|].
    by destruct (plotRadar_results
                   (documentTitle +:+ " - "
                      +:+ toString (shownSheet sheetName sheetNames))
                   (sheetRows values) (shownSheet sheetName sheetNames) sheetNames)
      as (_ & _ & ? & _).
  - destruct (decide (status error = Some 403%Z)).
    + by repeat constructor.
    + rewrite plotErrorMessage_run. destruct UIRefresh2022; by repeat constructor.
Qed.

Lemma authenticate_trace (sheetReference sheetName : option string)
    (force apiKeyEnabled : bool) (world : AuthWorld) :
  trace (authenticate capitalize UIRefresh2022 verifyContent verifyHeaders
           sanitizeForProtectedSheet sheetReference sheetName force apiKeyEnabled
           None world)
  = LoadGoogle
      :: (if apiKeyEnabled then trace (fetch sheetReference sheetName world)
          else Login force
                 :: (if loginCallsBack world
                     then trace (fetch sheetReference sheetName world)
                     else [])).
Proof.
  unfold authenticate. rewrite bind_emit. cbn [trace fst]. f_equal.
  destruct apiKeyEnabled; cbn [negb].
  - rewrite trace_bind.
    destruct (outcome (fetch sheetReference sheetName world));
      cbn [default]; by rewrite app_nil_r.
  - rewrite bind_emit. cbn [trace fst]. f_equal.
    destruct (loginCallsBack world); [|done]. rewrite trace_bind.
    destruct (outcome (fetch sheetReference sheetName world));
      cbn [default]; by rewrite app_nil_r.
Qed.

(** X15. With an API key [GoogleSheet.build] never asks the user to log in.
    Without one, and unless the sheet was not found, it asks exactly once,
    without force, right after Google's client is loaded and before the sheet
    is read; when the login never calls back, nothing else happens. *)
Theorem GoogleSheet_build_login (sheetReference sheetName : option string)
    (error : option Exception) (apiKeyEnabled : bool) (world : AuthWorld) :
  let run := build sheetReference sheetName (error, apiKeyEnabled) world in
  (apiKeyEnabled = true → ∀ force, Login force ∉ trace run)
  ∧ (apiKeyEnabled = false → (∀ m, error ≠ Some (SheetNotFoundError m)) →
       ∃ rest, trace run = LoadGoogle :: Login false :: rest
         ∧ Forall (λ ev, isAuthentication ev = false) rest
         ∧ (loginCallsBack world = false → rest = [])).
Proof.
  simpl. unfold GoogleSheet_build.
  pose proof (processSheetResponse_no_login sheetReference sheetName world) as Hq.
  split.
  - intros -> force H.
    assert (Login force ∈ trace (plotErrorMessage UIRefresh2022 (default URIError error))
            ∨ Login force ∈ LoadGoogle :: trace (fetch sheetReference sheetName world))
      as [H'|H'].
    { destruct error as [[]|]; rewrite ?authenticate_trace in H; auto. }
    + rewrite plotErrorMessage_run in H'. cbn [trace fst] in H'.
      destruct UIRefresh2022;
        repeat (apply elem_of_cons in H' as [H'|H']; [done|]);
        by apply elem_of_nil in H'.
    + apply elem_of_cons in H' as [H'|H']; [done|].
      rewrite Forall_forall in Hq. by apply Hq in H'.
  - intros -> Herror.
    exists (if loginCallsBack world
            then trace (fetch sheetReference sheetName world) else []).
    split; [|split].
    + destruct error as [[?|m|?| |? ?]|]; try apply authenticate_trace.
      by destruct (Herror m).
    + by destruct (loginCallsBack world).
    + by intros ->.
Qed.

End SheetProperties.

(** ** Domain names *)

Lemma dotMask_three (c c1 c2 : ascii) (rest2 : list ascii) :
  JS.dotMask (c :: c1 :: c2 :: rest2)
  = if (JS.code c =? 226)%N && (JS.code c1 =? 128)%N
       && JS.between 168 169 (JS.code c2)
    then (c, false) :: (c1, false) :: (c2, false) :: JS.dotMask rest2
    else (c, negb (JS.between 10 10 (JS.code c) || JS.between 13 13 (JS.code c)))
           :: JS.dotMask (c1 :: c2 :: rest2).
Proof. done. Qed.

Lemma dotMask_fst_bounded (n : nat) (l : list ascii) :
  length l ≤ n → (JS.dotMask l).*1 = l.
Proof.
  revert l. induction n as [|n IH]; intros l Hn.
  { destruct l; [done|simpl in Hn; lia]. }
  destruct l as [|c [|c1 [|c2 rest2]]]; [done..|].
  rewrite dotMask_three.
  destruct ((JS.code c =? 226)%N && (JS.code c1 =? 128)%N
            && JS.between 168 169 (JS.code c2)).
  - rewrite !fmap_cons. cbn [fst]. do 3 f_equal. apply IH. simpl in Hn. lia.
  - rewrite fmap_cons. cbn [fst]. f_equal. apply IH. simpl in *. lia.
Qed.

Lemma dotMask_fst (l : list ascii) : (JS.dotMask l).*1 = l.
Proof. by apply (dotMask_fst_bounded (length l)). Qed.

Lemma segmentRun_spec (l : list (ascii * bool)) :
  ∃ b, l.*1 = JS.segmentRun l ++ b
    ∧ Forall (λ c, JS.isSeparator c = false) (JS.segmentRun l)
    ∧ (b = [] ∨ ∃ c b', b = c :: b' ∧ JS.isSeparator c = true).
Proof.
  induction l as [|[c dot] l (b & Hl & Hrun & Hb)].
  { exists []. auto. }
  rewrite fmap_cons. cbn [JS.segmentRun fst].
  destruct (JS.isSeparator c) eqn:Hc.
  - exists (c :: l.*1). split; [done|]. split; [constructor|]. right. eauto.
  - exists b. rewrite Hl. split; [done|]. split; [by constructor|done].
Qed.

Lemma schemeThenHost_spec (l : list (ascii * bool)) (host : list ascii) :
  JS.schemeThenHost l = Some host → ∃ b, hostChars l.*1 [] host b.
Proof.
  destruct l as [|[c1 d1] [|[c2 d2] [|[c3 d3] l]]]; [done..|].
  rewrite !fmap_cons. cbn [JS.schemeThenHost fst].
  repeat case_bool_decide; cbn [andb]; try done. subst.
  destruct (segmentRun_spec l) as (b & Hl & Hrun & Hb).
  destruct (JS.segmentRun l) as [|c run] eqn:Hseg; [done|].
  intros [= <-]. exists b. unfold hostChars. by rewrite Hl.
Qed.

Lemma afterDots_spec (l : list (ascii * bool)) (host : list ascii) :
  JS.afterDots l = Some host → ∃ a b, hostChars l.*1 a host b.
Proof.
  induction l as [|[c dot] l IH]; [done|]. cbn [JS.afterDots].
  destruct (if dot then JS.afterDots l else None) as [host'|] eqn:Hrest.
  - intros [= ->]. destruct dot; [|done].
    destruct (IH Hrest) as (a & b & Hl & H). exists (c :: a), b.
    split; [|done]. rewrite fmap_cons. cbn [fst app]. by rewrite <- Hl.
  - intros H. apply schemeThenHost_spec in H as [b H]. by exists [], b.
Qed.

Lemma execDomain_spec (l : list (ascii * bool)) (host : list ascii) :
  JS.execDomain l = Some host → ∃ a b, a ≠ [] ∧ hostChars l.*1 a host b.
Proof.
  induction l as [|[c dot] l IH]; [done|]. cbn [JS.execDomain].
  destruct (if dot then JS.afterDots l else None) as [host'|] eqn:Hrest.
  - intros [= ->]. destruct dot; [|done].
    apply afterDots_spec in Hrest as (a & b & Hl & H). exists (c :: a), b.
    split; [done|]. split; [|done]. rewrite fmap_cons. cbn [fst app].
    by rewrite <- Hl.
  - intros H. destruct (IH H) as (a & b & Ha & Hl & H'). exists (c :: a), b.
    split; [done|]. split; [|done]. rewrite fmap_cons. cbn [fst app].
    by rewrite <- Hl.
Qed.

Lemma hostChars_HostAt (l a host b : list ascii) :
  a ≠ [] → hostChars l a host b →
  HostAt (JS.str l) (JS.str a) (JS.str host) (JS.str b).
Proof.
  intros Ha (-> & Hhost & Hsep & Hb). unfold HostAt.
  split; [|split; [|split; [|split]]].
  - change (":"%char :: "/"%char :: "/"%char :: host ++ b)
      with (JS.chars "://" ++ host ++ b).
    by rewrite !str_app, str_chars.
  - intros H. apply Ha. by rewrite <- (chars_str a), H.
  - intros H. apply Hhost. by rewrite <- (chars_str host), H.
  - by rewrite chars_str.
  - destruct Hb as [->|(c & b' & -> & Hc)]; [by left|]. right.
    by exists c, (JS.str b').
Qed.

Lemma HostAt_hostChars (s pre domain rest : string) :
  HostAt s pre domain rest →
  JS.chars pre ≠ []
  ∧ hostChars (JS.chars s) (JS.chars pre) (JS.chars domain) (JS.chars rest).
Proof.
  intros (-> & Hpre & Hdomain & Hsep & Hrest). split; [|split; [|split; [|split]]].
  - intros H. apply Hpre, chars_inj. by rewrite H.
  - by rewrite !chars_app.
  - intros H. apply Hdomain, chars_inj. by rewrite H.
  - done.
  - destruct Hrest as [->|(c & r & -> & Hc)]; [by left|]. right.
    by exists c, (JS.chars r).
Qed.

(** X16. The domain name of a URL that decodes is a host of the decoded URL:
    never empty, free of slashes and backslashes, right after a "://" that does
    not open the URL. A decoded URL without "://" has none. *)
Theorem DomainName_host (url decoded : string) :
  JS.decodeURIComponent (JS.plusToSpace url) = Some decoded →
  ∃ result, DomainName url = mret result
    ∧ (∀ domain, result = Some domain → HostOf decoded domain)
    ∧ ((∀ a b, decoded ≠ a +:+ "://" +:+ b) → result = None).
Proof.
  intros Hdecoded. unfold DomainName, decodeUrl. rewrite Hdecoded, bind_mret.
  eexists. split; [done|].
  assert (∀ domain,
            JS.str <$> JS.execDomain (JS.dotMask (JS.chars decoded)) = Some domain →
            HostOf decoded domain) as Hhost.
  { intros domain H. apply fmap_Some in H as (host & H & ->).
    apply execDomain_spec in H as (a & b & Ha & H). rewrite dotMask_fst in H.
    exists (JS.str a), (JS.str b). rewrite <- (str_chars decoded).
    by apply hostChars_HostAt. }
  split; [done|]. intros Hnone.
  destruct (JS.str <$> _) as [domain|] eqn:H; [|done].
  destruct (Hhost domain eq_refl) as (pre & rest & -> & _).
  by destruct (Hnone pre (domain +:+ rest)).
Qed.

(** *** The last host *)

Lemma mask_all (m : list (ascii * bool)) :
  Forall (λ p, p.2 = true) m → m = (λ c, (c, true)) <$> m.*1.
Proof.
  induction 1 as [|[c dot] m Hdot _ IH]; [done|].
  rewrite !fmap_cons. cbn [fst snd] in *. by rewrite Hdot, <- IH.
Qed.

Section LastHost.

(** The mask of a text in which [.] matches everywhere. *)
Local Notation mask := (fmap (λ c : ascii, (c, true))).

Lemma mask_fst (l : list ascii) : (mask l).*1 = l.
Proof. induction l as [|c l IH]; [done|]. rewrite !fmap_cons. by rewrite IH. Qed.

Lemma segmentRun_host (host b : list ascii) :
  Forall (λ c, JS.isSeparator c = false) host →
  (b = [] ∨ ∃ c b', b = c :: b' ∧ JS.isSeparator c = true) →
  JS.segmentRun (mask (host ++ b)) = host.
Proof.
  intros Hhost Hb. induction Hhost as [|c host Hc _ IH].
  - destruct Hb as [->|(c & b' & -> & Hc)]; [done|].
    cbn [app]. rewrite fmap_cons. cbn [JS.segmentRun]. by rewrite Hc.
  - cbn [app]. rewrite fmap_cons. cbn [JS.segmentRun]. by rewrite Hc, IH.
Qed.

Lemma afterDots_none (l : list ascii) :
  (∀ a b, l ≠ a ++ ":"%char :: "/"%char :: "/"%char :: b) →
  JS.afterDots (mask l) = None.
Proof.
  intros Hnone. destruct (JS.afterDots (mask l)) as [host|] eqn:H; [|done].
  apply afterDots_spec in H as (a & b & H & _). rewrite mask_fst in H.
  by destruct (Hnone a (host ++ b)).
Qed.

Lemma afterDots_last (a host b : list ascii) :
  hostChars (a ++ ":"%char :: "/"%char :: "/"%char :: host ++ b) a host b →
  (∀ a' b', host ++ b ≠ a' ++ ":"%char :: "/"%char :: "/"%char :: b') →
  JS.afterDots (mask (a ++ ":"%char :: "/"%char :: "/"%char :: host ++ b))
  = Some host.
Proof.
  intros (_ & Hhost & Hsep & Hb) Hlast. induction a as [|c a IH].
  - cbn [app]. rewrite fmap_cons. cbn [JS.afterDots].
    rewrite afterDots_none.
    + rewrite !fmap_cons. cbn [JS.schemeThenHost].
      rewrite !bool_decide_eq_true_2 by done.
      cbn [andb]. rewrite segmentRun_host by done. by destruct host.
    + intros [|c1 [|c2 a']] b' H; [done..|].
      injection H as _ _ H. by destruct (Hlast a' b').
  - cbn [app]. rewrite fmap_cons. cbn [JS.afterDots]. by rewrite IH.
Qed.

Lemma execDomain_last (decoded pre domain rest : string) :
  NoLineTerminator decoded →
  HostAt decoded pre domain rest →
  (∀ a b, domain +:+ rest ≠ a +:+ "://" +:+ b) →
  JS.execDomain (JS.dotMask (JS.chars decoded)) = Some (JS.chars domain).
Proof.
  intros Hdot Hat Hlast.
  apply mask_all in Hdot. rewrite dotMask_fst in Hdot. rewrite Hdot.
  apply HostAt_hostChars in Hat as [Hpre Hat]. pose proof Hat as [-> _].
  destruct (JS.chars pre) as [|c a]; [done|].
  cbn [app]. rewrite fmap_cons. cbn [JS.execDomain].
  rewrite afterDots_last; [done| |].
  - destruct Hat as (_ & H). split; [done|exact H].
  - intros a' b' H. apply (Hlast (JS.str a') (JS.str b')). apply chars_inj.
    rewrite !chars_app, !chars_str. exact H.
Qed.

End LastHost.

(** X17. Of several hosts the last one is the domain name: when the decoded URL
    holds no line terminator, a host after which no further "://" comes is what
    [DomainName] returns, whatever precedes it. *)
Theorem DomainName_last_host (url decoded pre domain rest : string) :
  JS.decodeURIComponent (JS.plusToSpace url) = Some decoded →
  NoLineTerminator decoded →
  HostAt decoded pre domain rest →
  (∀ a b, domain +:+ rest ≠ a +:+ "://" +:+ b) →
  DomainName url = mret (Some domain).
Proof.
  intros Hdecoded Hdot Hat Hlast. unfold DomainName, decodeUrl.
  rewrite Hdecoded, bind_mret.
  rewrite (execDomain_last decoded pre domain rest Hdot Hat Hlast).
  cbn [fmap option_fmap option_map]. by rewrite str_chars.
Qed.

(** X18. The host that [GoogleSheetInput.build] tests is the last host of the
    whole query string, not the host of the sheet id, and the test is on its
    last letters only: when the decoded query string holds no line
    terminator, and with a sheet id that is neither empty nor a CSV or JSON
    file name, any last host that ends in "google.com" selects the sheet
    fetcher. *)
Theorem GoogleSheetInput_build_google_host
    (search decoded pre domain rest prefix sheetId : string)
    (queryParams : QueryParams.t) :
  JS.decodeURIComponent (JS.plusToSpace (JS.str (drop 1 (JS.chars search))))
    = Some decoded →
  NoLineTerminator decoded →
  HostAt decoded pre domain rest →
  (∀ a b, domain +:+ rest ≠ a +:+ "://" +:+ b) →
  domain = prefix +:+ "google.com" →
  QueryParams.sheetId queryParams = Some sheetId →
  sheetId ≠ "" →
  JS.endsWith sheetId ".csv" = false → JS.endsWith sheetId ".json" = false →
  GoogleSheetInput_build search queryParams
  = mret (GoogleSheet (Some sheetId) (QueryParams.sheetName queryParams)).
Proof.
  intros Hdecoded Hdot Hat Hlast Hdomain Hid Hne Hcsv Hjson.
  unfold GoogleSheetInput_build, DomainName, decodeUrl.
  rewrite Hdecoded, bind_mret.
  rewrite (execDomain_last decoded pre domain rest Hdot Hat Hlast).
  cbn [fmap option_fmap option_map]. rewrite str_chars, bind_mret, Hid.
  assert (JS.truthy (Some domain) = true) as ->.
  { destruct Hat as (_ & _ & Hd & _). cbn [JS.truthy].
    by rewrite bool_decide_eq_false_2. }
  cbn [andThen endsWith]. rewrite Hcsv, bind_mret, Hjson, !bind_mret.
  assert (JS.endsWith domain "google.com" = true) as ->
    by (apply endsWith_spec; by exists prefix).
  cbn [andb JS.truthy]. by rewrite bool_decide_eq_false_2.
Qed.

(** *** URLs without escapes *)

Lemma uriTokens_plain (l : list ascii) :
  "%"%char ∉ l → JS.uriTokens l = Some (JS.Literal <$> l).
Proof.
  induction l as [|c l IH]; [done|]. intros [Hc Hl]%not_elem_of_cons.
  cbn [JS.uriTokens]. rewrite decide_False by done. by rewrite IH.
Qed.

Lemma decodeTokens_literals (l : list ascii) :
  JS.decodeTokens [] (JS.Literal <$> l) = Some l.
Proof.
  induction l as [|c l IH]; [done|]. rewrite fmap_cons.
  cbn [JS.decodeTokens]. by rewrite IH.
Qed.

Lemma decodeUrl_plain (url : string) :
  "%"%char ∉ JS.chars url → decodeUrl url = mret (JS.plusToSpace url).
Proof.
  intros Hurl. unfold decodeUrl, JS.decodeURIComponent.
  rewrite uriTokens_plain.
  - cbn [mbind option_bind]. rewrite decodeTokens_literals.
    cbn [mbind option_bind]. by rewrite str_chars.
  - rewrite plusToSpace_chars. intros (c & Hc & Hin)%list_elem_of_fmap.
    destruct (decide (c = "+"%char)); [done|]. by subst.
Qed.

(** X19. Decoding a URL that holds no "%" changes nothing but each "+" into a
    space: the file name is the last segment of the URL so rewritten, and the
    URL as given when there is no such segment. *)
Theorem FileName_without_escapes (url : string) :
  "%"%char ∉ JS.chars url →
  ∃ name, FileName url = mret name
    ∧ (LastSegment (JS.plusToSpace url) name
       ∨ (NoSegment (JS.plusToSpace url) ∧ name = url)).
Proof.
  intros Hurl. pose proof (FileName_spec url) as Hspec.
  unfold FileName in *. rewrite (decodeUrl_plain url Hurl), bind_mret in *.
  assert (JS.decodeURIComponent (JS.plusToSpace url) = Some (JS.plusToSpace url))
    as Hdecoded.
  { pose proof (decodeUrl_plain url Hurl) as H. unfold decodeUrl in H.
    by destruct (JS.decodeURIComponent _); [injection H as ->|]. }
  destruct (JS.execFileName _) as [segment|];
    (eexists; split; [done|]);
    destruct (Hspec [] _ eq_refl) as (_ & decoded & Hd & H);
    rewrite Hdecoded in Hd; by injection Hd as <-.
Qed.

(** ** What grouping builds *)

Lemma plotRadar_plotted title blips currentRadarName alternativeRadars radar :
  Plot radar
    ∈ trace (plotRadar capitalize title blips currentRadarName alternativeRadars) →
  ∃ ringMap o,
    buildRingMap blips = mret ringMap
    ∧ eachBlip capitalize ringMap [] blips = mret o
    ∧ radar = radarOf o currentRadarName alternativeRadars
    ∧ length o = 4.
Proof.
  destruct (plotRadar_shape title blips currentRadarName alternativeRadars)
    as [[e ->]|[[e ->]|(ringMap & o & Hmap & Hgroup & -> & Hlen)]];
    cbn [trace fst]; intros H;
    repeat (apply elem_of_cons in H as [H|H]; [try done|]);
    try by apply elem_of_nil in H.
  injection H as ->. by exists ringMap, o.
Qed.

Lemma groupedOver_keys ringMap ks blips : (groupedOver capitalize ringMap ks blips).*1 = ks.
Proof.
  unfold groupedOver. rewrite <- list_fmap_compose. apply list_fmap_id.
Qed.

Lemma getOwn_groupedOver ringMap ks blips k :
  k ∈ ks →
  JS.getOwn (groupedOver capitalize ringMap ks blips) k
  = Some (quadrantOf capitalize ringMap blips k).
Proof.
  induction ks as [|k' ks IH]; intros Hk; [by apply elem_of_nil in Hk|].
  unfold groupedOver. rewrite fmap_cons. cbn [JS.getOwn].
  destruct (decide (k' = k)) as [->|Hne]; [done|].
  apply elem_of_cons in Hk as [->|Hk]; [done|]. by apply IH.
Qed.

Lemma set_absent {V} (o : JS.Obj V) (k : string) (v : V) :
  k ∉ o.*1 → JS.set o k v = o ++ [(k, v)].
Proof.
  induction o as [|[k' v'] o IH]; [done|]. rewrite fmap_cons.
  intros [Hne Hk]%not_elem_of_cons. cbn [JS.set fst] in *.
  rewrite decide_False by done. by rewrite IH.
Qed.

Lemma set_last {V} (o : JS.Obj V) (k : string) (v v' : V) :
  k ∉ o.*1 → JS.set (o ++ [(k, v)]) k v' = o ++ [(k, v')].
Proof.
  induction o as [|[k' w] o IH].
  { intros _. cbn [app JS.set]. by rewrite decide_True. }
  rewrite fmap_cons. intros [Hne Hk]%not_elem_of_cons. cbn [app JS.set fst] in *.
  rewrite decide_False by done. by rewrite IH.
Qed.

Lemma quadrantOf_absent ringMap done k :
  (∀ b, b ∈ done → Row.quadrant b ≠ k) →
  quadrantOf capitalize ringMap done k = newQuadrant (capitalize k).
Proof.
  intros Hdone. unfold quadrantOf, newQuadrant. f_equal.
  induction done as [|b done IH]; [done|].
  rewrite filter_cons_False by (apply Hdone, list_elem_of_here).
  apply IH. intros b' Hb'. by apply Hdone, list_elem_of_further.
Qed.

Lemma quadrantOf_other ringMap done blip k :
  Row.quadrant blip ≠ k →
  quadrantOf capitalize ringMap (done ++ [blip]) k = quadrantOf capitalize ringMap done k.
Proof.
  intros Hne. unfold quadrantOf. f_equal.
  rewrite filter_app, filter_cons_False by done. by rewrite filter_nil, app_nil_r.
Qed.

Lemma quadrantOf_add ringMap done blip :
  quadrantOf capitalize ringMap (done ++ [blip]) (Row.quadrant blip)
  = Quadrant_add (quadrantOf capitalize ringMap done (Row.quadrant blip)) (newBlip ringMap blip).
Proof.
  unfold quadrantOf, Quadrant_add. cbn [Quadrant_name Quadrant_blips]. f_equal.
  rewrite filter_app, filter_cons_True by done. by rewrite filter_nil, fmap_app.
Qed.

Lemma groupedOver_other ringMap ks done blip :
  Row.quadrant blip ∉ ks →
  groupedOver capitalize ringMap ks (done ++ [blip]) = groupedOver capitalize ringMap ks done.
Proof.
  intros Hk. unfold groupedOver. apply Forall_fmap_ext_1, Forall_forall.
  intros k Hin. f_equal. apply quadrantOf_other. intros Heq. apply Hk.
  by rewrite Heq.
Qed.

Lemma set_groupedOver ringMap ks done blip :
  NoDup ks → Row.quadrant blip ∈ ks →
  JS.set (groupedOver capitalize ringMap ks done) (Row.quadrant blip)
    (quadrantOf capitalize ringMap (done ++ [blip]) (Row.quadrant blip))
  = groupedOver capitalize ringMap ks (done ++ [blip]).
Proof.
  induction 1 as [|k ks Hk _ IH]; intros Hin; [by apply elem_of_nil in Hin|].
  unfold groupedOver in *. rewrite !fmap_cons. cbn [JS.set].
  destruct (decide (k = Row.quadrant blip)) as [->|Hne].
  - f_equal. symmetry. by apply (groupedOver_other ringMap ks done blip).
  - apply elem_of_cons in Hin as [Hin|Hin]; [done|].
    rewrite IH by done. by rewrite quadrantOf_other.
Qed.

(** One step of the loop over the rows keeps the object in step with the
    rows seen so far. *)
Lemma groupBlip_grouped ringMap ks done blip o :
  NoDup ks → (∀ b, b ∈ done → Row.quadrant b ∈ ks) →
  groupBlip capitalize ringMap (groupedOver capitalize ringMap ks done) blip = mret o →
  o = groupedOver capitalize ringMap
        (if decide (Row.quadrant blip ∈ ks) then ks else ks ++ [Row.quadrant blip])
        (done ++ [blip]).
Proof.
  intros Hnd Hdone. unfold groupBlip, JS.get.
  destruct (decide (Row.quadrant blip ∈ ks)) as [Hin|Hout].
  - rewrite (getOwn_groupedOver _ _ _ _ Hin). cbv zeta.
    rewrite (getOwn_groupedOver _ _ _ _ Hin).
    intros [= <-]. rewrite <- quadrantOf_add. by apply set_groupedOver.
  - assert (Row.quadrant blip ∉ (groupedOver capitalize ringMap ks done).*1) as Hkeys
      by by rewrite groupedOver_keys.
    rewrite (proj2 (getOwn_None _ _) Hkeys).
    destruct (decide (Row.quadrant blip ∈ JS.Object_prototype)).
    { cbv zeta. by rewrite (proj2 (getOwn_None _ _) Hkeys). }
    cbv zeta. rewrite getOwn_set. intros [= <-].
    rewrite (set_absent _ _ _ Hkeys), (set_last _ _ _ _ Hkeys).
    unfold groupedOver at 2. rewrite fmap_app.
    fold (groupedOver capitalize ringMap ks (done ++ [blip])).
    rewrite (groupedOver_other _ _ _ _ Hout). f_equal. cbn [fmap list_fmap].
    do 2 f_equal. rewrite quadrantOf_add. f_equal. symmetry.
    apply quadrantOf_absent.
    intros b Hb Heq. apply Hout. rewrite <- Heq. by apply Hdone.
Qed.

Lemma eachBlip_groupedOver ringMap rest ks done o :
  NoDup ks → (∀ b, b ∈ done → Row.quadrant b ∈ ks) →
  eachBlip capitalize ringMap (groupedOver capitalize ringMap ks done) rest = mret o →
  o = groupedOver capitalize ringMap (ks ++ uniqByFrom id ks (Row.quadrant <$> rest))
        (done ++ rest).
Proof.
  revert ks done. induction rest as [|blip rest IH]; intros ks done Hnd Hdone.
  { cbn [eachBlip fmap list_fmap uniqByFrom]. intros [= <-].
    by rewrite !app_nil_r. }
  cbn [eachBlip]. rewrite fmap_cons. cbn [uniqByFrom]. unfold id at 1 2.
  pose proof (groupBlip_trace ringMap (groupedOver capitalize ringMap ks done) blip) as Ht.
  pose proof (groupBlip_grouped ringMap ks done blip) as Hstep.
  destruct (groupBlip capitalize ringMap (groupedOver capitalize ringMap ks done) blip)
    as [t [e|o1]];
    [done|].
  cbn [trace fst] in Ht. subst t. rewrite bind_pure.
  rewrite (Hstep o1 Hnd Hdone eq_refl). intros Heach.
  apply IH in Heach.
  - rewrite Heach, <- (app_assoc done [blip] rest). cbn [app]. f_equal.
    destruct (decide (Row.quadrant blip ∈ ks)); [done|].
    by rewrite <- app_assoc.
  - destruct (decide (Row.quadrant blip ∈ ks)); [done|].
    apply NoDup_app. split; [done|]. split; [|apply NoDup_singleton].
    intros k Hk Hk'. apply list_elem_of_singleton in Hk'. by subst.
  - intros b [Hb|Hb%list_elem_of_singleton]%elem_of_app.
    + destruct (decide (Row.quadrant blip ∈ ks)); [by apply Hdone|].
      apply elem_of_app. left. by apply Hdone.
    + subst b. destruct (decide (Row.quadrant blip ∈ ks)); [done|].
      apply elem_of_app. right. apply list_elem_of_here.
Qed.

Lemma eachBlip_grouped ringMap blips o :
  eachBlip capitalize ringMap [] blips = mret o → o = grouped capitalize ringMap blips.
Proof.
  intros H. apply (eachBlip_groupedOver ringMap blips [] []) in H; try done.
  - apply NoDup_nil_2.
  - intros b Hb. by apply elem_of_nil in Hb.
Qed.

Lemma ownEntries_named {V} (o : list (string * V)) :
  (∀ k, k ∈ o.*1 → JS.arrayIndex k = None) → JS.ownEntries o = o.
Proof.
  intros Hnamed. unfold JS.ownEntries, JS.Obj. cbv zeta.
  assert (omap (λ kv : string * V, n ← JS.arrayIndex kv.1; Some (n, kv)) o = []
          ∧ filter (λ kv : string * V, JS.arrayIndex kv.1 = None) o = o) as [-> ->].
  { induction o as [|[k v] o IH]; [done|]. rewrite fmap_cons in Hnamed.
    destruct IH as [IH1 IH2].
    { intros k' Hk'. by apply Hnamed, list_elem_of_further. }
    pose proof (Hnamed k (list_elem_of_here _ _)) as Hk. cbn [fst] in Hk.
    split.
    - cbn [omap list_omap fst]. rewrite Hk. exact IH1.
    - rewrite filter_cons_True by done. by rewrite IH2. }
  done.
Qed.

(** X20. The quadrants of a plotted radar are the groups of the rows: one for
    each distinct quadrant value as it is written, named by that value
    capitalized, holding the blips of exactly the rows with that value, in the
    order of the rows. They come in the order in which the keys of an object
    are enumerated: as first seen, when no quadrant value is an array index. *)
Theorem plotRadar_quadrants title blips currentRadarName alternativeRadars radar :
  Plot radar
    ∈ trace (plotRadar capitalize title blips currentRadarName alternativeRadars) →
  ∃ ringMap,
    buildRingMap blips = mret ringMap
    ∧ quadrants radar = (JS.ownEntries (grouped capitalize ringMap blips)).*2
    ∧ ((∀ blip, blip ∈ blips → JS.arrayIndex (Row.quadrant blip) = None) →
       quadrants radar
       = quadrantOf capitalize ringMap blips <$> uniqByFrom id [] (Row.quadrant <$> blips)).
Proof.
  intros (ringMap & o & Hmap & Hgroup & -> & _)%plotRadar_plotted.
  apply eachBlip_grouped in Hgroup as ->. exists ringMap.
  split; [done|]. split; [done|]. intros Hnamed. cbn [radarOf quadrants].
  rewrite ownEntries_named.
  - unfold grouped, groupedOver. rewrite <- list_fmap_compose.
    by apply Forall_fmap_ext_1, Forall_forall.
  - unfold grouped. rewrite groupedOver_keys. intros k Hk.
    apply distinct_elem in Hk as [Hk _].
    apply list_elem_of_fmap in Hk as (blip & -> & Hblip). by apply Hnamed.
Qed.

(** *** Quadrant values with one capitalized form *)

Lemma NoDup_fmap_eq {A B} (f : A → B) (l : list A) (x y : A) :
  NoDup (f <$> l) → x ∈ l → y ∈ l → f x = f y → x = y.
Proof.
  induction l as [|z l IH]; intros Hnd Hx Hy Hf; [by apply elem_of_nil in Hx|].
  rewrite fmap_cons in Hnd. apply NoDup_cons in Hnd as [Hz Hnd].
  apply elem_of_cons in Hx as [->|Hx]; apply elem_of_cons in Hy as [->|Hy].
  - done.
  - destruct Hz. rewrite Hf. by apply list_elem_of_fmap_2.
  - destruct Hz. rewrite <- Hf. by apply list_elem_of_fmap_2.
  - by apply IH.
Qed.

Lemma grouped_names ringMap blips :
  Quadrant_name <$> (JS.ownEntries (grouped capitalize ringMap blips)).*2
  ≡ₚ capitalize <$> uniqByFrom id [] (Row.quadrant <$> blips).
Proof.
  rewrite ownEntries_Permutation. unfold grouped, groupedOver.
  by rewrite <- !list_fmap_compose.
Qed.

(** X21. Rows are grouped by the quadrant value as it is written, while a
    quadrant is named by the value capitalized: two rows whose quadrant values
    differ and have the same capitalized form, as "tools" and "Tools" have,
    are put in two quadrants, and the plotted radar shows the same name
    twice. *)
Theorem plotRadar_case_sensitive title blips currentRadarName alternativeRadars
    radar (row1 row2 : Row.t) :
  Plot radar
    ∈ trace (plotRadar capitalize title blips currentRadarName alternativeRadars) →
  row1 ∈ blips → row2 ∈ blips →
  Row.quadrant row1 ≠ Row.quadrant row2 →
  capitalize (Row.quadrant row1) = capitalize (Row.quadrant row2) →
  ¬ NoDup (Quadrant_name <$> quadrants radar)
  ∧ ∃ ringMap,
      buildRingMap blips = mret ringMap
      ∧ quadrantOf capitalize ringMap blips (Row.quadrant row1) ∈ quadrants radar
      ∧ quadrantOf capitalize ringMap blips (Row.quadrant row2) ∈ quadrants radar
      ∧ Quadrant_name (quadrantOf capitalize ringMap blips (Row.quadrant row1))
        = Quadrant_name (quadrantOf capitalize ringMap blips (Row.quadrant row2)).
Proof.
  intros (ringMap & o & Hmap & Hgroup & -> & _)%plotRadar_plotted H1 H2 Hne Hlow.
  apply eachBlip_grouped in Hgroup as ->. cbn [radarOf quadrants].
  assert (∀ row, row ∈ blips →
            Row.quadrant row ∈ uniqByFrom id [] (Row.quadrant <$> blips)) as Hkey.
  { intros row Hrow. apply distinct_elem. split; [|apply not_elem_of_nil].
    by apply list_elem_of_fmap_2. }
  split.
  - rewrite grouped_names. intros Hnd. apply Hne.
    apply (NoDup_fmap_eq capitalize _ _ _ Hnd); [by apply Hkey..|].
    done.
  - exists ringMap. split; [done|].
    assert (∀ row, row ∈ blips →
              quadrantOf capitalize ringMap blips (Row.quadrant row)
              ∈ (JS.ownEntries (grouped capitalize ringMap blips)).*2) as Hin.
    { intros row Hrow. rewrite ownEntries_Permutation.
      unfold grouped, groupedOver. rewrite <- list_fmap_compose.
      apply (list_elem_of_fmap_2 (quadrantOf capitalize ringMap blips)). by apply Hkey. }
    split; [by apply Hin|]. split; [by apply Hin|].
    done.
Qed.

(** *** The rings of the blips *)

Lemma before_elem (r x : string) (l : list string) : x ∈ before r l → x ∈ l.
Proof.
  induction l as [|y l IH]; [done|]. cbn [before].
  destruct (decide (y = r)); [by intros ?%elem_of_nil|].
  intros [->|H]%elem_of_cons; [apply list_elem_of_here|].
  by apply list_elem_of_further, IH.
Qed.

Lemma firstSeenRank_lt (r : string) (names : list string) :
  r ∈ names → firstSeenRank r names < distinctCount names.
Proof.
  intros Hr. unfold firstSeenRank, distinctCount. apply subset_size. split.
  - intros x. rewrite !elem_of_list_to_set. apply before_elem.
  - intros H. specialize (H r). rewrite !elem_of_list_to_set in H.
    by apply (before_not_elem r names), H.
Qed.

(** X22. In a plotted radar no blip lacks its ring: each blip is made of a row,
    and carries the ring named by the ring value of that row, whose order is
    below four. *)
Theorem plotRadar_blip_rings title blips currentRadarName alternativeRadars
    radar (b : Blip) :
  Plot radar
    ∈ trace (plotRadar capitalize title blips currentRadarName alternativeRadars) →
  b ∈ blipsOf (quadrants radar) →
  ∃ blip ring,
    blip ∈ blips
    ∧ Blip_name b = Row.name blip
    ∧ Blip_ring b = Some ring
    ∧ Ring_name ring = Row.ring blip
    ∧ Ring_order ring < 4.
Proof.
  intros (ringMap & o & Hmap & Hgroup & -> & _)%plotRadar_plotted.
  unfold radarOf, blipsOf. cbn [quadrants]. rewrite ownEntries_Permutation.
  rewrite (eachBlip_blips ringMap blips [] o Hgroup). cbn [app].
  intros (blip & -> & Hblip)%list_elem_of_fmap.
  destruct (decide (distinctCount (Row.ring <$> blips) ≤ 4)) as [Hle|Hgt].
  - destruct (buildRingMap_ok blips Hle) as (ringMap' & Hmap' & _ & Hring & _).
    rewrite Hmap in Hmap'. injection Hmap' as <-.
    assert (Row.ring blip ∈ Row.ring <$> blips) as Hin
      by by apply list_elem_of_fmap_2.
    eexists blip, _. split; [done|]. split; [done|].
    split; [apply (Hring _ Hin)|]. split; [done|]. cbn [Ring_order].
    pose proof (firstSeenRank_lt _ _ Hin). lia.
  - rewrite buildRingMap_overflow in Hmap by lia. done.
Qed.

End Pipeline.

(** ** The claims on the sample data *)

Lemma elem_of_checked {A} `{EqDecision A} (x : A) (l : list A) :
  bool_decide (x ∈ l) = true → x ∈ l.
Proof. apply bool_decide_eq_true_1. Defined.

(** A run of X1: the five rows of the sample give five blips. *)
Lemma plotRadar_blips_witness :
  ∃ ringMap,
    buildRingMap (Sample.blips Sample.fourQuadrants) = mret ringMap
    ∧ blipsOf (quadrants (Runs.plottedRadar
                            (plotRadar Sample.capitalize
                                  "radar" (Sample.blips Sample.fourQuadrants)
                               None [])))
      ≡ₚ newBlip ringMap <$> Sample.blips Sample.fourQuadrants.
Proof.
  apply (plotRadar_blips Sample.capitalize "radar" (Sample.blips Sample.fourQuadrants) None []).
  apply elem_of_checked. vm_compute. reflexivity.
Defined.

(** A run of X2: a quadrant called "constructor". *)
Lemma plotRadar_inherited_quadrant_witness :
  plotRadar Sample.capitalize "radar"
    (Sample.blips (["Make"; "adopt"; "constructor"; "false"; ""]
                     :: Sample.fourQuadrants)) None []
  = ([SetDocumentTitle "radar"],
     inl (TypeError "quadrants[blip.quadrant].add is not a function")).
Proof.
  apply (plotRadar_inherited_quadrant Sample.capitalize "radar"
           (Sample.blips (["Make"; "adopt"; "constructor"; "false"; ""]
                            :: Sample.fourQuadrants)) None []).
  - vm_compute. lia.
  - eexists. split; [apply list_elem_of_here|].
    apply elem_of_checked. vm_compute. reflexivity.
Defined.

(** C5, as stated, fails: [sheet.validate] reports an error that is not a
    [SheetNotFoundError], here a response with the status 500, so that the
    existence of the document is not confirmed; the build loads the Google
    library and logs in all the same. *)
Lemma C5_counterexample :
  trace (GoogleSheet_build Sample.capitalize true Sample.nonEmpty Sample.accept
           Sample.sanitizeForProtectedSheet (Some "1abc") (Some "2024")
           (Some (ResponseError (Some 500%Z) "Internal Server Error"), false)
           Runs.refused)
  = [LoadGoogle; Login false; ProcessSheetResponse (Some "1abc") (Some "2024");
     SetDocumentTitle "Build your own Radar";
     UnauthorizedMessage
       ("<strong>Oops!</strong> Looks like you are accessing this sheet using " +:+
        "<b>ada@example.org</b>, which does not have permission." +:+
        "Try switching to another account.")].
Proof. reflexivity. Qed.


(** A run of C7: the first sheet of the workbook becomes the current one. *)
Lemma C7_witness :
  Plot (Runs.plottedRadar Runs.sheet) ∈ trace Runs.sheet
  ∧ alternativeSheetNames (Runs.plottedRadar Runs.sheet) = ["2024"; "2023"]
  ∧ currentSheetName (Runs.plottedRadar Runs.sheet) = Some "2024".
Proof.
  assert (Plot (Runs.plottedRadar Runs.sheet) ∈ trace Runs.sheet) as H.
  { apply elem_of_checked. vm_compute. reflexivity. }
  split; [exact H|].
  destruct (C7_sheet_names Sample.capitalize Sample.nonEmpty Sample.accept
              Sample.sanitizeForProtectedSheet None "Tech radar"
              (Sample.header :: Sample.fourQuadrants) ["2024"; "2023"]
              (Runs.plottedRadar Runs.sheet) H) as (Halt & Hnone & _).
  split; [exact Halt|]. exact (Hnone eq_refl).
Defined.

(** Runs of C9: an ingestion that sanitizes its rows after the checks, and
    one whose content check fails. *)
Lemma C9_witness :
  (∃ row, Sanitize row ∈ trace (Runs.csv "https://example.org/radar.csv"))
  ∧ ValidatedFirst (trace (Runs.csv "https://example.org/radar.csv"))
  ∧ (∃ ev, ev ∈ trace Runs.csvWithoutColumns ∧ isValidationFailure ev = true)
  ∧ NothingAfterFailure (trace Runs.csvWithoutColumns).
Proof.
  pose proof (C9_validation_first Sample.capitalize
        true Sample.nonEmpty Sample.accept Sample.sanitize
                Sample.sanitizeForProtectedSheet "https://example.org/radar.csv"
                {| columns := Sample.header;
                   rows := Sample.rawRows Sample.fourQuadrants |}
                [] None "" [] []) as Hok.
  pose proof (C9_validation_first Sample.capitalize
        true Sample.nonEmpty Sample.accept Sample.sanitize
                Sample.sanitizeForProtectedSheet "https://example.org/radar.csv"
                {| columns := []; rows := Sample.rawRows Sample.fourQuadrants |}
                [] None "" [] []) as Hbad.
  apply Forall_cons_1 in Hok as [[Hok _] _].
  apply Forall_cons_1 in Hbad as [[_ Hbad] _].
  split; [|split; [exact Hok|split; [|exact Hbad]]].
  - eexists. apply list_elem_of_further, list_elem_of_further, list_elem_of_here.
  - eexists. split; [apply list_elem_of_here|reflexivity].
Defined.

(** A run of C10: the title of a CSV file whose name holds a "+". *)
Lemma C10_witness :
  Plot (Runs.plottedRadar (Runs.csv "https://example.org/radars/2024+Q1.csv"))
    ∈ trace (Runs.csv "https://example.org/radars/2024+Q1.csv")
  ∧ titles (trace (Runs.csv "https://example.org/radars/2024+Q1.csv")) = ["2024 Q1"]
  ∧ ∃ title, titles (trace (Runs.csv "https://example.org/radars/2024+Q1.csv")) = [title]
             ∧ TitleOf "https://example.org/radars/2024+Q1.csv" title.
Proof.
  assert (Plot (Runs.plottedRadar (Runs.csv "https://example.org/radars/2024+Q1.csv"))
            ∈ trace (Runs.csv "https://example.org/radars/2024+Q1.csv")) as H.
  { apply elem_of_checked. vm_compute. reflexivity. }
  split; [exact H|]. split; [reflexivity|].
  apply (proj1 (C10_file_ingestion Sample.capitalize
        true Sample.nonEmpty Sample.accept Sample.sanitize
                  "https://example.org/radars/2024+Q1.csv"
                  {| columns := Sample.header;
                     rows := Sample.rawRows Sample.fourQuadrants |}
                  [] _) H).
Defined.

(** C10, as stated, fails: the file "radar.json.csv" is titled "radar", with
    both extensions removed, where the last segment of the URL without its
    trailing ".csv" is "radar.json". *)
Lemma C10_counterexample :
  Plot (Runs.plottedRadar (Runs.csv "https://example.org/radar.json.csv"))
    ∈ trace (Runs.csv "https://example.org/radar.json.csv")
  ∧ titles (trace (Runs.csv "https://example.org/radar.json.csv")) = ["radar"]
  ∧ LastSegment "https://example.org/radar.json.csv" "radar.json.csv"
  ∧ Stripped ".csv" "radar.json.csv" "radar.json"
  ∧ "radar" ≠ "radar.json".
Proof.
  split; [apply elem_of_checked; vm_compute; reflexivity|].
  split; [reflexivity|]. split; [|split; [by left|discriminate]].
  exists "https://example.org/". split; [reflexivity|]. split; [discriminate|].
  split; [repeat constructor|].
  right. exists "https://example.org", "/"%char. split; reflexivity.
Qed.

(** A run of C2 on five rings, and on the two rings of four quadrants. *)
Lemma C2_witness :
  outcome (plotRadar Sample.capitalize "radar" (Sample.blips Sample.fiveRings) None [])
    = inl (MalformedDataError ExceptionMessages.TOO_MANY_RINGS)
  ∧ ∃ ringMap, buildRingMap (Sample.blips Sample.fourQuadrants) = mret ringMap
      ∧ size ringMap = 2
      ∧ ringMap !! "adopt" = Some {| Ring_name := "adopt"; Ring_order := 0 |}
      ∧ ringMap !! "trial" = Some {| Ring_name := "trial"; Ring_order := 1 |}.
Proof.
  split.
  - apply (C2_ring_orders Sample.capitalize (Sample.blips Sample.fiveRings)). vm_compute. lia.
  - destruct (proj2 (C2_ring_orders Sample.capitalize (Sample.blips Sample.fourQuadrants)))
      as (ringMap & Hrun & Hsize & Hrank & _).
    { vm_compute. lia. }
    exists ringMap. split; [exact Hrun|]. split; [exact Hsize|]. split.
    + apply (Hrank "adopt"). vm_compute. repeat constructor.
    + apply (Hrank "trial"). vm_compute. repeat constructor.
Defined.

(** C1, as stated, fails: five rings in a single quadrant end with
    TOO_MANY_RINGS, since the rings are counted before the quadrants. *)
Lemma C1_counterexample :
  distinctCount (Row.quadrant <$> Sample.blips Sample.fiveRings) < 4
  ∧ outcome (plotRadar Sample.capitalize
        "radar" (Sample.blips Sample.fiveRings) (Some "CSV File") [])
    = inl (MalformedDataError ExceptionMessages.TOO_MANY_RINGS)
  ∧ MalformedDataError ExceptionMessages.TOO_MANY_RINGS
    ≠ MalformedDataError ExceptionMessages.LESS_THAN_FOUR_QUADRANTS.
Proof. split; [vm_compute; lia | split; [reflexivity | discriminate]]. Qed.

(** Runs of C1 on three, five and four quadrants. *)
Lemma C1_witness :
  outcome (plotRadar Sample.capitalize "radar" (Sample.blips (take 3 Sample.fourQuadrants))
             (Some "CSV File") [])
    = inl (MalformedDataError ExceptionMessages.LESS_THAN_FOUR_QUADRANTS)
  ∧ outcome (plotRadar Sample.capitalize "radar" (Sample.blips Sample.fiveQuadrants)
               (Some "CSV File") [])
    = inl (MalformedDataError ExceptionMessages.TOO_MANY_QUADRANTS)
  ∧ ∃ radar,
      plotRadar Sample.capitalize
            "radar.csv" (Sample.blips Sample.fourQuadrants) (Some "CSV File") []
      = ([SetDocumentTitle "radar"; NewRadar; Plot radar], inr ())
      ∧ length (quadrants radar) = 4.
Proof.
  split; [|split].
  - apply (C1_quadrant_count Sample.capitalize
        "radar" (Sample.blips (take 3 Sample.fourQuadrants))).
    + vm_compute. lia.
    + apply no_inherited_quadrant. vm_compute. reflexivity.
    + vm_compute. lia.
  - apply (C1_quadrant_count Sample.capitalize "radar" (Sample.blips Sample.fiveQuadrants)).
    + vm_compute. lia.
    + apply no_inherited_quadrant. vm_compute. reflexivity.
    + vm_compute. lia.
  - apply (C1_quadrant_count Sample.capitalize "radar.csv" (Sample.blips Sample.fourQuadrants)).
    + vm_compute. lia.
    + apply no_inherited_quadrant. vm_compute. reflexivity.
    + vm_compute. reflexivity.
Defined.

(** ** Further runs on the sample data *)

Lemma malformedEscape_sample : MalformedEscape "https://example.org/100%.csv".
Proof.
  exists (JS.chars "https://example.org/100"), (JS.chars ".csv").
  split; [reflexivity|]. intros h k tl' Heq. injection Heq as <- <- _.
  left. reflexivity.
Qed.

Lemma no_colon_no_scheme (s : string) :
  ":"%char ∉ JS.chars s → ∀ a b, s ≠ a +:+ "://" +:+ b.
Proof.
  intros Hs a b ->. apply Hs. rewrite !chars_app. apply elem_of_app. right.
  apply list_elem_of_here.
Qed.

Lemma not_elem_of_checked {A} `{EqDecision A} (x : A) (l : list A) :
  bool_decide (x ∈ l) = false → x ∉ l.
Proof. apply bool_decide_eq_false_1. Qed.

Lemma forallb_checked {A} (f : A → bool) (l : list A) :
  forallb f l = true → ∀ x, x ∈ l → f x = true.
Proof.
  intros H x Hx. apply list_elem_of_In in Hx.
  by apply (proj1 (List.forallb_forall f l) H).
Qed.

Lemma no_failure_checked (t : list Event) :
  forallb (λ ev, negb (isValidationFailure ev)) t = true →
  ∀ ev, ev ∈ t → isValidationFailure ev = false.
Proof.
  intros H ev Hev. apply negb_true_iff.
  by apply (forallb_checked _ _ H).
Qed.

Lemma noLineTerminator_checked (s : string) :
  forallb snd (JS.dotMask (JS.chars s)) = true → NoLineTerminator s.
Proof. intros H. apply Forall_forall. by apply forallb_checked. Qed.

Lemma noSeparator_checked (s : string) :
  existsb JS.isSeparator (JS.chars s) = false →
  Forall (λ c, JS.isSeparator c = false) (JS.chars s).
Proof. apply existsb_separator_false. Qed.

Lemma named_checked (blips : list Row.t) :
  forallb (λ blip, bool_decide (JS.arrayIndex (Row.quadrant blip) = None)) blips
    = true →
  ∀ blip, blip ∈ blips → JS.arrayIndex (Row.quadrant blip) = None.
Proof.
  intros H blip Hblip.
  by apply (bool_decide_eq_true_1 _), (forallb_checked _ _ H).
Qed.

(** A run of X5: a file called "100%.csv" has no name. *)
Lemma malformed_escape_URIError_witness :
  FileName "https://example.org/100%.csv" = throw URIError
  ∧ DomainName "https://example.org/100%.csv" = throw URIError.
Proof.
  apply (malformed_escape_URIError "https://example.org/100%.csv").
  exists (JS.chars "https://example.org/100"), (JS.chars ".csv").
  split; [reflexivity|]. intros h k tl' Heq. injection Heq as <- <- _.
  left. reflexivity.
Defined.

(** A run of X6: a query string that ends in "50%". *)
Lemma GoogleSheetInput_build_malformed_query_witness :
  GoogleSheetInput_build "?sheetId=https://example.org/radar.csv&note=50%"
    (QueryParams.make (Some "https://example.org/radar.csv") None)
  = throw URIError.
Proof.
  apply GoogleSheetInput_build_malformed_query.
  exists (JS.chars "sheetId=https://example.org/radar.csv&note=50"), [].
  split; [reflexivity|]. intros h k tl' Heq. discriminate Heq.
Defined.

(** A run of X16: the host of an escaped URL. *)
Lemma DomainName_host_witness :
  ∃ result, DomainName "sheetId=https%3A%2F%2Fexample.org%2Fradar.csv" = mret result
    ∧ (∀ domain, result = Some domain
                 → HostOf "sheetId=https://example.org/radar.csv" domain)
    ∧ ((∀ a b, "sheetId=https://example.org/radar.csv" ≠ a +:+ "://" +:+ b)
       → result = None).
Proof.
  apply (DomainName_host "sheetId=https%3A%2F%2Fexample.org%2Fradar.csv").
  reflexivity.
Defined.

(** A run of X8: a file called "100%.csv" gives no radar, its rows being
    sanitized all the same. *)
Lemma file_ingestion_malformed_url_witness :
  (∀ radar, Plot radar ∉ trace (Runs.csv "https://example.org/100%.csv"))
  ∧ Runs.csv "https://example.org/100%.csv"
    = (VerifyContent Sample.header None :: VerifyHeaders Sample.header None
         :: (Sanitize <$> Sample.rawRows Sample.fourQuadrants)
         ++ [ErrorMessage "Oops! We can't find the data"], inr ()).
Proof.
  destruct (file_ingestion_malformed_url Sample.capitalize true Sample.nonEmpty Sample.accept
              Sample.sanitize "https://example.org/100%.csv"
              {| columns := Sample.header;
                 rows := Sample.rawRows Sample.fourQuadrants |}
              [] [] malformedEscape_sample) as (Hplot & _ & Hrun & _).
  split; [exact Hplot|]. exact (Hrun eq_refl eq_refl).
Defined.

(** A run of X9: five rings in a file called "radar.csv", under the new
    interface: the title of the file stays beside the error. *)
Lemma file_ingestion_too_many_rings_witness :
  CSVDocument_createBlips Sample.capitalize true Sample.nonEmpty Sample.accept Sample.sanitize
    "https://example.org/radar.csv"
    {| columns := Sample.header; rows := Sample.rawRows Sample.fiveRings |}
  = (VerifyContent Sample.header None :: VerifyHeaders Sample.header None
       :: (Sanitize <$> Sample.rawRows Sample.fiveRings)
       ++ [SetDocumentTitle "radar";
           ErrorMessage "Oops! We can't find the dataMore than 4 rings."], inr ()).
Proof.
  refine (proj1 (file_ingestion_too_many_rings Sample.capitalize
        true Sample.nonEmpty Sample.accept
                   Sample.sanitize "https://example.org/radar.csv" "radar.csv"
                   {| columns := Sample.header;
                      rows := Sample.rawRows Sample.fiveRings |}
                   [] [] eq_refl) eq_refl eq_refl _).
  vm_compute. lia.
Defined.

(** A run of X14: the first sheet of a workbook, called "2024.json". *)
Lemma createBlipsForProtectedSheet_title_witness :
  titles (trace (createBlipsForProtectedSheet Sample.capitalize Sample.nonEmpty Sample.accept
                   Sample.sanitizeForProtectedSheet None "Tech radar"
                   (Sample.header :: Sample.fourQuadrants) ["2024.json"; "2023"]))
  = ["Tech radar - 2024"].
Proof.
  refine (proj2 (proj2 (createBlipsForProtectedSheet_title Sample.capitalize Sample.nonEmpty
                          Sample.accept Sample.sanitizeForProtectedSheet None
                          "Tech radar" (Sample.header :: Sample.fourQuadrants)
                          ["2024.json"; "2023"] _)) "2024" eq_refl).
  apply no_failure_checked. vm_compute. reflexivity.
Defined.

(** A run of X17: a query string with two hosts. *)
Lemma DomainName_last_host_witness :
  DomainName "sheetId=https://example.org/a?next=http://cdn.example.net/radar.csv"
  = mret (Some "cdn.example.net").
Proof.
  apply (DomainName_last_host
           "sheetId=https://example.org/a?next=http://cdn.example.net/radar.csv"
           "sheetId=https://example.org/a?next=http://cdn.example.net/radar.csv"
           "sheetId=https://example.org/a?next=http" "cdn.example.net"
           "/radar.csv").
  - reflexivity.
  - apply noLineTerminator_checked. vm_compute. reflexivity.
  - split; [reflexivity|]. split; [discriminate|]. split; [discriminate|].
    split; [apply noSeparator_checked; vm_compute; reflexivity|].
    right. by exists "/"%char, "radar.csv".
  - apply no_colon_no_scheme, not_elem_of_checked. vm_compute. reflexivity.
Defined.

(** A run of X18: a sheet id with no host of its own, and a last host that only
    ends in "google.com". *)
Lemma GoogleSheetInput_build_google_host_witness :
  GoogleSheetInput_build "?sheetId=1abc&from=https://notgoogle.com/start"
    (QueryParams.make (Some "1abc") None)
  = mret (GoogleSheet (Some "1abc") None).
Proof.
  apply (GoogleSheetInput_build_google_host
           "?sheetId=1abc&from=https://notgoogle.com/start"
           "sheetId=1abc&from=https://notgoogle.com/start"
           "sheetId=1abc&from=https" "notgoogle.com" "/start" "not" "1abc"
           (QueryParams.make (Some "1abc") None)).
  - reflexivity.
  - apply noLineTerminator_checked. vm_compute. reflexivity.
  - split; [reflexivity|]. split; [discriminate|]. split; [discriminate|].
    split; [apply noSeparator_checked; vm_compute; reflexivity|].
    right. by exists "/"%char, "start".
  - apply no_colon_no_scheme, not_elem_of_checked. vm_compute. reflexivity.
  - reflexivity.
  - reflexivity.
  - discriminate.
  - reflexivity.
  - reflexivity.
Defined.

(** A run of X20: the four quadrants of the sample, as first seen. *)
Lemma plotRadar_quadrants_witness :
  ∃ ringMap,
    buildRingMap (Sample.blips Sample.fourQuadrants) = mret ringMap
    ∧ quadrants (Runs.plottedRadar
                   (plotRadar Sample.capitalize
                         "radar" (Sample.blips Sample.fourQuadrants) None []))
      = quadrantOf Sample.capitalize ringMap (Sample.blips Sample.fourQuadrants)
          <$> ["tools"; "techniques"; "platforms"; "languages"].
Proof.
  destruct (plotRadar_quadrants Sample.capitalize
        "radar" (Sample.blips Sample.fourQuadrants) None []
              (Runs.plottedRadar
                 (plotRadar Sample.capitalize
                       "radar" (Sample.blips Sample.fourQuadrants) None [])))
    as (ringMap & Hmap & _ & Hnamed).
  { apply elem_of_checked. vm_compute. reflexivity. }
  exists ringMap. split; [exact Hmap|]. apply Hnamed.
  apply named_checked. vm_compute. reflexivity.
Defined.

(** A run of X21: "tools" and "Tools": two quadrants called "Tools". *)
Lemma plotRadar_case_sensitive_witness :
  ¬ NoDup (Quadrant_name
             <$> quadrants (Runs.plottedRadar
                              (plotRadar Sample.capitalize
                                    "radar" (Sample.blips Sample.twoSpellings)
                                 None []))).
Proof.
  refine (proj1 (plotRadar_case_sensitive Sample.capitalize
        "radar" (Sample.blips Sample.twoSpellings)
                   None []
                   (Runs.plottedRadar
                      (plotRadar Sample.capitalize
                            "radar" (Sample.blips Sample.twoSpellings) None []))
                   (Row.make "Docker" "adopt" "tools" "TRUE" None "containers")
                   (Row.make "Maven" "hold" "Tools" "false" None "builds")
                   _ _ _ _ _)).
  - apply elem_of_checked. vm_compute. reflexivity.
  - vm_compute. apply list_elem_of_here.
  - vm_compute. apply list_elem_of_further, list_elem_of_here.
  - discriminate.
  - reflexivity.
Defined.

(** A run of X22: the ring of the first blip of the sample. *)
Lemma plotRadar_blip_rings_witness :
  ∃ blip ring,
    blip ∈ Sample.blips Sample.fourQuadrants
    ∧ "Docker" = Row.name blip
    ∧ Some {| Ring_name := "adopt"; Ring_order := 0 |} = Some ring
    ∧ Ring_name ring = Row.ring blip
    ∧ Ring_order ring < 4.
Proof.
  apply (plotRadar_blip_rings Sample.capitalize
        "radar" (Sample.blips Sample.fourQuadrants) None []
           (Runs.plottedRadar
              (plotRadar Sample.capitalize "radar" (Sample.blips Sample.fourQuadrants) None []))
           {| Blip_name := "Docker";
              Blip_ring := Some {| Ring_name := "adopt"; Ring_order := 0 |};
              Blip_isNew := true;
              Blip_topic := None;
              Blip_description := "containers" |}).
  - apply elem_of_checked. vm_compute. reflexivity.
  - apply elem_of_checked. vm_compute. reflexivity.
Defined.

(** A run of X19: a URL with a "+" and no "%". *)
Lemma FileName_without_escapes_witness :
  ∃ name, FileName "https://example.org/radars/2024+Q1.csv" = mret name
    ∧ (LastSegment (JS.plusToSpace "https://example.org/radars/2024+Q1.csv") name
       ∨ (NoSegment (JS.plusToSpace "https://example.org/radars/2024+Q1.csv")
          ∧ name = "https://example.org/radars/2024+Q1.csv")).
Proof.
  apply (FileName_without_escapes "https://example.org/radars/2024+Q1.csv").
  apply not_elem_of_checked. vm_compute. reflexivity.
Defined.

(** A run of X23: a file called "café.csv", its "é" escaped as in Latin-1. *)
Lemma lone_lead_escape_URIError_witness :
  FileName "https://example.org/caf%E9.csv" = throw URIError
  ∧ DomainName "https://example.org/caf%E9.csv" = throw URIError.
Proof.
  apply (lone_lead_escape_URIError "https://example.org/caf%E9.csv").
  exists (JS.chars "https://example.org/caf"), "E"%char, "9"%char, 14%N, 9%N,
    (JS.chars ".csv").
  split; [reflexivity|]. split; [reflexivity|]. split; [reflexivity|].
  split; [vm_compute; discriminate|]. right.
  exists "."%char, (JS.chars "csv"). split; [reflexivity|discriminate].
Defined.
